(** * codekit.cli.github_tag_teams: tag the default-branch head of team repositories

    A shallow embedding of [src/codekit/cli/github_tag_teams.py] (with the
    helpers of [src/codekit/codetools.py] it calls) and the properties of its
    tag-reconciliation logic.

    The Python code talks to GitHub through PyGithub objects.  Here the
    hosting provider is an interface ([Provider]) over an abstract world
    [W]; the program is written in a state-and-exception monad whose state
    holds the provider world, the module global [cached_teams], the trace
    of provider calls, the module global [codetools.logger] and the records
    handed to it. *)

From Stdlib Require Import String List ZArith Lia.
From stdpp Require Import base option list gmap strings.

Local Open Scope string_scope.
Local Open Scope list_scope.

(** ** Python values *)

(** The exceptions that occur in the module.  [GithubException] stands for
    [github.GithubException] and all its subclasses (bad credentials, unknown
    object, rate limit, ...), told apart by the HTTP status.  [TransportError]
    stands for what the HTTP layer under PyGithub raises without wrapping it
    (socket, ssl and connection errors): such exceptions are not instances of
    [github.GithubException]. *)
Inductive exception : Type :=
| GithubException (status : Z) (data : string)
| TransportError (msg : string)
| RuntimeError (msg : string)
| ValueError (msg : string)
| EnvironmentError (msg : string)
| KeyError (key : string)
| AttributeError (msg : string)
| SystemExit (msg : string).

(** [isinstance(e, github.GithubException)] *)
Definition is_GithubException (e : exception) : bool :=
  match e with
  | GithubException _ _ => true
  | _ => false
  end.

(** The outcome of a Python call: a value, or a raised exception. *)
Inductive result (A : Type) : Type :=
| Ok (a : A)
| Raise (e : exception).
Arguments Ok {A} a.
Arguments Raise {A} e.

(** [github.GitObject]: the target of a ref. *)
Record GitObject := { sha : string; type : string }.

(** [github.GitRef].  [ref_ref] is [None] when the attribute is not set. *)
Record GitRef := { ref_ref : option string; object : GitObject }.

(** [github.InputGitAuthor(name, email, date)] *)
Record InputGitAuthor := { author_name : string; author_email : string; author_date : string }.

(** [github.GitTag]: an annotated tag object. *)
Record GitTag := {
  tag_sha : string;
  tag_tag : string;
  tag_message : string;
  tag_object : GitObject;
  tag_tagger : InputGitAuthor
}.

(** [github.Team]; requests made through a team are addressed by its id. *)
Record Team := { team_id : Z; team_name : string }.

(** [github.Repository]; requests made through a repository object are
    addressed by its API url, which is determined by [full_name]. *)
Record Repository := { full_name : string; default_branch : string }.

(** [github.Organization] *)
Record Organization := { login : string }.

(** [github.Github(token)] *)
Record Github := { token : string }.

#[global] Instance exception_eq_dec : EqDecision exception.
Proof. solve_decision. Defined.
#[global] Instance GitObject_eq_dec : EqDecision GitObject.
Proof. solve_decision. Defined.
#[global] Instance GitRef_eq_dec : EqDecision GitRef.
Proof. solve_decision. Defined.
#[global] Instance InputGitAuthor_eq_dec : EqDecision InputGitAuthor.
Proof. solve_decision. Defined.
#[global] Instance GitTag_eq_dec : EqDecision GitTag.
Proof. solve_decision. Defined.
#[global] Instance Team_eq_dec : EqDecision Team.
Proof. solve_decision. Defined.
#[global] Instance Repository_eq_dec : EqDecision Repository.
Proof. solve_decision. Defined.
#[global] Instance result_eq_dec {A} `{EqDecision A} : EqDecision (result A).
Proof. solve_decision. Defined.

(** Truth value of a string attribute that may be unset: [None] and the empty
    string are false. *)
Definition truthy (s : option string) : bool :=
  match s with
  | Some (String _ _) => true
  | _ => false
  end.

(** [re.sub(r'^refs/tags/', '', s)]: the pattern is anchored, so at most the
    leading occurrence is removed. *)
Fixpoint strip_prefix (p s : string) : option string :=
  match p with
  | EmptyString => Some s
  | String a p' =>
      match s with
      | String b s' => if Ascii.eqb a b then strip_prefix p' s' else None
      | EmptyString => None
      end
  end.

Definition re_sub_refs_tags (s : string) : string :=
  match strip_prefix "refs/tags/" s with
  | Some rest => rest
  | None => s
  end.

(** ** Python dictionaries

    A [dict] with string keys, in insertion order (the order [for k in d]
    visits): assigning to a key that is present replaces the value where it
    stands, assigning to a new key appends. *)
Definition pydict (V : Type) : Type := list (string * V).

Fixpoint dict_set {V} (k : string) (v : V) (d : pydict V) : pydict V :=
  match d with
  | [] => [(k, v)]
  | (k', v') :: d' =>
      if decide (k = k') then (k, v) :: d' else (k', v') :: dict_set k v d'
  end.

Fixpoint dict_get {V} (k : string) (d : pydict V) : option V :=
  match d with
  | [] => None
  | (k', v') :: d' => if decide (k = k') then Some v' else dict_get k d'
  end.

Definition dict_keys {V} (d : pydict V) : list string := d.*1.

(** ** Logging

    [debug()] and [info()] hand a formatted message to the logger held by
    the module global [codetools.logger].  A record keeps the template and
    the values formatted into it; whether a handler prints it depends on the
    level and the handlers, which are not modelled.  Whether there is a
    logger at all is part of the program state. *)
Inductive log_level := DEBUG | INFO.

Inductive pyval : Type :=
| VStr (s : string)
| VInt (n : nat)
| VStrs (l : list string)
| VRef (r : GitRef)
| VTag (t : GitTag)
| VAuthor (a : InputGitAuthor)
| VTeams (l : list Team).

Record log_record := { level : log_level; template : string; fields : list (string * pyval) }.

(** ** Provider calls *)

(** One entry of the trace: a request made to the provider and its outcome. *)
Inductive event : Type :=
| EvGetOrganization (g : Github) (org : string) (res : result Organization)
| EvOrgGetTeams (org : Organization) (res : result (list Team))
| EvTeamGetRepos (t : Team) (res : result (list Repository))
| EvRepoGetTeams (repo : string) (res : result (list Team))
| EvGetGitRef (repo : string) (ref : string) (res : result GitRef)
| EvCreateGitTag (repo : string) (tag message obj ty : string)
    (tagger : InputGitAuthor) (res : result GitTag)
| EvCreateGitRef (repo : string) (ref sha : string) (res : result GitRef).

(** The two requests that write to the provider. *)
Definition is_write (ev : event) : bool :=
  match ev with
  | EvCreateGitTag _ _ _ _ _ _ _ | EvCreateGitRef _ _ _ _ => true
  | _ => false
  end.

(** The hosting provider as seen through PyGithub.  Reads are answered from
    the world and leave it as it is; the two creating requests return the
    world they leave behind. *)
Class Provider (W : Type) := {
  api_get_organization : W -> Github -> string -> result Organization;
  api_org_get_teams : W -> Organization -> result (list Team);
  api_team_get_repos : W -> Team -> result (list Repository);
  api_repo_get_teams : W -> string -> result (list Team);
  api_get_git_ref : W -> string -> string -> result GitRef;
  api_create_git_tag :
    W -> string -> string -> string -> string -> string -> InputGitAuthor ->
    result GitTag * W;
  api_create_git_ref : W -> string -> string -> string -> result GitRef * W
}.

(** What the process reads from its environment: the git configuration
    ([MapGitConfig]), the file system and the clock. *)
Record Env := {
  git_user_name : option string;
  git_user_email : option string;
  expand_path : string -> string;
  first_line_of : string -> option string;
  utcnow_isoformat : string
}.

(** The namespace returned by [parse_args()]. *)
Record Args := {
  arg_tag : list string;
  arg_org : string;
  arg_team : list string;
  arg_dry_run : bool;
  arg_tagger : option string;
  arg_email : option string;
  arg_token_path : string;
  arg_token : option string;
  arg_debug : bool
}.

(** An entry of the dictionary built by [find_repos_missing_tags]:
    [{'repo': r, 'need_tags': missing_tags}]. *)
Record need_entry := { need_repo : Repository; need_tags : list string }.

(** [max(names, key=len)]: the first of the longest strings; [ValueError] on
    an empty sequence. *)
Fixpoint longest_from (best : string) (l : list string) : string :=
  match l with
  | [] => best
  | x :: l' =>
      if Nat.ltb (String.length best) (String.length x)
      then longest_from x l' else longest_from best l'
  end.

Definition max_key_len (names : list string) : result string :=
  match names with
  | [] => Raise (ValueError "max() arg is an empty sequence")
  | x :: l => Ok (longest_from x l)
  end.

Section Program.
Context {W : Type} {P : Provider W}.

(** ** Program state *)
Record state := {
  world : W;
  cached_teams : gmap string (list Team);
  logger : bool;
  calls : list event;
  logged : list log_record
}.

(** State of a process that has just imported the modules:
    [cached_teams = {}] (github_tag_teams.py, line 157) and [logger = None]
    (codetools.py, line 21), nothing called, nothing logged.  The field
    [logger] tells whether [codetools.logger] holds a logger: it is [None]
    until [codetools.setup_logging()] assigns one (line 84), and nothing in
    github_tag_teams.py calls that function. *)
Definition module_init (w : W) : state :=
  {| world := w; cached_teams := ∅; logger := false; calls := []; logged := [] |}.

(** ** The monad: state threading, with exceptions that keep the state *)
Definition M (A : Type) : Type := state -> result A * state.

Definition ret {A} (a : A) : M A := fun st => (Ok a, st).

Definition bind {A B} (m : M A) (k : A -> M B) : M B :=
  fun st =>
    match m st with
    | (Ok a, st') => k a st'
    | (Raise e, st') => (Raise e, st')
    end.

Definition raise {A} (e : exception) : M A := fun st => (Raise e, st).

(** [try: body  except <class>: handler] *)
Definition try_except {A} (body : M A) (caught : exception -> bool)
    (handler : exception -> M A) : M A :=
  fun st =>
    match body st with
    | (Raise e, st') => if caught e then handler e st' else (Raise e, st')
    | r => r
    end.

(** A [for] loop that updates a local variable. *)
Fixpoint foldM {A B} (body : B -> A -> M B) (l : list A) (acc : B) : M B :=
  match l with
  | [] => ret acc
  | x :: l' => bind (body acc x) (foldM body l')
  end.

(** A [for] loop run for its effects. *)
Fixpoint forM_ {A} (l : list A) (body : A -> M unit) : M unit :=
  match l with
  | [] => ret tt
  | x :: l' => bind (body x) (fun _ => forM_ l' body)
  end.

End Program.

Arguments state W : clear implicits.
Arguments M W A : clear implicits.

Declare Scope py_scope.
Delimit Scope py_scope with py.
Notation "x <- m ;; k" := (bind m (fun x => k))
  (at level 100, m at next level, right associativity) : py_scope.
Notation "m ;; k" := (bind m (fun _ => k))
  (at level 100, right associativity) : py_scope.
Local Open Scope py_scope.

Section Operations.
Context {W : Type} {P : Provider W}.

Definition record_call (ev : event) (st : state W) : state W :=
  {| world := world st; cached_teams := cached_teams st; logger := logger st;
     calls := calls st ++ [ev]; logged := logged st |}.

Definition record_log (r : log_record) (st : state W) : state W :=
  {| world := world st; cached_teams := cached_teams st; logger := logger st;
     calls := calls st; logged := logged st ++ [r] |}.

Definition set_world (w : W) (st : state W) : state W :=
  {| world := w; cached_teams := cached_teams st; logger := logger st;
     calls := calls st; logged := logged st |}.

Definition set_cached_teams (c : gmap string (list Team)) (st : state W) : state W :=
  {| world := world st; cached_teams := c; logger := logger st;
     calls := calls st; logged := logged st |}.

(** The assignment [logger = logging.getLogger('codekit')] of
    [codetools.setup_logging()], line 84. *)
Definition set_logger (st : state W) : state W :=
  {| world := world st; cached_teams := cached_teams st; logger := true;
     calls := calls st; logged := logged st |}.

(** State of a process that has imported the modules and then set the
    logger up, before anything else. *)
Definition logging_init (w : W) : state W := set_logger (module_init w).

(** The method of the logger behind each of the two functions. *)
Definition log_method (lv : log_level) : string :=
  match lv with
  | DEBUG => "debug"
  | INFO => "info"
  end.

(** [logger.debug] and [logger.info] called on the module global [logger],
    codetools.py lines 330-337: while [logger] is [None] the attribute
    lookup raises [AttributeError]. *)
Definition log (lv : log_level) (tpl : string) (fs : list (string * pyval)) : M W unit :=
  fun st =>
    if logger st
    then (Ok tt, record_log {| level := lv; template := tpl; fields := fs |} st)
    else (Raise (AttributeError
                   ("'NoneType' object has no attribute '" +:+ log_method lv +:+ "'")),
          st).

(** [debug(...)] and [info(...)] of the [codekit] package *)
Definition debug : string -> list (string * pyval) -> M W unit := log DEBUG.
Definition info : string -> list (string * pyval) -> M W unit := log INFO.

Definition of_result {A} (r : result A) : M W A := fun st => (r, st).

(** A read request: answered from the current world and recorded. *)
Definition read_call {A} (ask : W -> result A) (ev : result A -> event) : M W A :=
  fun st => let r := ask (world st) in (r, record_call (ev r) st).

(** A creating request: the provider's answer and the world it leaves. *)
Definition write_call {A} (ask : W -> result A * W) (ev : result A -> event) : M W A :=
  fun st =>
    let rw := ask (world st) in
    (rw.1, record_call (ev rw.1) (set_world rw.2 st)).

(** [g.get_organization(name)] *)
Definition get_organization (g : Github) (name : string) : M W Organization :=
  read_call (fun w => api_get_organization w g name) (EvGetOrganization g name).

(** [org.get_teams()], consumed in full *)
Definition org_get_teams (org : Organization) : M W (list Team) :=
  read_call (fun w => api_org_get_teams w org) (EvOrgGetTeams org).

(** [t.get_repos()], consumed in full *)
Definition team_get_repos (t : Team) : M W (list Repository) :=
  read_call (fun w => api_team_get_repos w t) (EvTeamGetRepos t).

(** [list(repo.get_teams())] *)
Definition repo_get_teams (repo : Repository) : M W (list Team) :=
  read_call (fun w => api_repo_get_teams w (full_name repo))
    (EvRepoGetTeams (full_name repo)).

(** [repo.get_git_ref(ref)] *)
Definition get_git_ref (repo : Repository) (ref : string) : M W GitRef :=
  read_call (fun w => api_get_git_ref w (full_name repo) ref)
    (EvGetGitRef (full_name repo) ref).

(** [repo.create_git_tag(tag, message, object, type, tagger=tagger)] *)
Definition create_git_tag (repo : Repository) (tag message obj ty : string)
    (tagger : InputGitAuthor) : M W GitTag :=
  write_call (fun w => api_create_git_tag w (full_name repo) tag message obj ty tagger)
    (EvCreateGitTag (full_name repo) tag message obj ty tagger).

(** [repo.create_git_ref(ref, sha)] *)
Definition create_git_ref (repo : Repository) (ref sha : string) : M W GitRef :=
  write_call (fun w => api_create_git_ref w (full_name repo) ref sha)
    (EvCreateGitRef (full_name repo) ref sha).

(** ** codetools.py *)

(** [codetools.github_token(token_path=None, token=None)], lines 185-218 *)
Definition github_token (env : Env) (token_path token : option string) : M W string :=
  match token with
  | Some tok => ret tok
  | None =>
      let token_path :=
        expand_path env (match token_path with
                         | None => "~/.sq_github_token"
                         | Some p => p
                         end) in
      match first_line_of env token_path with
      | None => raise (EnvironmentError ("No token in " +:+ token_path))
      | Some tok => ret tok
      end
  end.

(** [codetools.current_timestamp()], lines 375-382 *)
Definition current_timestamp (env : Env) : M W string :=
  let timestamp := substring 0 19 (utcnow_isoformat env) +:+ "Z" in
  debug "generated timestamp: {now}" [("now", VStr timestamp)] ;;
  ret timestamp.

(** ** github_tag_teams.py *)

(** [lookup_email(args)], lines 82-91; [codetools.gituseremail()] is the
    [user.email] of the git configuration, or [None]. *)
Definition lookup_email (env : Env) (args : Args) : M W string :=
  email <- match arg_email args with
           | Some email => ret email
           | None =>
               match git_user_email env with
               | Some email => ret email
               | None => raise (SystemExit "Specify --email option")
               end
           end ;;
  debug ("email is " +:+ email) [] ;;
  ret email.

(** [lookup_tagger(args)], lines 94-103 *)
Definition lookup_tagger (env : Env) (args : Args) : M W string :=
  tagger <- match arg_tagger args with
            | Some tagger => ret tagger
            | None =>
                match git_user_name env with
                | Some tagger => ret tagger
                | None => raise (SystemExit "Specify --tagger option")
                end
            end ;;
  debug ("tagger name is " +:+ tagger) [] ;;
  ret tagger.

(** [find_tag_by_name(repo, tag_name)], lines 106-116 *)
Definition find_tag_by_name (repo : Repository) (tag_name : string) : M W (option GitRef) :=
  let tagfmt := "tags/" +:+ tag_name in
  try_except
    (ref <- get_git_ref repo tagfmt ;;
     if truthy (ref_ref ref) then ret (Some ref) else ret None)
    is_GithubException
    (fun _ => ret None).

(** [find_tags_in_repo(repo, tags)], lines 136-154 *)
Definition find_tags_in_repo (repo : Repository) (tags : list string) : M W (list string) :=
  debug "looking for tag(s): {tags}
  in repo: {repo}" [("tags", VStrs tags); ("repo", VStr (full_name repo))] ;;
  foldM (fun found_tags t =>
      ref <- find_tag_by_name repo t ;;
      match ref with
      | Some r =>
          if truthy (ref_ref r) then
            debug "  found: {tag}" [("tag", VStr t)] ;;
            ret (found_tags ++ [re_sub_refs_tags (default "" (ref_ref r))])
          else
            debug "  not found: {tag}" [("tag", VStr t)] ;;
            ret found_tags
      | None =>
          debug "  not found: {tag}" [("tag", VStr t)] ;;
          ret found_tags
      end)
    tags [].

(** [find_repos_missing_tags(repos, tags)], lines 119-133 *)
Definition find_repos_missing_tags (repos : list Repository) (tags : list string)
    : M W (pydict need_entry) :=
  debug "looking for repos WITHOUT {tags}" [("tags", VStrs tags)] ;;
  foldM (fun need r =>
      has_tags <- find_tags_in_repo r tags ;;
      debug "has_tags {t}" [("t", VStrs has_tags)] ;;
      let missing_tags := filter (fun x => x ∉ has_tags) tags in
      debug "missing_tags {t}" [("t", VStrs missing_tags)] ;;
      match missing_tags with
      | _ :: _ =>
          ret (dict_set (full_name r)
                 {| need_repo := r; need_tags := missing_tags |} need)
      | [] => ret need
      end)
    repos [].

(** [find_repo_teams(repo)], lines 157-169, on the global [cached_teams] *)
Definition find_repo_teams (repo : Repository) : M W (list Team) :=
  fun st =>
    match cached_teams st !! full_name repo with
    | Some teams => (Ok teams, st)
    | None =>
        (teams <- repo_get_teams repo ;;
         (fun st' =>
            (Ok tt, set_cached_teams (<[full_name repo := teams]> (cached_teams st')) st')) ;;
         ret teams) st
    end.

(** [login_github(token_path=None, token=None)], lines 172-175 *)
Definition login_github (env : Env) (token_path token : option string) : M W Github :=
  tok <- github_token env token_path token ;;
  ret {| token := tok |}.

(** [tag_repo(repo, tags, tagger, dry_run=False)], lines 178-213.  The
    template of the first record is the dedented text of lines 185-190: its
    last line is continued by the backslash, so it ends with the eight
    blanks before the closing quotes and has no final newline. *)
Definition tag_repo (repo : Repository) (tags : list string) (tagger : InputGitAuthor)
    (dry_run : bool) : M W unit :=
  let default_branch := default_branch repo in
  head <- get_git_ref repo ("heads/" +:+ default_branch) ;;
  debug "tagging {repo} @
  default branch: {db}
  type: {obj_type}
  sha: {obj_sha}        "
    [("repo", VStr (full_name repo)); ("db", VStr default_branch);
     ("obj_type", VStr (type (object head))); ("obj_sha", VStr (sha (object head)))] ;;
  forM_ tags (fun t =>
    debug "  adding tag {t}" [("t", VStr t)] ;;
    if dry_run then
      debug "    (noop)" []
    else
      tag_obj <- create_git_tag repo t ("Version " +:+ t)
                   (sha (object head)) (type (object head)) tagger ;;
      debug "  created tag object {tag_obj}" [("tag_obj", VTag tag_obj)] ;;
      ref <- create_git_ref repo ("refs/tags/" +:+ t) (tag_sha tag_obj) ;;
      debug "  created ref: {ref}" [("ref", VRef ref)]).

(** [main()], lines 217-239: arguments, tagger identity, login, organisation
    and its teams.  [args.debug] only sets the logger's level; [debug(tagger)]
    logs the object itself; [login_github] is called with [token=args.token]
    alone, so [args.token_path] plays no part.  The team list is a lazy page
    iterator in the source; it is consumed in full, and only, by the
    comprehension of line 242. *)
Definition main_setup (env : Env) (args : Args) : M W (InputGitAuthor * list Team) :=
  let gh_org_name := arg_org args in
  tagger_email <- lookup_email env args ;;
  tagger_name <- lookup_tagger env args ;;
  now <- current_timestamp env ;;
  let tagger :=
    {| author_name := tagger_name; author_email := tagger_email; author_date := now |} in
  debug "{tagger}" [("tagger", VAuthor tagger)] ;;
  g <- login_github env None (arg_token args) ;;
  org <- get_organization g gh_org_name ;;
  teams <- org_get_teams org ;;
  ret (tagger, teams).

(** [main()], lines 241-255: the teams whose repositories are tagged, and
    the chained list of their repositories. *)
Definition main_target_repos (team_names : list string) (teams : list Team)
    : M W (list Repository) :=
  debug "looking for teams: {teams}" [("teams", VStrs team_names)] ;;
  let tag_teams := filter (fun t => team_name t ∈ team_names) teams in
  debug "found teams: {teams}" [("teams", VTeams tag_teams)] ;;
  match tag_teams with
  | [] => raise (RuntimeError "No teams found")
  | _ :: _ =>
      foldM (fun target_repos t =>
               repos <- team_get_repos t ;;
               ret (target_repos ++ repos))
        tag_teams []
  end.

(** [main()], lines 257-271: the report of the selected repositories with
    the requested teams each belongs to. *)
Definition main_report_found (team_names : list string) (target_repos : list Repository)
    : M W unit :=
  let names := map full_name target_repos in
  longest <- of_result (max_key_len names) ;;
  let max_name_len := String.length longest in
  info "found repo [teams]:" [] ;;
  forM_ target_repos (fun r =>
    teams <- find_repo_teams r ;;
    let m_teams :=
      map team_name (filter (fun t => team_name t ∈ team_names) teams) in
    info "  {repo: >{w}} {teams}"
      [("w", VInt max_name_len); ("repo", VStr (full_name r)); ("teams", VStrs m_teams)]).

(** [main()], lines 273-284: the analysis, the report of the repositories
    that need nothing, and the exit when no repository needs a tag. *)
Definition main_untagged (tags : list string) (target_repos : list Repository)
    : M W (pydict need_entry) :=
  untagged_repos <- find_repos_missing_tags target_repos tags ;;
  let tagged_repos :=
    filter (fun r => dict_get (full_name r) untagged_repos = None) target_repos in
  info "already tagged repos:" [] ;;
  forM_ tagged_repos (fun r => info "  {repo}" [("repo", VStr (full_name r))]) ;;
  match untagged_repos with
  | [] => raise (SystemExit "no untagged repos -- nothing to do")
  | _ :: _ => ret untagged_repos
  end.

(** [untagged_repos[k]] *)
Definition dict_item {V} (k : string) (d : pydict V) : M W V :=
  match dict_get k d with
  | Some v => ret v
  | None => raise (KeyError k)
  end.

(** [main()], lines 286-293: the report of the missing tags. *)
Definition main_report_missing (untagged_repos : pydict need_entry) : M W unit :=
  info "missing repo [tags]:" [] ;;
  longest <- of_result (max_key_len (dict_keys untagged_repos)) ;;
  let max_name_len := String.length longest in
  forM_ (dict_keys untagged_repos) (fun k =>
    e <- dict_item k untagged_repos ;;
    info "  {repo: >{w}} {tags}"
      [("w", VInt max_name_len); ("repo", VStr k); ("tags", VStrs (need_tags e))]).

(** [main()], lines 295-298: the tagging loop. *)
Definition main_tag_untagged (untagged_repos : pydict need_entry)
    (tagger : InputGitAuthor) (dry_run : bool) : M W unit :=
  forM_ (dict_keys untagged_repos) (fun k =>
    e <- dict_item k untagged_repos ;;
    let r := need_repo e in
    let tags := need_tags e in
    tag_repo r tags tagger dry_run).

(** [main()], lines 216-298 *)
Definition main (env : Env) (args : Args) : M W unit :=
  let tags := arg_tag args in
  setup <- main_setup env args ;;
  let tagger := setup.1 in
  let teams := setup.2 in
  target_repos <- main_target_repos (arg_team args) teams ;;
  main_report_found (arg_team args) target_repos ;;
  untagged_repos <- main_untagged tags target_repos ;;
  main_report_missing untagged_repos ;;
  main_tag_untagged untagged_repos tagger (arg_dry_run args).

End Operations.

(** ** An in-memory provider

    A small hosting provider that runs inside Rocq; the general theorems
    below hold for every [Provider], this one exercises them on concrete
    organisations. *)
Record hub := {
  hub_teams : list (Team * list Repository);
  hub_refs : list (string * string * GitObject);
  hub_read_only : list string;
  hub_bad_credentials : bool
}.

Definition hub_find_ref (h : hub) (repo path : string) : option GitObject :=
  (fun e => e.2) <$> List.find (fun e => bool_decide (e.1.1 = repo ∧ e.1.2 = path)) (hub_refs h).

Definition hub_answer {A} (h : hub) (r : result A) : result A :=
  if hub_bad_credentials h then Raise (GithubException 401 "Bad credentials") else r.

Definition hub_create_git_tag (h : hub) (repo tag message obj ty : string)
    (tagger : InputGitAuthor) : result GitTag * hub :=
  if bool_decide (repo ∈ hub_read_only h)
  then (Raise (GithubException 403 "Resource not accessible by integration"), h)
  else (Ok {| tag_sha := "tagobj:" +:+ repo +:+ ":" +:+ tag; tag_tag := tag;
              tag_message := message;
              tag_object := {| sha := obj; type := ty |};
              tag_tagger := tagger |}, h).

Definition hub_create_git_ref (h : hub) (repo ref sha : string) : result GitRef * hub :=
  if bool_decide (repo ∈ hub_read_only h)
  then (Raise (GithubException 403 "Resource not accessible by integration"), h)
  else
    match strip_prefix "refs/" ref with
    | None => (Raise (GithubException 422 "Reference name must start with refs/"), h)
    | Some path =>
        match hub_find_ref h repo path with
        | Some _ => (Raise (GithubException 422 "Reference already exists"), h)
        | None =>
            let o := {| sha := sha; type := "tag" |} in
            (Ok {| ref_ref := Some ref; object := o |},
             {| hub_teams := hub_teams h;
                hub_refs := hub_refs h ++ [(repo, path, o)];
                hub_read_only := hub_read_only h;
                hub_bad_credentials := hub_bad_credentials h |})
        end
    end.

#[global] Instance hub_provider : Provider hub := {|
  api_get_organization h g name := hub_answer h (Ok {| login := name |});
  api_org_get_teams h org := hub_answer h (Ok (hub_teams h).*1);
  api_team_get_repos h t :=
    hub_answer h
      (Ok (default [] ((fun e => e.2) <$>
             List.find (fun e => bool_decide (team_id e.1 = team_id t)) (hub_teams h))));
  api_repo_get_teams h repo :=
    hub_answer h
      (Ok (filter (fun e => repo ∈ map full_name e.2) (hub_teams h)).*1);
  api_get_git_ref h repo path :=
    hub_answer h
      (match hub_find_ref h repo path with
       | Some o => Ok {| ref_ref := Some ("refs/" +:+ path); object := o |}
       | None => Raise (GithubException 404 "Not Found")
       end);
  api_create_git_tag := hub_create_git_tag;
  api_create_git_ref := hub_create_git_ref
|}.

(** The organisation of the end-to-end scenario: team Core with the
    repositories acme/widget (which has v1.0) and acme/gadget. *)
Definition widget : Repository := {| full_name := "acme/widget"; default_branch := "master" |}.
Definition gadget : Repository := {| full_name := "acme/gadget"; default_branch := "main" |}.
Definition core_team : Team := {| team_id := 1; team_name := "Core" |}.
Definition tools_team : Team := {| team_id := 2; team_name := "Tools" |}.

Definition acme : hub := {|
  hub_teams := [(core_team, [widget; gadget]); (tools_team, [widget])];
  hub_refs :=
    [("acme/widget", "heads/master", {| sha := "aaa111"; type := "commit" |});
     ("acme/widget", "tags/v1.0", {| sha := "ccc333"; type := "tag" |});
     ("acme/gadget", "heads/main", {| sha := "bbb222"; type := "commit" |})];
  hub_read_only := [];
  hub_bad_credentials := false
|}.

Definition acme_env : Env := {|
  git_user_name := Some "A. Tagger";
  git_user_email := Some "tagger@example.org";
  expand_path := fun p => p;
  first_line_of := fun _ => None;
  utcnow_isoformat := "2018-03-01T12:00:00.123456"
|}.

Definition acme_args : Args := {|
  arg_tag := ["v1.0"; "v1.1"];
  arg_org := "acme";
  arg_team := ["Core"];
  arg_dry_run := false;
  arg_tagger := None;
  arg_email := None;
  arg_token_path := "~/.sq_github_token_delete";
  arg_token := Some "s3cret";
  arg_debug := false
|}.

Definition acme_tagger : InputGitAuthor := {|
  author_name := "A. Tagger";
  author_email := "tagger@example.org";
  author_date := "2018-03-01T12:00:00Z"
|}.

(** The credentials of the token are rejected: every request is answered
    with status 401. *)
Definition acme_locked : hub := {|
  hub_teams := hub_teams acme;
  hub_refs := hub_refs acme;
  hub_read_only := [];
  hub_bad_credentials := true
|}.

(** The organisation of the scenario with acme/widget closed to writing. *)
Definition acme_widget_read_only : hub := {|
  hub_teams := hub_teams acme;
  hub_refs := hub_refs acme;
  hub_read_only := ["acme/widget"];
  hub_bad_credentials := false
|}.

(** The dictionary the analysis of the scenario returns. *)
Definition acme_need : pydict need_entry :=
  [("acme/widget", {| need_repo := widget; need_tags := ["v1.1"] |});
   ("acme/gadget", {| need_repo := gadget; need_tags := ["v1.0"; "v1.1"] |})].

(** A second object for acme/widget, as a later query returns it after the
    default branch was renamed. *)
Definition widget_renamed : Repository :=
  {| full_name := "acme/widget"; default_branch := "trunk" |}.

(** The arguments of the scenario with another team list, or as a dry run. *)
Definition acme_args_for (teams : list string) (dry_run : bool) : Args := {|
  arg_tag := arg_tag acme_args;
  arg_org := arg_org acme_args;
  arg_team := teams;
  arg_dry_run := dry_run;
  arg_tagger := arg_tagger acme_args;
  arg_email := arg_email acme_args;
  arg_token_path := arg_token_path acme_args;
  arg_token := arg_token acme_args;
  arg_debug := arg_debug acme_args
|}.

(** The organisation once both repositories carry both tags. *)
Definition acme_tagged : hub := {|
  hub_teams := hub_teams acme;
  hub_refs :=
    hub_refs acme ++
    [("acme/widget", "tags/v1.1", {| sha := "ddd444"; type := "tag" |});
     ("acme/gadget", "tags/v1.0", {| sha := "eee555"; type := "tag" |});
     ("acme/gadget", "tags/v1.1", {| sha := "fff666"; type := "tag" |})];
  hub_read_only := [];
  hub_bad_credentials := false
|}.

(** An organisation whose team Core has no repository. *)
Definition acme_no_repos : hub := {|
  hub_teams := [(core_team, [])];
  hub_refs := [];
  hub_read_only := [];
  hub_bad_credentials := false
|}.

(** ** Vocabulary of the properties *)

Section Vocabulary.
Context {W : Type} {P : Provider W}.

(** The provider calls, and the log records, made between two states. *)
Definition new_calls (st st' : state W) : list event :=
  drop (length (calls st)) (calls st').

Definition new_logged (st st' : state W) : list log_record :=
  drop (length (logged st)) (logged st').

(** A computation stays within a relation between the state it starts in and
    the state it ends in, whatever it returns or raises. *)
Definition keeps (R : relation (state W)) {A} (m : M W A) : Prop :=
  forall st, R st (m st).2.

(** Nothing was written: the world is the same and the calls added to the
    trace are reads. *)
Definition reads_only (st st' : state W) : Prop :=
  world st' = world st /\
  exists evs, calls st' = calls st ++ evs /\ Forall (fun ev => is_write ev = false) evs.

(** [codetools.logger] was not assigned to. *)
Definition logger_kept (st st' : state W) : Prop := logger st' = logger st.

(** No entry of [cached_teams] was removed or replaced. *)
Definition cache_grows (st st' : state W) : Prop :=
  cached_teams st ⊆ cached_teams st'.

(** What [find_tag_by_name] makes of the provider's answer. *)
Definition lookup_outcome (answer : result GitRef) : result (option GitRef) :=
  match answer with
  | Ok ref => Ok (if truthy (ref_ref ref) then Some ref else None)
  | Raise e => if is_GithubException e then Ok None else Raise e
  end.

(** The lookup of tag [t] in [repo] returns "absent" in state [st]. *)
Definition lookup_absent (st : state W) (repo : Repository) (t : string) : bool :=
  match (find_tag_by_name repo t st).1 with
  | Ok None => true
  | _ => false
  end.

(** The provider answers with the ref that was asked for: a returned ref that
    carries a name carries the name [refs/<path>]. *)
Definition refs_named_as_asked (w : W) : Prop :=
  forall repo path ref name,
    api_get_git_ref w repo path = Ok ref ->
    ref_ref ref = Some name ->
    name = "refs/" +:+ path.

(** A transport or authorization error: an exception of the HTTP layer, or a
    [GithubException] with status 401 or 403. *)
Definition transport_or_authorization (e : exception) : bool :=
  match e with
  | TransportError _ => true
  | GithubException status _ => Z.eqb status 401 || Z.eqb status 403
  | _ => false
  end.

(** The reading of the lookup under which every transport or authorization
    error of the provider leaves [find_tag_by_name] as it was raised. *)
Definition lookup_errors_propagate : Prop :=
  forall (st : state W) (repo : Repository) (t : string) (e : exception),
    t <> "" ->
    transport_or_authorization e = true ->
    api_get_git_ref (world st) (full_name repo) ("tags/" +:+ t) = Raise e ->
    (find_tag_by_name repo t st).1 = Raise e.

(** The list [find_tags_in_repo] accumulates, as a function of the world:
    the names of the refs the lookups return, in the order of [tags]. *)
Fixpoint tags_found (w : W) (repo : string) (tags found : list string) : result (list string) :=
  match tags with
  | [] => Ok found
  | t :: tags' =>
      match lookup_outcome (api_get_git_ref w repo ("tags/" +:+ t)) with
      | Raise e => Raise e
      | Ok (Some r) =>
          if truthy (ref_ref r)
          then tags_found w repo tags' (found ++ [re_sub_refs_tags (default "" (ref_ref r))])
          else tags_found w repo tags' found
      | Ok None => tags_found w repo tags' found
      end
  end.

(** The [missing_tags] of one round of [find_repos_missing_tags]. *)
Definition missing_tags_of (w : W) (repo : string) (tags : list string) : result (list string) :=
  match tags_found w repo tags [] with
  | Ok has_tags => Ok (filter (fun x => x ∉ has_tags) tags)
  | Raise e => Raise e
  end.

(** The dictionary [find_repos_missing_tags] builds, as a function of the
    world. *)
Fixpoint analysis (w : W) (tags : list string) (repos : list Repository)
    (need : pydict need_entry) : result (pydict need_entry) :=
  match repos with
  | [] => Ok need
  | r :: repos' =>
      match missing_tags_of w (full_name r) tags with
      | Raise e => Raise e
      | Ok [] => analysis w tags repos' need
      | Ok (t :: ts) =>
          analysis w tags repos'
            (dict_set (full_name r) {| need_repo := r; need_tags := t :: ts |} need)
      end
  end.

(** The outcome of the lookup of tag [t] in the repository named [repo], as
    a function of the world: absent, present. *)
Definition absent_in (w : W) (repo t : string) : bool :=
  match lookup_outcome (api_get_git_ref w repo ("tags/" +:+ t)) with
  | Ok None => true
  | _ => false
  end.

Definition present_in (w : W) (repo t : string) : bool :=
  match lookup_outcome (api_get_git_ref w repo ("tags/" +:+ t)) with
  | Ok (Some _) => true
  | _ => false
  end.

(** The trace only grows. *)
Definition calls_extend (st st' : state W) : Prop :=
  exists evs, calls st' = calls st ++ evs.

(** The head refs resolved in a trace: repository and ref of every
    [get_git_ref] for a ref below [heads/]. *)
Definition head_lookups (evs : list event) : list (string * string) :=
  omap (fun ev =>
          match ev with
          | EvGetGitRef repo ref _ =>
              match strip_prefix "heads/" ref with
              | Some _ => Some (repo, ref)
              | None => None
              end
          | _ => None
          end) evs.

(** The two requests that create tag [t] on the object [head]. *)
Definition tag_events (repo : string) (head : GitObject) (tagger : InputGitAuthor)
    (t : string) (created : GitTag * GitRef) : list event :=
  [EvCreateGitTag repo t ("Version " +:+ t) (sha head) (type head) tagger (Ok created.1);
   EvCreateGitRef repo ("refs/tags/" +:+ t) (tag_sha created.1) (Ok created.2)].

(** The (repository, tag) pairs a trace created: the tag refs whose creation
    succeeded. *)
Definition created_tags (evs : list event) : list (string * string) :=
  omap (fun ev =>
          match ev with
          | EvCreateGitRef repo ref _ (Ok _) =>
              (fun t => (repo, t)) <$> strip_prefix "refs/tags/" ref
          | _ => None
          end) evs.

(** The (repository, tag) pairs the log records as intended: every
    "adding tag" record, under the repository of the "tagging" record before
    it. *)
Fixpoint intended_from (cur : option string) (l : list log_record) : list (string * string) :=
  match l with
  | [] => []
  | r :: l' =>
      match strip_prefix "tagging {repo} @" (template r), fields r with
      | Some _, ("repo", VStr repo) :: _ => intended_from (Some repo) l'
      | _, _ =>
          if decide (template r = "  adding tag {t}") then
            match cur, fields r with
            | Some repo, [("t", VStr t)] => (repo, t) :: intended_from cur l'
            | _, _ => intended_from cur l'
            end
          else intended_from cur l'
      end
  end.

Definition intended_creations (l : list log_record) : list (string * string) :=
  intended_from None l.

(** A trace entry that is the attempt to create tag [t] in repository [k]. *)
Definition attempts_tag (k t : string) (ev : event) : bool :=
  match ev with
  | EvCreateGitTag repo tag _ _ _ _ _ => bool_decide (repo = k /\ tag = t)
  | _ => false
  end.

(** The isolation of failures: in the tagging loop of a run that is not a
    dry run, every missing tag of every repository whose head resolves is
    attempted, whatever fails elsewhere, in a process with a logger. *)
Definition failures_isolated : Prop :=
  forall (need : pydict need_entry) (tagger : InputGitAuthor) (st : state W)
         (k : string) (e : need_entry) (t : string) (head : GitRef),
    logger st = true ->
    dict_get k need = Some e ->
    full_name (need_repo e) = k ->
    api_get_git_ref (world st) k ("heads/" +:+ default_branch (need_repo e)) = Ok head ->
    t ∈ need_tags e ->
    exists ev, ev ∈ new_calls st (main_tag_untagged need tagger false st).2 /\
               attempts_tag k t ev = true.

(** The resolver returns each repository once. *)
Definition resolver_deduplicates : Prop :=
  forall (names : list string) (teams : list Team) (st st' : state W)
         (repos : list Repository),
    names <> [] ->
    main_target_repos names teams st = (Ok repos, st') ->
    NoDup (map full_name repos).

(** The cache is state of one run: what a run does is what it does when it
    starts with an empty cache. *)
Definition cache_is_per_run : Prop :=
  forall (env : Env) (args : Args) (st : state W),
    new_calls st (main env args st).2 =
    new_calls st (main env args (set_cached_teams ∅ st)).2.

(** The body of the loop of [tag_repo], lines 198-213. *)
Definition tag_one (repo : Repository) (head : GitRef) (tagger : InputGitAuthor)
    (dry_run : bool) (t : string) : M W unit :=
  debug "  adding tag {t}" [("t", VStr t)] ;;
  if dry_run then
    debug "    (noop)" []
  else
    tag_obj <- create_git_tag repo t ("Version " +:+ t)
                 (sha (object head)) (type (object head)) tagger ;;
    debug "  created tag object {tag_obj}" [("tag_obj", VTag tag_obj)] ;;
    ref <- create_git_ref repo ("refs/tags/" +:+ t) (tag_sha tag_obj) ;;
    debug "  created ref: {ref}" [("ref", VRef ref)].

(** The records a dry run logs for one tag. *)
Definition dry_run_records (t : string) : list log_record :=
  [{| level := DEBUG; template := "  adding tag {t}"; fields := [("t", VStr t)] |};
   {| level := DEBUG; template := "    (noop)"; fields := [] |}].

(** The record [tag_repo] logs once the head is resolved. *)
Definition tagging_record (repo : Repository) (head : GitRef) : log_record :=
  {| level := DEBUG;
     template := "tagging {repo} @
  default branch: {db}
  type: {obj_type}
  sha: {obj_sha}        ";
     fields :=
       [("repo", VStr (full_name repo)); ("db", VStr (default_branch repo));
        ("obj_type", VStr (type (object head))); ("obj_sha", VStr (sha (object head)))] |}.

(** The step of the chaining of [main], lines 249-255: the repositories of
    one more team. *)
Definition chain_repos (target_repos : list Repository) (t : Team) : M W (list Repository) :=
  repos <- team_get_repos t ;;
  ret (target_repos ++ repos).

End Vocabulary.

(** ** codetools.py: manifests and organisation names

    The string methods below are those of a Python [str] whose characters
    are code points below 256, one per character of a Rocq string. *)

(** The line boundaries of [str.splitlines()]: \n, \v, \f, \r, the
    separators \x1c, \x1d, \x1e and \x85. *)
Definition is_line_boundary (c : Ascii.ascii) : bool :=
  bool_decide (Ascii.N_of_ascii c ∈ [10; 11; 12; 13; 28; 29; 30; 133]%N).

(** The white space of [str.split()]: \t to \r, \x1c to \x1f, the space,
    \x85 and \xa0. *)
Definition is_space (c : Ascii.ascii) : bool :=
  bool_decide (Ascii.N_of_ascii c ∈ [9; 10; 11; 12; 13; 28; 29; 30; 31; 32; 133; 160]%N).

(** [s.splitlines()]: the lines of [s] without their line breaks; \r\n is
    one break, and a break at the end opens no further line. *)
Fixpoint splitlines_from (cur s : string) : list string :=
  match s with
  | EmptyString =>
      match cur with
      | EmptyString => []
      | _ => [cur]
      end
  | String c s' =>
      if is_line_boundary c then
        match s' with
        | String c' s'' =>
            if bool_decide (Ascii.N_of_ascii c = 13%N /\ Ascii.N_of_ascii c' = 10%N)
            then cur :: splitlines_from EmptyString s''
            else cur :: splitlines_from EmptyString s'
        | EmptyString => cur :: splitlines_from EmptyString s'
        end
      else splitlines_from (cur +:+ String c EmptyString) s'
  end.

Definition splitlines (s : string) : list string := splitlines_from EmptyString s.

(** [s.split()]: the words of [s] between runs of white space. *)
Fixpoint split_from (cur s : string) : list string :=
  match s with
  | EmptyString =>
      match cur with
      | EmptyString => []
      | _ => [cur]
      end
  | String c s' =>
      if is_space c then
        match cur with
        | EmptyString => split_from EmptyString s'
        | _ => cur :: split_from EmptyString s'
        end
      else split_from (cur +:+ String c EmptyString) s'
  end.

Definition py_split (s : string) : list string := split_from EmptyString s.

(** [s.startswith(prefix)] *)
Definition startswith (prefix s : string) : bool :=
  match strip_prefix prefix s with
  | Some _ => true
  | None => false
  end.

(** [needle in hay], for strings *)
Fixpoint contains (needle hay : string) : bool :=
  match strip_prefix needle hay with
  | Some _ => true
  | None =>
      match hay with
      | EmptyString => false
      | String _ hay' => contains needle hay'
      end
  end.

(** A value of the dictionary of [parse_manifest_file]:
    [{'name': product, 'sha': sha, 'eups_version': eups_version}]. *)
Record manifest_entry := {
  entry_name : string;
  entry_sha : string;
  entry_eups_version : string
}.

(** The lines [parse_manifest_file] passes over: comments, the BUILD line
    and empty lines (codetools.py, lines 285-291). *)
Definition manifest_line_skipped (line : string) : bool :=
  startswith "#" line || startswith "BUILD" line ||
  match line with
  | EmptyString => true
  | _ => false
  end.

(** One round of the loop of [parse_manifest_file], lines 282-299; the
    unpacking of line 293 raises [ValueError] on fewer than three fields. *)
Definition parse_manifest_line (products : pydict manifest_entry) (line : string)
    : result (pydict manifest_entry) :=
  if startswith "#" line then Ok products
  else if startswith "BUILD" line then Ok products
  else
    match line with
    | EmptyString => Ok products
    | _ =>
        match take 3 (py_split line) with
        | [product; sha; eups_version] =>
            Ok (dict_set product
                  {| entry_name := product; entry_sha := sha;
                     entry_eups_version := eups_version |} products)
        | [] => Raise (ValueError "not enough values to unpack (expected 3, got 0)")
        | [_] => Raise (ValueError "not enough values to unpack (expected 3, got 1)")
        | _ => Raise (ValueError "not enough values to unpack (expected 3, got 2)")
        end
    end.

Fixpoint parse_manifest_lines (lines : list string) (products : pydict manifest_entry)
    : result (pydict manifest_entry) :=
  match lines with
  | [] => Ok products
  | line :: lines' =>
      match parse_manifest_line products line with
      | Ok products' => parse_manifest_lines lines' products'
      | Raise e => Raise e
      end
  end.

(** [codetools.parse_manifest_file(data)], lines 277-301, for [data] a
    [str].  [functools.lru_cache] only keeps the results of this function of
    its argument. *)
Definition parse_manifest_file (data : string) : result (pydict manifest_entry) :=
  parse_manifest_lines (splitlines data) [].

(** The outcome of [assert]: passed, or [AssertionError] with its message. *)
Inductive assertion : Type :=
| Passed
| AssertionError (msg : string).

(** [codetools.validate_org(org)], lines 385-400, with assertions enabled. *)
Definition validate_org (org : string) : assertion :=
  if contains "lsst" org
  then AssertionError
         (String (Ascii.ascii_of_nat 34) "lsst" +:+
          String (Ascii.ascii_of_nat 34) " not allowed in org name.")
  else Passed.

(** The default of the parameter [versiondb] of [fetch_manifest_file]. *)
Definition versiondb_default : string :=
  "https://raw.githubusercontent.com/lsst/versiondb/master/manifests".

Section Manifests.
Context {W : Type}.

(** What [requests.get(url)] followed by [raise_for_status()] and [.text]
    gives: the text of the response, or the exception raised. *)
Variable http_get_text : string -> result string.

(** [codetools.fetch_manifest_file(build_id, versiondb)], lines 259-274, for
    a call that [functools.lru_cache] does not answer from an earlier one. *)
Definition fetch_manifest_file (build_id versiondb : string) : M W string :=
  let shafile := versiondb +:+ "/" +:+ build_id +:+ ".txt" in
  debug "fetching: {url}" [("url", VStr shafile)] ;;
  of_result (http_get_text shafile).

(** [codetools.eups2git_ref(product, eups_version, build_id)], lines
    304-327, likewise. *)
Definition eups2git_ref (product eups_version build_id : string) : M W string :=
  manifest <- fetch_manifest_file build_id versiondb_default ;;
  products <- of_result (parse_manifest_file manifest) ;;
  entry <- dict_item product products ;;
  if decide (entry_eups_version entry = eups_version) then
    ret (entry_sha entry)
  else
    raise (RuntimeError
             ("failed to find record in manifest " +:+ build_id +:+ " for:
  " +:+ product +:+ " " +:+ eups_version)).

End Manifests.

(** The entry [parse_manifest_file] makes of a line it does not skip. *)
Definition manifest_entry_of (line : string) : option manifest_entry :=
  match take 3 (py_split line) with
  | [product; sha; eups_version] =>
      Some {| entry_name := product; entry_sha := sha; entry_eups_version := eups_version |}
  | _ => None
  end.

(** A line that [parse_manifest_file] reads as a record of [product]. *)
Definition manifest_line_of (product line : string) : Prop :=
  manifest_line_skipped line = false /\ head (py_split line) = Some product.

#[global] Instance manifest_line_of_dec product line : Decision (manifest_line_of product line).
Proof. unfold manifest_line_of. apply _. Defined.

(** The characters of a string. *)
Fixpoint chars (s : string) : list Ascii.ascii :=
  match s with
  | EmptyString => []
  | String c s' => c :: chars s'
  end.

(** A manifest as [versiondb] serves them, with afw listed twice, and the
    same with a line of two blanks in it. *)
Definition manifest_b1108 : string :=
  "# eups distrib manifest
BUILD=b1108
afw 1a2b3c 2.2016.10
base 4d5e6f 12.0 extra
afw 7a8b9c 2.2016.11
".

Definition manifest_blank_line : string :=
  "afw 1a2b3c 2.2016.10
  
base 4d5e6f 12.0
".

(** A version database that serves [manifest_b1108] as build b1108 and
    nothing else. *)
Definition versiondb_b1108 (url : string) : result string :=
  if decide (url = versiondb_default +:+ "/b1108.txt")
  then Ok manifest_b1108
  else Raise (TransportError "404 Client Error: Not Found").

(** ** Vocabulary of the further properties *)

Section FurtherVocabulary.
Context {W : Type} {P : Provider W}.

(** The exception a request was answered with, when it was. *)
Definition event_error (ev : event) : option exception :=
  match ev with
  | EvGetOrganization _ _ (Raise e)
  | EvOrgGetTeams _ (Raise e)
  | EvTeamGetRepos _ (Raise e)
  | EvRepoGetTeams _ (Raise e)
  | EvGetGitRef _ _ (Raise e)
  | EvCreateGitTag _ _ _ _ _ _ (Raise e)
  | EvCreateGitRef _ _ _ (Raise e) => Some e
  | _ => None
  end.

(** The repositories whose teams a trace asks the provider for. *)
Definition team_requests (evs : list event) : list string :=
  omap (fun ev =>
          match ev with
          | EvRepoGetTeams repo _ => Some repo
          | _ => None
          end) evs.

(** The request that the lookup of tag [t] in the repository named [repo]
    makes, with the answer of the provider. *)
Definition lookup_event (w : W) (repo t : string) : event :=
  EvGetGitRef repo ("tags/" +:+ t) (api_get_git_ref w repo ("tags/" +:+ t)).

(** The repository named [repo] is listed by a team with a requested name. *)
Definition selected (w : W) (team_names : list string) (repo : string) : Prop :=
  exists (t : Team) (rs : list Repository) (r : Repository),
    team_name t ∈ team_names /\ api_team_get_repos w t = Ok rs /\
    r ∈ rs /\ full_name r = repo.

(** The tagger identity of a run: the options when given, the git
    configuration otherwise, and the time of the start to the second. *)
Definition run_tagger (env : Env) (args : Args) : option InputGitAuthor :=
  match (match arg_email args with Some e => Some e | None => git_user_email env end),
        (match arg_tagger args with Some n => Some n | None => git_user_name env end) with
  | Some email, Some name =>
      Some {| author_name := name; author_email := email;
              author_date := substring 0 19 (utcnow_isoformat env) +:+ "Z" |}
  | _, _ => None
  end.

(** The token a run logs in with: the option when given, the first line of
    the default token file otherwise. *)
Definition run_token (env : Env) (args : Args) : option string :=
  match arg_token args with
  | Some tok => Some tok
  | None => first_line_of env (expand_path env "~/.sq_github_token")
  end.

End FurtherVocabulary.

(** The environment of the scenario with no git configuration. *)
Definition bare_env : Env := {|
  git_user_name := None;
  git_user_email := None;
  expand_path := fun p => p;
  first_line_of := fun _ => None;
  utcnow_isoformat := "2018-03-01T12:00:00"
|}.

(** The environment of the scenario with an email address in the git
    configuration and no user name. *)
Definition email_only_env : Env := {|
  git_user_name := None;
  git_user_email := Some "tagger@example.org";
  expand_path := fun p => p;
  first_line_of := fun _ => None;
  utcnow_isoformat := "2018-03-01T12:00:00"
|}.

(** The arguments of the scenario without [--token], and an environment
    with the user's home and a token file in it. *)
Definition acme_args_no_token : Args := {|
  arg_tag := arg_tag acme_args;
  arg_org := arg_org acme_args;
  arg_team := arg_team acme_args;
  arg_dry_run := arg_dry_run acme_args;
  arg_tagger := arg_tagger acme_args;
  arg_email := arg_email acme_args;
  arg_token_path := "/tmp/other_token";
  arg_token := None;
  arg_debug := arg_debug acme_args
|}.

Definition home_env : Env := {|
  git_user_name := git_user_name acme_env;
  git_user_email := git_user_email acme_env;
  expand_path := fun p =>
    match strip_prefix "~" p with
    | Some rest => "/home/tagger" +:+ rest
    | None => p
    end;
  first_line_of := fun p =>
    if decide (p = "/home/tagger/.sq_github_token") then Some "t0k3n" else None;
  utcnow_isoformat := utcnow_isoformat acme_env
|}.

(** The outcome of a computation as its trace shows it: it returned and no
    request raised, or it raised what its last request raised and no request
    before that raised. *)
Definition ends_as {A} (res : result A) (evs : list event) : Prop :=
  match res with
  | Ok _ => Forall (fun ev => event_error ev = None) evs
  | Raise e =>
      exists evs0 ev,
        evs = evs0 ++ [ev] /\ Forall (fun ev => event_error ev = None) evs0 /\
        event_error ev = Some e
  end.

(** A failure of the provider ends the computation: a request of the trace
    that was answered with an exception is the last request of the trace,
    and the computation raises that exception. *)
Definition stops_at_failure {A} (res : result A) (evs : list event) : Prop :=
  forall (i : nat) (ev : event) (e : exception),
    evs !! i = Some ev -> event_error ev = Some e ->
    S i = length evs /\ res = Raise e.

Section WriteVocabulary.
Context {W : Type} {P : Provider W}.

(** A creating request for tag [t] in the repository named [repo]: the tag
    object, with the message of line 205 and the identity [tagger], or the
    ref of line 212. *)
Definition creates (repo t : string) (tagger : InputGitAuthor) (ev : event) : Prop :=
  match ev with
  | EvCreateGitTag r tag message _ _ tg _ =>
      r = repo /\ tag = t /\ message = "Version " +:+ t /\ tg = tagger
  | EvCreateGitRef r ref _ _ => r = repo /\ ref = "refs/tags/" +:+ t
  | _ => False
  end.

(** The trace grew, and every creating request it grew by satisfies [Q]. *)
Definition writes_within (Q : event -> Prop) (st st' : state W) : Prop :=
  exists evs, calls st' = calls st ++ evs /\
              Forall (fun ev => is_write ev = true -> Q ev) evs.

End WriteVocabulary.

(** Two of the creating requests of the run of the scenario: the tag object
    v1.1 of the widget repository and the ref of the tag v1.0 of the gadget
    repository. *)
Definition widget_v1_1_created : event :=
  EvCreateGitTag "acme/widget" "v1.1" "Version v1.1" "aaa111" "commit" acme_tagger
    (Ok {| tag_sha := "tagobj:acme/widget:v1.1"; tag_tag := "v1.1";
           tag_message := "Version v1.1";
           tag_object := {| sha := "aaa111"; type := "commit" |};
           tag_tagger := acme_tagger |}).

Definition gadget_v1_0_ref : event :=
  EvCreateGitRef "acme/gadget" "refs/tags/v1.0" "tagobj:acme/gadget:v1.0"
    (Ok {| ref_ref := Some "refs/tags/v1.0";
           object := {| sha := "tagobj:acme/gadget:v1.0"; type := "tag" |} |}).

Section ExitVocabulary.
Context {W : Type} {P : Provider W}.

(** The exceptions [main] raises by itself: the two exits for a missing
    identity, the missing token file, "No teams found", [max()] of no
    repository name, and the exit when nothing needs a tag. *)
Definition own_exits (env : Env) : list exception :=
  [SystemExit "Specify --email option";
   SystemExit "Specify --tagger option";
   EnvironmentError ("No token in " +:+ expand_path env "~/.sq_github_token");
   RuntimeError "No teams found";
   ValueError "max() arg is an empty sequence";
   SystemExit "no untagged repos -- nothing to do"].

(** The last request of a trace was answered with the exception [e]. *)
Definition raised_by_last (e : exception) (evs : list event) : Prop :=
  exists evs0 ev, evs = evs0 ++ [ev] /\ event_error ev = Some e.

(** In a process with a logger, a computation only adds to the trace, keeps
    the logger, and an exception it raises is one of [own] or the answer to
    the last request it made. *)
Definition fails_well (own : exception -> Prop) {A} (m : M W A) : Prop :=
  forall st, logger st = true -> exists evs,
    calls (m st).2 = calls st ++ evs /\
    logger (m st).2 = true /\
    forall e, (m st).1 = Raise e -> own e \/ raised_by_last e evs.

End ExitVocabulary.

Section PhaseVocabulary.
Context {W : Type} {P : Provider W}.

(** A request of the analysis: a listing of the organisation, of teams or
    of repositories, or the lookup of a tag.  The lookup of a head and the
    creating requests are not among them. *)
Definition analysis_request (ev : event) : Prop :=
  match ev with
  | EvGetGitRef _ ref _ => exists t, ref = "tags/" +:+ t
  | EvCreateGitTag _ _ _ _ _ _ _ | EvCreateGitRef _ _ _ _ => False
  | _ => True
  end.

(** The trace grew by requests of the analysis. *)
Definition analysis_only (st st' : state W) : Prop :=
  exists evs, calls st' = calls st ++ evs /\ Forall analysis_request evs.

(** A request of the tagging: the lookup of a head, or a creating request. *)
Definition tagging_request (ev : event) : Prop :=
  match ev with
  | EvGetGitRef _ ref _ => exists branch, ref = "heads/" +:+ branch
  | EvCreateGitTag _ _ _ _ _ _ _ | EvCreateGitRef _ _ _ _ => True
  | _ => False
  end.

(** The trace grew by requests of the tagging. *)
Definition tagging_only (st st' : state W) : Prop :=
  exists evs, calls st' = calls st ++ evs /\ Forall tagging_request evs.

End PhaseVocabulary.

Section ClaimsAsStated.
Context {W : Type} {P : Provider W}.

(** The analysis in terms of the lookups alone: in a process with a logger,
    the dictionary has an entry for a repository of the input exactly when
    the lookup of some requested tag returned absent, and the entry lists
    the tags whose lookup returned absent. *)
Definition missing_is_lookup_absent : Prop :=
  forall (repos : list Repository) (tags : list string) (st : state W)
         (need : pydict need_entry),
    logger st = true ->
    (find_repos_missing_tags repos tags st).1 = Ok need ->
    forall r, r ∈ repos ->
      let missing := filter (fun t => lookup_absent st r t = true) tags in
      (is_Some (dict_get (full_name r) need) <-> missing <> []) /\
      (forall e, dict_get (full_name r) need = Some e -> need_tags e = missing).


End ClaimsAsStated.

(** ** A provider that resolves ref names up to an alias

    The organisation [aliased], asked for the ref [alias_of path] where the
    program asked for [path]: the ref it returns carries the name under
    which it is stored. *)
Record aliasing := { aliased : hub; alias_of : string -> string }.

Definition aliasing_write {A} (a : aliasing) (rw : result A * hub) : result A * aliasing :=
  (rw.1, {| aliased := rw.2; alias_of := alias_of a |}).

#[global] Instance aliasing_provider : Provider aliasing := {|
  api_get_organization a := api_get_organization (aliased a);
  api_org_get_teams a := api_org_get_teams (aliased a);
  api_team_get_repos a := api_team_get_repos (aliased a);
  api_repo_get_teams a := api_repo_get_teams (aliased a);
  api_get_git_ref a repo path := api_get_git_ref (aliased a) repo (alias_of a path);
  api_create_git_tag a repo tag message obj ty tagger :=
    aliasing_write a (api_create_git_tag (aliased a) repo tag message obj ty tagger);
  api_create_git_ref a repo ref sha :=
    aliasing_write a (api_create_git_ref (aliased a) repo ref sha)
|}.

(** The organisation of the scenario behind a provider that finds the tag
    v1.0 when it is asked for V1.0. *)
Definition acme_folding : aliasing := {|
  aliased := acme;
  alias_of := fun path => if decide (path = "tags/V1.0") then "tags/v1.0" else path
|}.

(** * Properties *)

Create HintDb keeps.

Section MonadFacts.
Context {W : Type} {P : Provider W}.

Lemma foldM_app {A B} (body : B -> A -> M W B) (l1 l2 : list A) (acc : B) (st : state W) :
  foldM body (l1 ++ l2) acc st = bind (foldM body l1 acc) (foldM body l2) st.
Proof.
  revert acc st. induction l1 as [|x l1 IH]; intros acc st; simpl.
  - reflexivity.
  - unfold bind in *. destruct (body acc x st) as [[b|e] st1]; [apply IH|reflexivity].
Qed.

Lemma forM__app {A} (body : A -> M W unit) (l1 l2 : list A) (st : state W) :
  forM_ (l1 ++ l2) body st = bind (forM_ l1 body) (fun _ => forM_ l2 body) st.
Proof.
  revert st. induction l1 as [|x l1 IH]; intros st; simpl.
  - reflexivity.
  - unfold bind in *. destruct (body x st) as [[[]|e] st1]; [apply IH|reflexivity].
Qed.

Section Keeps.
Context (R : relation (state W)) `{!PreOrder R}.

Lemma keeps_ret {A} (a : A) : keeps R (ret a).
Proof. intros st. simpl. reflexivity. Qed.

Lemma keeps_raise {A} (e : exception) : keeps R (raise (A := A) e).
Proof. intros st. simpl. reflexivity. Qed.

Lemma keeps_of_result {A} (r : result A) : keeps R (of_result r).
Proof. intros st. simpl. reflexivity. Qed.

Lemma keeps_bind {A B} (m : M W A) (k : A -> M W B) :
  keeps R m -> (forall a, keeps R (k a)) -> keeps R (bind m k).
Proof.
  intros Hm Hk st. unfold bind. specialize (Hm st).
  destruct (m st) as [[a|e] st1]; simpl in *; [|exact Hm].
  etrans; [exact Hm|apply Hk].
Qed.

Lemma keeps_try_except {A} (body : M W A) caught (handler : exception -> M W A) :
  keeps R body -> (forall e, keeps R (handler e)) -> keeps R (try_except body caught handler).
Proof.
  intros Hb Hh st. unfold try_except. specialize (Hb st).
  destruct (body st) as [[a|e] st1]; simpl in *; [exact Hb|].
  destruct (caught e); simpl; [|exact Hb].
  etrans; [exact Hb|apply Hh].
Qed.

Lemma keeps_foldM {A B} (body : B -> A -> M W B) (l : list A) (acc : B) :
  (forall b a, keeps R (body b a)) -> keeps R (foldM body l acc).
Proof.
  intros Hb. revert acc. induction l as [|x l IH]; intros acc; simpl.
  - apply keeps_ret.
  - apply keeps_bind; [apply Hb|exact IH].
Qed.

Lemma keeps_forM_ {A} (body : A -> M W unit) (l : list A) :
  (forall a, keeps R (body a)) -> keeps R (forM_ l body).
Proof.
  intros Hb. induction l as [|x l IH]; simpl.
  - apply keeps_ret.
  - apply keeps_bind; [apply Hb|intros _; exact IH].
Qed.

End Keeps.
End MonadFacts.

(** ** Effects of the operations

    Which relations between start and end state the operations stay within,
    for every relation that admits the state changes they make. *)
Section Effects.
Context {W : Type} {P : Provider W} (R : relation (state W)) `{!PreOrder R}.
Hypothesis R_log : forall st r, R st (record_log r st).
Hypothesis R_read : forall st ev, is_write ev = false -> R st (record_call ev st).
Hypothesis R_cache :
  forall st k v, cached_teams st !! k = None ->
    R st (set_cached_teams (<[k:=v]> (cached_teams st)) st).

Lemma keeps_log lv tpl fs : keeps R (log lv tpl fs).
Proof. intros st. unfold log. destruct (logger st); [apply R_log|reflexivity]. Qed.

Lemma keeps_read_call {A} (ask : W -> result A) (ev : result A -> event) :
  (forall r, is_write (ev r) = false) -> keeps R (read_call ask ev).
Proof. intros Hev st. apply R_read, Hev. Qed.

Ltac head_of t :=
  lazymatch t with
  | ?f _ => head_of f
  | _ => t
  end.

Ltac keeps_step :=
  first
    [ solve [auto 1 with keeps nocore]
    | apply keeps_ret | apply keeps_raise | apply keeps_of_result
    | apply keeps_log
    | apply keeps_read_call; intros; reflexivity
    | apply keeps_bind | apply keeps_try_except
    | apply keeps_foldM | apply keeps_forM_
    | match goal with
      | |- forall _, _ => intro
      | |- keeps _ (match ?x with _ => _ end) => destruct x
      | |- keeps _ (if ?x then _ else _) => destruct x
      | |- keeps _ ?m => let h := head_of m in progress unfold h
      end ].

Ltac keeps_tac := cbv zeta; repeat keeps_step.

Lemma keeps_find_tag_by_name repo t : keeps R (find_tag_by_name repo t).
Proof. unfold find_tag_by_name, get_git_ref. keeps_tac. Qed.

Lemma keeps_find_tags_in_repo repo tags : keeps R (find_tags_in_repo repo tags).
Proof. unfold find_tags_in_repo. keeps_tac. Qed.

Lemma keeps_find_repos_missing_tags repos tags :
  keeps R (find_repos_missing_tags repos tags).
Proof. unfold find_repos_missing_tags. keeps_tac. Qed.

Lemma keeps_find_repo_teams repo : keeps R (find_repo_teams repo).
Proof.
  intros st. unfold find_repo_teams.
  destruct (cached_teams st !! full_name repo) eqn:Hc; simpl; [reflexivity|].
  unfold bind, repo_get_teams, read_call; simpl.
  destruct (api_repo_get_teams (world st) (full_name repo)) as [teams|e]; simpl.
  - trans (record_call (EvRepoGetTeams (full_name repo) (Ok teams)) st).
    + apply R_read; reflexivity.
    + apply (R_cache (record_call _ st)). exact Hc.
  - apply R_read; reflexivity.
Qed.
#[local] Hint Resolve keeps_find_repo_teams : keeps.

Lemma keeps_main_setup env args : keeps R (main_setup env args).
Proof. unfold main_setup. keeps_tac. Qed.

Lemma keeps_main_target_repos names teams : keeps R (main_target_repos names teams).
Proof. unfold main_target_repos. keeps_tac. Qed.

Lemma keeps_main_report_found names repos : keeps R (main_report_found names repos).
Proof. unfold main_report_found. keeps_tac. Qed.

Lemma keeps_main_untagged tags repos : keeps R (main_untagged tags repos).
Proof. unfold main_untagged. keeps_tac. Qed.

Lemma keeps_main_report_missing need : keeps R (main_report_missing need).
Proof. unfold main_report_missing. keeps_tac. Qed.

Hypothesis R_write : forall st w ev, R st (record_call ev (set_world w st)).

Lemma keeps_write_call {A} (ask : W -> result A * W) (ev : result A -> event) :
  keeps R (write_call ask ev).
Proof. intros st. apply R_write. Qed.
#[local] Hint Resolve keeps_write_call : keeps.

Lemma keeps_tag_repo repo tags tagger dry_run : keeps R (tag_repo repo tags tagger dry_run).
Proof. unfold tag_repo. keeps_tac. Qed.

Lemma keeps_main_tag_untagged need tagger dry_run :
  keeps R (main_tag_untagged need tagger dry_run).
Proof. unfold main_tag_untagged. keeps_tac. Qed.

Lemma keeps_main env args : keeps R (main env args).
Proof. unfold main. keeps_tac. Qed.

End Effects.

(** ** The logger *)

Section Logger.
Context {W : Type} {P : Provider W}.

Lemma log_ok lv tpl fs (st : state W) :
  logger st = true ->
  log lv tpl fs st = (Ok tt, record_log {| level := lv; template := tpl; fields := fs |} st).
Proof. intros H. unfold log. by rewrite H. Qed.

Lemma log_unset lv tpl fs (st : state W) :
  logger st = false ->
  log lv tpl fs st =
    (Raise (AttributeError
              ("'NoneType' object has no attribute '" +:+ log_method lv +:+ "'")), st).
Proof. intros H. unfold log. by rewrite H. Qed.

Lemma debug_ok tpl fs (st : state W) :
  logger st = true ->
  debug tpl fs st = (Ok tt, record_log {| level := DEBUG; template := tpl; fields := fs |} st).
Proof. apply log_ok. Qed.

Lemma info_ok tpl fs (st : state W) :
  logger st = true ->
  info tpl fs st = (Ok tt, record_log {| level := INFO; template := tpl; fields := fs |} st).
Proof. apply log_ok. Qed.

Lemma debug_unset tpl fs (st : state W) :
  logger st = false ->
  debug tpl fs st =
    (Raise (AttributeError "'NoneType' object has no attribute 'debug'"), st).
Proof. apply (log_unset DEBUG). Qed.

Lemma info_unset tpl fs (st : state W) :
  logger st = false ->
  info tpl fs st =
    (Raise (AttributeError "'NoneType' object has no attribute 'info'"), st).
Proof. apply (log_unset INFO). Qed.

#[export] Instance logger_kept_preorder : PreOrder (logger_kept (W := W)).
Proof.
  split.
  - by intros st.
  - intros st1 st2 st3 H1 H2. unfold logger_kept in *. congruence.
Qed.

(** Nothing in github_tag_teams.py assigns to [codetools.logger]. *)
Lemma logger_kept_main env args : keeps logger_kept (main (W := W) env args).
Proof. by apply keeps_main; first apply _. Qed.

Lemma logger_kept_find_repos_missing_tags repos tags :
  keeps logger_kept (find_repos_missing_tags (W := W) repos tags).
Proof. by apply keeps_find_repos_missing_tags; first apply _. Qed.

Lemma logger_kept_find_tags_in_repo repo tags :
  keeps logger_kept (find_tags_in_repo (W := W) repo tags).
Proof. by apply keeps_find_tags_in_repo; first apply _. Qed.

Lemma logger_kept_tag_repo repo tags tagger dry_run :
  keeps logger_kept (tag_repo (W := W) repo tags tagger dry_run).
Proof. by apply keeps_tag_repo; first apply _. Qed.

Lemma logger_kept_main_setup env args : keeps logger_kept (main_setup (W := W) env args).
Proof. by apply keeps_main_setup; first apply _. Qed.

Lemma logger_kept_main_target_repos names teams :
  keeps logger_kept (main_target_repos (W := W) names teams).
Proof. by apply keeps_main_target_repos; first apply _. Qed.

Lemma logger_kept_main_report_found names repos :
  keeps logger_kept (main_report_found (W := W) names repos).
Proof. by apply keeps_main_report_found; first apply _. Qed.

Lemma logger_kept_main_untagged tags repos :
  keeps logger_kept (main_untagged (W := W) tags repos).
Proof. by apply keeps_main_untagged; first apply _. Qed.

Lemma logger_kept_main_report_missing need :
  keeps logger_kept (main_report_missing (W := W) need).
Proof. by apply keeps_main_report_missing; first apply _. Qed.

Lemma logger_kept_main_tag_untagged need tagger dry_run :
  keeps logger_kept (main_tag_untagged (W := W) need tagger dry_run).
Proof. by apply keeps_main_tag_untagged; first apply _. Qed.

End Logger.

Ltac logs :=
  repeat first
    [ rewrite debug_ok by (cbn [logger record_log record_call set_world set_cached_teams];
                           assumption)
    | rewrite info_ok by (cbn [logger record_log record_call set_world set_cached_teams];
                          assumption)
    | rewrite log_ok by (cbn [logger record_log record_call set_world set_cached_teams];
                         assumption) ].

Ltac run_logs := repeat (progress (logs; cbv beta iota)).

Section Frames.
Context {W : Type} {P : Provider W}.

#[export] Instance reads_only_preorder : PreOrder (reads_only (W := W)).
Proof.
  split.
  - intros st. split; [reflexivity|]. exists []. by rewrite app_nil_r.
  - intros st1 st2 st3 [Hw1 (evs1 & Hc1 & Hf1)] [Hw2 (evs2 & Hc2 & Hf2)].
    split; [congruence|]. exists (evs1 ++ evs2). split.
    + by rewrite Hc2, Hc1, app_assoc.
    + by apply Forall_app.
Qed.

Lemma reads_only_log (st : state W) r : reads_only st (record_log r st).
Proof. split; [reflexivity|]. exists []. by rewrite app_nil_r. Qed.

Lemma reads_only_read (st : state W) ev :
  is_write ev = false -> reads_only st (record_call ev st).
Proof. intros Hev. split; [reflexivity|]. exists [ev]. split; [reflexivity|]. by constructor. Qed.

Lemma reads_only_cache (st : state W) c : reads_only st (set_cached_teams c st).
Proof. split; [reflexivity|]. exists []. by rewrite app_nil_r. Qed.

Lemma new_calls_app (st st' : state W) evs :
  calls st' = calls st ++ evs -> new_calls st st' = evs.
Proof. intros H. unfold new_calls. rewrite H. apply drop_app_length. Qed.

Lemma reads_only_no_write (st st' : state W) :
  reads_only st st' ->
  world st' = world st /\ filter is_write (new_calls st st') = [].
Proof.
  intros [Hw (evs & Hc & Hf)]. split; [exact Hw|].
  rewrite (new_calls_app _ _ _ Hc). clear Hc.
  induction Hf as [|ev evs Hev _ IH]; [reflexivity|].
  rewrite filter_cons_False; [exact IH|]. rewrite Hev. intros [].
Qed.

#[export] Instance cache_grows_preorder : PreOrder (cache_grows (W := W)).
Proof.
  split.
  - intros st. unfold cache_grows. reflexivity.
  - intros st1 st2 st3 H1 H2. unfold cache_grows in *. by etrans.
Qed.

Lemma cache_grows_insert (st : state W) k v :
  cached_teams st !! k = None ->
  cache_grows st (set_cached_teams (<[k:=v]> (cached_teams st)) st).
Proof. intros Hk. unfold cache_grows; simpl. by apply insert_subseteq. Qed.

(** The analysis phases of [main] write nothing. *)
Lemma reads_only_find_repos_missing_tags repos tags :
  keeps reads_only (find_repos_missing_tags (W := W) repos tags).
Proof.
  apply keeps_find_repos_missing_tags; first apply _;
    auto using reads_only_log, reads_only_read.
Qed.

Lemma reads_only_main_setup env args : keeps reads_only (main_setup (W := W) env args).
Proof.
  apply keeps_main_setup; first apply _; auto using reads_only_log, reads_only_read.
Qed.

Lemma reads_only_main_target_repos names teams :
  keeps reads_only (main_target_repos (W := W) names teams).
Proof.
  apply keeps_main_target_repos; first apply _;
    auto using reads_only_log, reads_only_read.
Qed.

Lemma reads_only_main_report_found names repos :
  keeps reads_only (main_report_found (W := W) names repos).
Proof.
  apply keeps_main_report_found; first apply _;
    auto using reads_only_log, reads_only_read, reads_only_cache.
Qed.

Lemma reads_only_main_untagged tags repos :
  keeps reads_only (main_untagged (W := W) tags repos).
Proof.
  apply keeps_main_untagged; first apply _;
    auto using reads_only_log, reads_only_read.
Qed.

(** [main] never removes or replaces an entry of [cached_teams]. *)
Lemma cache_grows_main env args : keeps cache_grows (main (W := W) env args).
Proof.
  apply keeps_main; first apply _; intros; try apply cache_grows_insert; auto;
    unfold cache_grows; reflexivity.
Qed.

End Frames.

(** ** Tag lookup *)

Section Lookup.
Context {W : Type} {P : Provider W}.

(** One lookup is one [get_git_ref] request for [tags/<name>]; its value is
    [lookup_outcome] of the provider's answer. *)
Lemma find_tag_by_name_run (repo : Repository) (t : string) (st : state W) :
  find_tag_by_name repo t st =
    (lookup_outcome (api_get_git_ref (world st) (full_name repo) ("tags/" +:+ t)),
     record_call
       (EvGetGitRef (full_name repo) ("tags/" +:+ t)
          (api_get_git_ref (world st) (full_name repo) ("tags/" +:+ t))) st).
Proof.
  unfold find_tag_by_name, try_except, bind, get_git_ref, read_call, lookup_outcome; simpl.
  destruct (api_get_git_ref (world st) (full_name repo) ("tags/" +:+ t)) as [ref|e].
  - by destruct (truthy (ref_ref ref)).
  - by destruct (is_GithubException e).
Qed.

(** C3 (as amended): when the provider raises during the tag-existence
    lookup, the exception leaves [find_tag_by_name] only if it is not a
    [GithubException]; every [GithubException], whatever its status (so also
    an authorization failure), is caught and the lookup returns [None]. *)
Theorem find_tag_by_name_raise (repo : Repository) (t : string) (st : state W) e :
  api_get_git_ref (world st) (full_name repo) ("tags/" +:+ t) = Raise e ->
  (find_tag_by_name repo t st).1 = if is_GithubException e then Ok None else Raise e.
Proof. intros H. rewrite find_tag_by_name_run; simpl. by rewrite H. Qed.

End Lookup.

Lemma find_tag_by_name_raise_witness :
  api_get_git_ref acme_locked "acme/widget" "tags/v1.1"
    = Raise (GithubException 401 "Bad credentials") /\
  (find_tag_by_name widget "v1.1" (module_init acme_locked)).1 = Ok None.
Proof.
  split; [reflexivity|].
  exact (find_tag_by_name_raise widget "v1.1" (module_init acme_locked)
           (GithubException 401 "Bad credentials") eq_refl).
Defined.

(** C3 (as stated) fails: an authorization error of the provider is swallowed
    and reported as "tag not found". *)
Lemma lookup_errors_propagate_fails : ~ lookup_errors_propagate (W := hub).
Proof.
  intros H.
  specialize (H (module_init acme_locked) widget "v1.1"
                (GithubException 401 "Bad credentials")).
  discriminate H; [discriminate|reflexivity|reflexivity].
Qed.

(** ** Python dictionaries and lists *)

Lemma dict_get_set {V} (k k' : string) (v : V) (d : pydict V) :
  dict_get k (dict_set k' v d) = if decide (k = k') then Some v else dict_get k d.
Proof.
  induction d as [|[k0 v0] d IH]; simpl.
  - by repeat case_decide.
  - repeat (case_decide; simpl; simplify_eq); try done.
Qed.

Lemma dict_keys_set {V} (k : string) (v : V) (d : pydict V) :
  dict_keys (dict_set k v d) =
    if decide (k ∈ dict_keys d) then dict_keys d else dict_keys d ++ [k].
Proof.
  unfold dict_keys. induction d as [|[k0 v0] d IH].
  - rewrite decide_False; [done|]. apply not_elem_of_nil.
  - cbn [dict_set]. destruct (decide (k = k0)) as [->|Hne].
    + rewrite decide_True; [done|]. rewrite fmap_cons. by left.
    + rewrite !fmap_cons, IH. cbn [fst]. destruct (decide (k ∈ d.*1)) as [Hin|Hin].
      * rewrite decide_True; [done|by right].
      * rewrite decide_False; [done|]. intros [?|?]%elem_of_cons; by simplify_eq.
Qed.

Lemma dict_set_NoDup {V} (k : string) (v : V) (d : pydict V) :
  NoDup (dict_keys d) -> NoDup (dict_keys (dict_set k v d)).
Proof.
  intros Hd. rewrite dict_keys_set. case_decide as Hin; [done|].
  apply NoDup_app. split; [done|]. split; [|apply NoDup_singleton].
  intros x Hx ->%list_elem_of_singleton. done.
Qed.

Lemma dict_get_elem_of {V} (k : string) (v : V) (d : pydict V) :
  dict_get k d = Some v -> (k, v) ∈ d.
Proof.
  induction d as [|[k0 v0] d IH]; simpl; [done|].
  case_decide; intros; simplify_eq; [by left|right; auto].
Qed.

Lemma dict_get_NoDup {V} (k : string) (v : V) (d : pydict V) :
  NoDup (dict_keys d) -> (k, v) ∈ d -> dict_get k d = Some v.
Proof.
  unfold dict_keys. induction d as [|[k0 v0] d IH]; simpl.
  - by intros _ ?%not_elem_of_nil.
  - intros [Hk0 Hd]%NoDup_cons [Heq|Hin]%elem_of_cons.
    + simplify_eq. by rewrite decide_True.
    + rewrite decide_False; [auto|]. intros ->. apply Hk0.
      apply list_elem_of_fmap. by exists (k0, v).
Qed.

Lemma filter_ext_in {A} (Q1 Q2 : A -> Prop)
    `{!forall x, Decision (Q1 x), !forall x, Decision (Q2 x)} (l : list A) :
  (forall x, x ∈ l -> Q1 x <-> Q2 x) -> filter Q1 l = filter Q2 l.
Proof.
  induction l as [|x l IH]; intros Hext; [done|].
  rewrite !filter_cons. rewrite IH by (intros; apply Hext; by right).
  destruct (decide (Q1 x)) as [H1|H1], (decide (Q2 x)) as [H2|H2]; try done.
  - destruct H2. apply Hext; [by left|done].
  - destruct H1. apply Hext; [by left|done].
Qed.

Lemma re_sub_refs_tags_tag (t : string) :
  re_sub_refs_tags ("refs/" +:+ ("tags/" +:+ t)) = t.
Proof. reflexivity. Qed.

(** ** Missing-tag analysis *)

Section Analysis.
Context {W : Type} {P : Provider W}.

Lemma lookup_absent_eq (st : state W) (repo : Repository) (t : string) :
  lookup_absent st repo t = absent_in (world st) (full_name repo) t.
Proof. unfold lookup_absent, absent_in. by rewrite find_tag_by_name_run. Qed.

(** The code against its value as a function of the world, in a process
    with a logger. *)
Lemma find_tags_loop_run (repo : Repository) (tags found : list string) (st : state W) :
  logger st = true ->
  exists st',
    foldM (fun found_tags t =>
        ref <- find_tag_by_name repo t ;;
        match ref with
        | Some r =>
            if truthy (ref_ref r) then
              debug "  found: {tag}" [("tag", VStr t)] ;;
              ret (found_tags ++ [re_sub_refs_tags (default "" (ref_ref r))])
            else
              debug "  not found: {tag}" [("tag", VStr t)] ;;
              ret found_tags
        | None =>
            debug "  not found: {tag}" [("tag", VStr t)] ;;
            ret found_tags
        end) tags found st
      = (tags_found (world st) (full_name repo) tags found, st')
    /\ world st' = world st /\ logger st' = true.
Proof.
  revert found st. induction tags as [|t tags IH]; intros found st Hlog; cbn [foldM].
  - by eexists.
  - unfold bind at 1. unfold bind at 1. rewrite find_tag_by_name_run. cbn [tags_found].
    destruct (lookup_outcome _) as [[r|]|e]; [destruct (truthy (ref_ref r))| |];
      try (by eexists); unfold bind at 1; logs; cbn [ret];
      match goal with |- context [foldM _ tags ?f ?s] =>
        destruct (IH f s) as (st' & -> & Hw & Hl); [done|] end; by eexists.
Qed.

Lemma find_tags_in_repo_run (repo : Repository) (tags : list string) (st : state W) :
  logger st = true ->
  exists st',
    find_tags_in_repo repo tags st = (tags_found (world st) (full_name repo) tags [], st')
    /\ world st' = world st /\ logger st' = true.
Proof.
  intros Hlog. unfold find_tags_in_repo. unfold bind at 1. logs.
  match goal with |- context [foldM _ tags ?f ?s] =>
    destruct (find_tags_loop_run repo tags f s) as (st' & -> & Hw & Hl); [done|] end.
  by eexists.
Qed.

(** Without a logger the first [debug()] ends the search. *)
Lemma find_tags_in_repo_unset (repo : Repository) (tags : list string) (st : state W) :
  logger st = false ->
  find_tags_in_repo repo tags st =
    (Raise (AttributeError "'NoneType' object has no attribute 'debug'"), st).
Proof. intros Hlog. unfold find_tags_in_repo. unfold bind at 1. by rewrite debug_unset. Qed.

End Analysis.

(** ** The analysis as a function of the world *)

Section AnalysisValue.
Context {W : Type} {P : Provider W}.

Lemma find_repos_loop_run (repos : list Repository) (tags : list string)
    (need : pydict need_entry) (st : state W) :
  logger st = true ->
  exists st',
    foldM (fun need r =>
        has_tags <- find_tags_in_repo r tags ;;
        debug "has_tags {t}" [("t", VStrs has_tags)] ;;
        let missing_tags := filter (fun x => x ∉ has_tags) tags in
        debug "missing_tags {t}" [("t", VStrs missing_tags)] ;;
        match missing_tags with
        | _ :: _ =>
            ret (dict_set (full_name r)
                   {| need_repo := r; need_tags := missing_tags |} need)
        | [] => ret need
        end) repos need st
    = (analysis (world st) tags repos need, st')
    /\ world st' = world st /\ logger st' = true.
Proof.
  set (body := fun (need : pydict need_entry) (r : Repository) => _).
  revert need st. induction repos as [|r repos IH]; intros need st Hlog; cbn [foldM].
  - by eexists.
  - unfold bind at 1. unfold body at 1. unfold bind at 1.
    destruct (find_tags_in_repo_run r tags st Hlog) as (st1 & -> & Hw1 & Hl1).
    cbn [analysis]. unfold missing_tags_of.
    destruct (tags_found (world st) (full_name r) tags []) as [has|e]; [|by eexists].
    unfold bind at 1. logs. cbv zeta. unfold bind at 1. logs.
    destruct (filter (fun x => x ∉ has) tags) as [|t ts]; cbn [ret];
      match goal with |- context [foldM _ repos ?f ?s] =>
        destruct (IH f s) as (st' & -> & Hw & Hl); [done|] end;
      cbn [world record_log] in *; rewrite Hw1 in *; by eexists.
Qed.

Lemma find_repos_missing_tags_run (repos : list Repository) (tags : list string)
    (st : state W) :
  logger st = true ->
  exists st',
    find_repos_missing_tags repos tags st = (analysis (world st) tags repos [], st')
    /\ world st' = world st /\ logger st' = true.
Proof.
  intros Hlog. unfold find_repos_missing_tags. unfold bind at 1. logs.
  edestruct (find_repos_loop_run repos tags []) as (st' & Heq & Hw & Hl); [|
    exists st'; split; [exact Heq|split; [exact Hw|exact Hl]]].
  done.
Qed.

(** Without a logger the first [debug()] ends the analysis, before any
    request. *)
Lemma find_repos_missing_tags_unset (repos : list Repository) (tags : list string)
    (st : state W) :
  logger st = false ->
  find_repos_missing_tags repos tags st =
    (Raise (AttributeError "'NoneType' object has no attribute 'debug'"), st).
Proof.
  intros Hlog. unfold find_repos_missing_tags. unfold bind at 1. by rewrite debug_unset.
Qed.

(** An analysis that returned ran in a process with a logger. *)
Lemma find_repos_missing_tags_logger (repos : list Repository) (tags : list string)
    (st : state W) (need : pydict need_entry) :
  (find_repos_missing_tags repos tags st).1 = Ok need -> logger st = true.
Proof.
  destruct (logger st) eqn:Hlog; [done|].
  by rewrite find_repos_missing_tags_unset.
Qed.

Lemma tags_found_cons (w : W) (repo t : string) (tags found : list string) :
  tags_found w repo (t :: tags) found =
    match api_get_git_ref w repo ("tags/" +:+ t) with
    | Ok ref =>
        if truthy (ref_ref ref)
        then tags_found w repo tags (found ++ [re_sub_refs_tags (default "" (ref_ref ref))])
        else tags_found w repo tags found
    | Raise e => if is_GithubException e then tags_found w repo tags found else Raise e
    end.
Proof.
  cbn [tags_found]. destruct (api_get_git_ref w repo ("tags/" +:+ t)) as [ref|e];
    cbn [lookup_outcome].
  - destruct (truthy (ref_ref ref)) eqn:Htr; [by rewrite Htr|done].
  - by destruct (is_GithubException e).
Qed.

Lemma present_in_answer (w : W) (repo t : string) :
  present_in w repo t =
    match api_get_git_ref w repo ("tags/" +:+ t) with
    | Ok ref => truthy (ref_ref ref)
    | Raise _ => false
    end.
Proof.
  unfold present_in. destruct (api_get_git_ref w repo ("tags/" +:+ t)) as [ref|e];
    cbn [lookup_outcome].
  - by destruct (truthy (ref_ref ref)).
  - by destruct (is_GithubException e).
Qed.

Lemma absent_in_answer (w : W) (repo t : string) :
  absent_in w repo t =
    match api_get_git_ref w repo ("tags/" +:+ t) with
    | Ok ref => negb (truthy (ref_ref ref))
    | Raise e => is_GithubException e
    end.
Proof.
  unfold absent_in. destruct (api_get_git_ref w repo ("tags/" +:+ t)) as [ref|e];
    cbn [lookup_outcome].
  - by destruct (truthy (ref_ref ref)).
  - by destruct (is_GithubException e).
Qed.

(** What the accumulated names are when the provider names refs as asked. *)
Lemma tags_found_ok (w : W) (repo : string) (tags found has : list string) :
  refs_named_as_asked w ->
  tags_found w repo tags found = Ok has ->
  has = found ++ filter (fun t => present_in w repo t = true) tags /\
  forall t, t ∈ tags -> present_in w repo t = negb (absent_in w repo t).
Proof.
  intros Hnamed. revert found.
  induction tags as [|t tags IH]; intros found.
  - intros [= <-]. split; [by rewrite app_nil_r|]. by intros t ?%not_elem_of_nil.
  - rewrite tags_found_cons. intros Hrest.
    assert (exists found',
      tags_found w repo tags found' = Ok has /\
      found' = found ++ filter (fun t => present_in w repo t = true) [t] /\
      present_in w repo t = negb (absent_in w repo t)) as (found' & Hf & -> & Ht).
    { rewrite filter_cons, filter_nil, present_in_answer, absent_in_answer.
      destruct (api_get_git_ref w repo ("tags/" +:+ t)) as [ref|e] eqn:Hans.
      - destruct (truthy (ref_ref ref)) eqn:Htr.
        + eexists. split; [exact Hrest|]. split; [|done].
          rewrite decide_True by done. do 2 f_equal.
          destruct (ref_ref ref) as [name|] eqn:Hn; [|done].
          rewrite (Hnamed _ _ _ _ Hans Hn). apply re_sub_refs_tags_tag.
        + eexists. split; [exact Hrest|]. rewrite decide_False by done.
          by rewrite app_nil_r.
      - destruct (is_GithubException e) eqn:He; [|done].
        eexists. split; [exact Hrest|]. rewrite decide_False by done.
        by rewrite app_nil_r. }
    destruct (IH _ Hf) as [-> Hall]. split.
    + by rewrite <-app_assoc, <-filter_app.
    + intros t' [->|Hin]%elem_of_cons; [done|by apply Hall].
Qed.

(** A raised exception is one a lookup raised, and not a [GithubException]. *)
Lemma tags_found_raise (w : W) (repo : string) (tags found : list string) e :
  tags_found w repo tags found = Raise e ->
  is_GithubException e = false /\
  exists t, t ∈ tags /\ api_get_git_ref w repo ("tags/" +:+ t) = Raise e.
Proof.
  revert found. induction tags as [|t tags IH]; intros found; [done|].
  rewrite tags_found_cons.
  destruct (api_get_git_ref w repo ("tags/" +:+ t)) as [ref|e'] eqn:Hans.
  - destruct (truthy (ref_ref ref)); intros Hr;
      destruct (IH _ Hr) as (Hg & t' & Hin & Ht');
      (split; [done|]); exists t'; (split; [by right|done]).
  - destruct (is_GithubException e') eqn:He.
    + intros Hr. destruct (IH _ Hr) as (Hg & t' & Hin & Ht').
      split; [done|]. exists t'. split; [by right|done].
    + intros [= <-]. split; [done|]. exists t. split; [by left|done].
Qed.

Lemma missing_tags_of_ok (w : W) (repo : string) (tags missing : list string) :
  refs_named_as_asked w ->
  missing_tags_of w repo tags = Ok missing ->
  missing = filter (fun t => absent_in w repo t = true) tags.
Proof.
  intros Hnamed. unfold missing_tags_of.
  destruct (tags_found w repo tags []) as [has|e] eqn:Hf; [|done].
  intros [= <-]. destruct (tags_found_ok _ _ _ _ _ Hnamed Hf) as [-> Hall].
  apply filter_ext_in. intros t Ht. rewrite app_nil_l, list_elem_of_filter.
  specialize (Hall t Ht). destruct (absent_in w repo t); simpl in Hall; rewrite Hall; intuition congruence.
Qed.

End AnalysisValue.

(** ** The result dictionary *)

Section AnalysisResult.
Context {W : Type} {P : Provider W}.

Lemma analysis_app (w : W) (tags : list string) (l1 l2 : list Repository)
    (need : pydict need_entry) :
  analysis w tags (l1 ++ l2) need =
    match analysis w tags l1 need with
    | Ok d => analysis w tags l2 d
    | Raise e => Raise e
    end.
Proof.
  revert need. induction l1 as [|r l1 IH]; intros need; cbn [analysis app]; [done|].
  destruct (missing_tags_of w (full_name r) tags) as [[|t ts]|e]; auto.
Qed.

Lemma analysis_NoDup (w : W) (tags : list string) (repos : list Repository)
    (need need' : pydict need_entry) :
  NoDup (dict_keys need) ->
  analysis w tags repos need = Ok need' ->
  NoDup (dict_keys need').
Proof.
  revert need. induction repos as [|r repos IH]; intros need Hnd; cbn [analysis].
  - by intros [= <-].
  - destruct (missing_tags_of w (full_name r) tags) as [[|t ts]|e]; [eauto| |done].
    apply IH. by apply dict_set_NoDup.
Qed.

(** Every repository of the input was analysed when a dictionary is
    returned. *)
Lemma analysis_ok_missing (w : W) (tags : list string) (repos : list Repository)
    (need need' : pydict need_entry) (r : Repository) :
  analysis w tags repos need = Ok need' ->
  r ∈ repos ->
  exists missing, missing_tags_of w (full_name r) tags = Ok missing.
Proof.
  revert need. induction repos as [|r0 repos IH]; intros need; cbn [analysis].
  - by intros _ ?%not_elem_of_nil.
  - destruct (missing_tags_of w (full_name r0) tags) as [m|e] eqn:Hm; [|done].
    intros Hrest [->|Hin]%elem_of_cons; [by eexists|].
    destruct m; eauto.
Qed.

Lemma analysis_raise (w : W) (tags : list string) (repos : list Repository)
    (need : pydict need_entry) e :
  analysis w tags repos need = Raise e ->
  exists r, r ∈ repos /\ missing_tags_of w (full_name r) tags = Raise e.
Proof.
  revert need. induction repos as [|r0 repos IH]; intros need; cbn [analysis]; [done|].
  destruct (missing_tags_of w (full_name r0) tags) as [m|e'] eqn:Hm.
  - intros Hrest. assert (exists need0, analysis w tags repos need0 = Raise e) as [need0 H0].
    { destruct m; eauto. }
    destruct (IH _ H0) as (r & Hin & Hr). exists r. split; [by right|done].
  - intros [= <-]. exists r0. split; [by left|done].
Qed.

(** The entry under a key: the last repository of the input with that full
    name, with the tags missing from it, when there are any. *)
Lemma analysis_lookup (w : W) (tags : list string) (repos : list Repository)
    (need : pydict need_entry) (k : string) :
  analysis w tags repos [] = Ok need ->
  dict_get k need =
    match last (filter (fun r => full_name r = k) repos), missing_tags_of w k tags with
    | Some r, Ok (t :: ts) => Some {| need_repo := r; need_tags := t :: ts |}
    | _, _ => None
    end.
Proof.
  revert need. induction repos as [|r repos IH] using rev_ind; intros need.
  - by intros [= <-].
  - rewrite analysis_app. destruct (analysis w tags repos []) as [d|e] eqn:Hd; [|done].
    specialize (IH d eq_refl). cbn [analysis].
    rewrite filter_app, filter_cons, filter_nil.
    destruct (decide (full_name r = k)) as [<-|Hne].
    + rewrite last_snoc.
      destruct (missing_tags_of w (full_name r) tags) as [[|t ts]|e] eqn:Hm; [| |done].
      * intros [= <-]. rewrite IH. by destruct (last _).
      * intros [= <-]. rewrite dict_get_set. by rewrite decide_True.
    + rewrite app_nil_r.
      destruct (missing_tags_of w (full_name r) tags) as [[|t ts]|e] eqn:Hm; [| |done].
      * by intros [= <-].
      * intros [= <-]. rewrite dict_get_set. by rewrite decide_False.
Qed.

End AnalysisResult.

Section AnalysisClaims.
Context {W : Type} {P : Provider W}.

(** C1 (as amended): when the provider names the refs it returns as they
    were asked for, a dictionary that [find_repos_missing_tags] returns has
    an entry for a repository of the input exactly when some requested tag
    is absent from it; the entry lists the requested tags whose lookup
    returned absent, in the order of the request; and no other key has an
    entry.  In a process with a logger the only way not to return a
    dictionary is an exception of a lookup that is not a [GithubException],
    which is passed on; in a process without a logger the first [debug()]
    (line 120) raises [AttributeError]. *)
Theorem find_repos_missing_tags_correct (repos : list Repository) (tags : list string)
    (st : state W) :
  refs_named_as_asked (world st) ->
  match (find_repos_missing_tags repos tags st).1 with
  | Ok need =>
      (forall r, r ∈ repos ->
         let missing := filter (fun t => lookup_absent st r t = true) tags in
         (is_Some (dict_get (full_name r) need) <-> missing <> []) /\
         (forall e, dict_get (full_name r) need = Some e -> need_tags e = missing)) /\
      (forall k, is_Some (dict_get k need) -> exists r, r ∈ repos /\ full_name r = k)
  | Raise e =>
      if logger st
      then is_GithubException e = false /\
           exists r t, r ∈ repos /\ t ∈ tags /\
             api_get_git_ref (world st) (full_name r) ("tags/" +:+ t) = Raise e
      else e = AttributeError "'NoneType' object has no attribute 'debug'"
  end.
Proof.
  intros Hnamed. destruct (logger st) eqn:Hlog; cycle 1.
  { by rewrite find_repos_missing_tags_unset. }
  destruct (find_repos_missing_tags_run repos tags st Hlog) as (st' & -> & _). cbn [fst].
  destruct (analysis (world st) tags repos []) as [need|e] eqn:Ha.
  - split.
    + intros r Hr. cbv zeta.
      destruct (analysis_ok_missing _ _ _ _ _ r Ha Hr) as [m Hm].
      pose proof (missing_tags_of_ok _ _ _ _ Hnamed Hm) as ->.
      rewrite (analysis_lookup _ _ _ _ (full_name r) Ha), Hm.
      assert (filter (fun t => lookup_absent st r t = true) tags
              = filter (fun t => absent_in (world st) (full_name r) t = true) tags) as ->.
      { apply filter_ext_in. intros t _. by rewrite lookup_absent_eq. }
      destruct (last (filter (fun r0 => full_name r0 = full_name r) repos)) as [r'|] eqn:Hl.
      * destruct (filter _ tags) as [|t ts]; split.
        -- split; [by intros [? ?]|done].
        -- done.
        -- split; [done|by eexists].
        -- by intros e [= <-].
      * apply last_None in Hl. exfalso. eapply filter_nil_not_elem_of; [exact Hl| |exact Hr].
        done.
    + intros k [e He]. rewrite (analysis_lookup _ _ _ _ k Ha) in He.
      destruct (last (filter (fun r0 => full_name r0 = k) repos)) as [r|] eqn:Hl; [|done].
      apply last_Some_elem_of, list_elem_of_filter in Hl as [Hk Hin]. by exists r.
  - apply analysis_raise in Ha as (r & Hr & Hm). unfold missing_tags_of in Hm.
    destruct (tags_found (world st) (full_name r) tags []) as [has|e'] eqn:Hf; [done|].
    injection Hm as ->. apply tags_found_raise in Hf as (Hg & t & Ht & Hans).
    split; [done|]. by exists r, t.
Qed.

End AnalysisClaims.

Lemma hub_refs_named (h : hub) : refs_named_as_asked h.
Proof.
  intros repo path ref name Hans Hname. cbn in Hans. unfold hub_answer in Hans.
  destruct (hub_bad_credentials h); [done|].
  destruct (hub_find_ref h repo path); [|done].
  injection Hans as <-. cbn in Hname. by injection Hname as <-.
Qed.

Lemma find_repos_missing_tags_correct_witness :
  let need :=
    [("acme/widget", {| need_repo := widget; need_tags := ["v1.1"] |});
     ("acme/gadget", {| need_repo := gadget; need_tags := ["v1.0"; "v1.1"] |})] in
  refs_named_as_asked (world (logging_init acme)) /\
  (find_repos_missing_tags [widget; gadget] ["v1.0"; "v1.1"] (logging_init acme)).1 =
    Ok need /\
  (forall r, r ∈ [widget; gadget] ->
     let missing :=
       filter (fun t => lookup_absent (logging_init acme) r t = true) ["v1.0"; "v1.1"] in
     (is_Some (dict_get (full_name r) need) <-> missing <> []) /\
     (forall e, dict_get (full_name r) need = Some e -> need_tags e = missing)) /\
  (forall k, is_Some (dict_get k need) ->
     exists r, r ∈ [widget; gadget] /\ full_name r = k).
Proof.
  cbv zeta. split; [apply hub_refs_named|].
  assert ((find_repos_missing_tags [widget; gadget] ["v1.0"; "v1.1"] (logging_init acme)).1 =
          Ok [("acme/widget", {| need_repo := widget; need_tags := ["v1.1"] |});
              ("acme/gadget", {| need_repo := gadget; need_tags := ["v1.0"; "v1.1"] |})])
    as Hrun by (vm_compute; reflexivity).
  split; [exact Hrun|].
  pose proof (find_repos_missing_tags_correct [widget; gadget] ["v1.0"; "v1.1"]
                (logging_init acme) (hub_refs_named acme)) as H.
  rewrite Hrun in H. exact H.
Defined.

(** The claim as the spec states it, in terms of the lookups alone, fails
    for a provider that answers the lookup of a tag with a ref of another
    name: asked for V1.0 the provider finds v1.0, the name found is not the
    name asked for, and the tag is listed as missing although its lookup
    did not return absent. *)
Lemma missing_is_lookup_absent_fails : ~ missing_is_lookup_absent (W := aliasing).
Proof.
  intros H.
  destruct (H [widget] ["V1.0"] (logging_init acme_folding)
              [("acme/widget", {| need_repo := widget; need_tags := ["V1.0"] |})]
              eq_refl eq_refl widget) as [[Hsome _] _]; [by left|].
  by apply Hsome; [eexists|vm_compute].
Qed.

(** The analysis of the end-to-end scenario. *)
Example acme_analysis :
  (find_repos_missing_tags [widget; gadget] ["v1.0"; "v1.1"] (logging_init acme)).1 =
  Ok [("acme/widget", {| need_repo := widget; need_tags := ["v1.1"] |});
      ("acme/gadget", {| need_repo := gadget; need_tags := ["v1.0"; "v1.1"] |})].
Proof. vm_compute. reflexivity. Qed.

(** ** The trace of provider calls *)

Section Trace.
Context {W : Type} {P : Provider W}.

#[export] Instance calls_extend_preorder : PreOrder (calls_extend (W := W)).
Proof.
  split.
  - intros st. exists []. by rewrite app_nil_r.
  - intros st1 st2 st3 [evs1 H1] [evs2 H2]. exists (evs1 ++ evs2).
    by rewrite H2, H1, app_assoc.
Qed.

Lemma calls_extend_record (st : state W) w ev :
  calls_extend st (record_call ev (set_world w st)).
Proof. by exists [ev]. Qed.

Lemma new_calls_split (st1 st2 st3 : state W) :
  calls_extend st1 st2 -> calls_extend st2 st3 ->
  new_calls st1 st3 = new_calls st1 st2 ++ new_calls st2 st3.
Proof.
  intros [evs1 H1] [evs2 H2].
  rewrite (new_calls_app _ _ _ H1), (new_calls_app _ _ _ H2).
  apply new_calls_app. by rewrite H2, H1, app_assoc.
Qed.

Lemma new_calls_extend (st st' : state W) :
  calls_extend st st' -> calls st' = calls st ++ new_calls st st'.
Proof. intros [evs H]. by rewrite (new_calls_app _ _ _ H). Qed.

Lemma calls_extend_tag_repo repo tags tagger dry_run :
  keeps calls_extend (tag_repo (W := W) repo tags tagger dry_run).
Proof.
  apply keeps_tag_repo; first apply _; intros.
  - exists []. by rewrite app_nil_r.
  - by exists [ev].
  - by exists [ev].
Qed.

Lemma calls_extend_main_tag_untagged need tagger dry_run :
  keeps calls_extend (main_tag_untagged (W := W) need tagger dry_run).
Proof.
  apply keeps_main_tag_untagged; first apply _; intros.
  - exists []. by rewrite app_nil_r.
  - by exists [ev].
  - by exists [ev].
Qed.

Lemma calls_extend_main env args : keeps calls_extend (main (W := W) env args).
Proof.
  apply keeps_main; first apply _; intros.
  - exists []. by rewrite app_nil_r.
  - by exists [ev].
  - exists []. by rewrite app_nil_r.
  - by exists [ev].
Qed.

Lemma head_lookups_app evs1 evs2 :
  head_lookups (evs1 ++ evs2) = head_lookups evs1 ++ head_lookups evs2.
Proof. apply omap_app. Qed.

Lemma head_lookups_writes evs :
  Forall (fun ev => is_write ev = true) evs -> head_lookups evs = [].
Proof.
  induction 1 as [|ev evs Hev _ IH]; [done|].
  change (ev :: evs) with ([ev] ++ evs).
  rewrite head_lookups_app, IH. by destruct ev.
Qed.

Lemma strip_prefix_app (p s : string) : strip_prefix p (p +:+ s) = Some s.
Proof.
  induction p as [|a p IH]; [done|].
  change (String a p +:+ s) with (String a (p +:+ s)).
  cbn [strip_prefix]. by rewrite Ascii.eqb_refl.
Qed.

End Trace.

(** ** Tag application *)

Section TagRepo.
Context {W : Type} {P : Provider W}.

Lemma tag_repo_unfold (repo : Repository) (tags : list string) (tagger : InputGitAuthor)
    (dry_run : bool) :
  tag_repo repo tags tagger dry_run =
    (head <- get_git_ref repo ("heads/" +:+ default_branch repo) ;;
     debug "tagging {repo} @
  default branch: {db}
  type: {obj_type}
  sha: {obj_sha}        "
       [("repo", VStr (full_name repo)); ("db", VStr (default_branch repo));
        ("obj_type", VStr (type (object head))); ("obj_sha", VStr (sha (object head)))] ;;
     forM_ tags (tag_one repo head tagger dry_run)).
Proof. reflexivity. Qed.

(** One tag of a dry run: two log records, nothing else. *)
Lemma tag_one_dry_run (repo : Repository) (head : GitRef) (tagger : InputGitAuthor)
    (t : string) (st : state W) :
  logger st = true ->
  tag_one repo head tagger true t st =
    (Ok tt,
     {| world := world st; cached_teams := cached_teams st; logger := logger st;
        calls := calls st; logged := logged st ++ dry_run_records t |}).
Proof.
  intros Hlog. unfold tag_one. unfold bind. logs. unfold record_log; simpl.
  by rewrite <-app_assoc.
Qed.

Lemma tag_loop_dry_run (repo : Repository) (head : GitRef) (tagger : InputGitAuthor)
    (tags : list string) (st : state W) :
  logger st = true ->
  forM_ tags (tag_one repo head tagger true) st =
    (Ok tt,
     {| world := world st; cached_teams := cached_teams st; logger := logger st;
        calls := calls st; logged := logged st ++ concat (map dry_run_records tags) |}).
Proof.
  revert st. induction tags as [|t tags IH]; intros st Hlog; cbn [forM_].
  - unfold ret. rewrite app_nil_r. by destruct st.
  - unfold bind. rewrite tag_one_dry_run, IH by done.
    cbn [world cached_teams logger calls logged].
    by rewrite <-app_assoc.
Qed.

(** Without a logger the first [debug()] of a tag ends it, before any
    request. *)
Lemma tag_one_unset (repo : Repository) (head : GitRef) (tagger : InputGitAuthor)
    (dry_run : bool) (t : string) (st : state W) :
  logger st = false ->
  tag_one repo head tagger dry_run t st =
    (Raise (AttributeError "'NoneType' object has no attribute 'debug'"), st).
Proof. intros Hlog. unfold tag_one. unfold bind at 1. by rewrite debug_unset. Qed.

(** One tag of a real run: the tag object, then the ref that points at it. *)
Lemma tag_one_created (repo : Repository) (head : GitRef) (tagger : InputGitAuthor)
    (t : string) (st st' : state W) :
  tag_one repo head tagger false t st = (Ok tt, st') ->
  exists created,
    calls st' = calls st ++ tag_events (full_name repo) (object head) tagger t created.
Proof.
  destruct (logger st) eqn:Hlog; [|by rewrite tag_one_unset].
  unfold tag_one. unfold bind at 1. logs. unfold bind at 1.
  unfold create_git_tag, create_git_ref, write_call; cbn [fst snd].
  destruct (api_create_git_tag _ _ _ _ _ _ _) as [[o|e] w1]; cbn [fst snd]; [|done].
  unfold bind at 1. logs. unfold bind at 1. cbn [fst snd world set_world record_call record_log].
  destruct (api_create_git_ref _ _ _ _) as [[r|e] w2]; cbn [fst snd]; [|done].
  logs. intros [= <-]. exists (o, r). simpl. by rewrite <-app_assoc.
Qed.

(** Whatever happens, one tag adds only creating requests to the trace. *)
Lemma tag_one_writes (repo : Repository) (head : GitRef) (tagger : InputGitAuthor)
    (dry_run : bool) (t : string) (st : state W) :
  exists evs,
    calls (tag_one repo head tagger dry_run t st).2 = calls st ++ evs /\
    Forall (fun ev => is_write ev = true) evs.
Proof.
  destruct (logger st) eqn:Hlog;
    [|rewrite tag_one_unset by done; exists []; by rewrite app_nil_r].
  destruct dry_run.
  - rewrite tag_one_dry_run by done. exists []. by rewrite app_nil_r.
  - unfold tag_one. unfold bind at 1. logs. unfold bind at 1.
    unfold create_git_tag, create_git_ref, write_call; cbn [fst snd].
    destruct (api_create_git_tag _ _ _ _ _ _ _) as [[o|e] w1]; cbn [fst snd].
    + unfold bind at 1. logs. unfold bind at 1.
      cbn [fst snd world set_world record_call record_log].
      destruct (api_create_git_ref _ _ _ _) as [[r|e] w2]; cbn [fst snd]; logs; simpl;
        eexists; (split; [by rewrite <-app_assoc|]); by repeat constructor.
    + simpl. eexists; split; [done|]. by repeat constructor.
Qed.

Lemma tag_loop_created (repo : Repository) (head : GitRef) (tagger : InputGitAuthor)
    (tags : list string) (st st' : state W) :
  forM_ tags (tag_one repo head tagger false) st = (Ok tt, st') ->
  exists created,
    length created = length tags /\
    calls st' =
      calls st ++
      concat (zip_with (tag_events (full_name repo) (object head) tagger) tags created).
Proof.
  revert st. induction tags as [|t tags IH]; intros st; cbn [forM_].
  - intros [= <-]. exists []. by rewrite app_nil_r.
  - unfold bind.
    destruct (tag_one repo head tagger false t st) as [[[]|e] st1] eqn:H1; [|done].
    intros Hrest. apply tag_one_created in H1 as [c Hc].
    destruct (IH _ Hrest) as (cs & Hlen & Hcs).
    exists (c :: cs). split; [simpl; by rewrite Hlen|].
    rewrite Hcs, Hc. cbn [zip_with concat]. by rewrite <-app_assoc.
Qed.

Lemma tag_loop_writes (repo : Repository) (head : GitRef) (tagger : InputGitAuthor)
    (dry_run : bool) (tags : list string) (st : state W) :
  exists evs,
    calls (forM_ tags (tag_one repo head tagger dry_run) st).2 = calls st ++ evs /\
    Forall (fun ev => is_write ev = true) evs.
Proof.
  revert st. induction tags as [|t tags IH]; intros st; cbn [forM_].
  - exists []. by rewrite app_nil_r.
  - unfold bind.
    destruct (tag_one_writes repo head tagger dry_run t st) as (evs1 & H1 & Hw1).
    destruct (tag_one repo head tagger dry_run t st) as [[[]|e] st1]; cbn [snd] in *.
    + destruct (IH st1) as (evs2 & H2 & Hw2). exists (evs1 ++ evs2). split.
      * by rewrite H2, H1, app_assoc.
      * by apply Forall_app.
    + by exists evs1.
Qed.

(** Without a logger [tag_repo] resolves the head and stops at the
    [debug()] after it. *)
Lemma tag_repo_unset (repo : Repository) (tags : list string) (tagger : InputGitAuthor)
    (dry_run : bool) (st : state W) :
  logger st = false ->
  tag_repo repo tags tagger dry_run st =
    (match api_get_git_ref (world st) (full_name repo)
             ("heads/" +:+ default_branch repo) with
     | Ok _ => Raise (AttributeError "'NoneType' object has no attribute 'debug'")
     | Raise e => Raise e
     end,
     record_call
       (EvGetGitRef (full_name repo) ("heads/" +:+ default_branch repo)
          (api_get_git_ref (world st) (full_name repo)
             ("heads/" +:+ default_branch repo))) st).
Proof.
  intros Hlog. rewrite tag_repo_unfold. unfold bind at 1, get_git_ref, read_call.
  cbn [fst snd].
  destruct (api_get_git_ref (world st) (full_name repo) ("heads/" +:+ default_branch repo))
    as [head|e]; [|done].
  unfold bind at 1. by rewrite debug_unset.
Qed.

(** The trace of one [tag_repo]: the head of the default branch is resolved
    first, and what follows are creating requests. *)
Lemma tag_repo_calls (repo : Repository) (tags : list string) (tagger : InputGitAuthor)
    (dry_run : bool) (st : state W) :
  exists res evs,
    calls (tag_repo repo tags tagger dry_run st).2 =
      calls st ++
      EvGetGitRef (full_name repo) ("heads/" +:+ default_branch repo) res :: evs /\
    Forall (fun ev => is_write ev = true) evs.
Proof.
  destruct (logger st) eqn:Hlog;
    [|rewrite tag_repo_unset by done; by eexists _, []].
  rewrite tag_repo_unfold. unfold bind at 1, get_git_ref, read_call. cbn [fst snd].
  destruct (api_get_git_ref (world st) (full_name repo) ("heads/" +:+ default_branch repo))
    as [head|e] eqn:Hans.
  - unfold bind at 1. logs.
    match goal with |- context [forM_ tags ?b ?s] =>
      destruct (tag_loop_writes repo head tagger dry_run tags s) as (evs & Hc & Hw) end.
    exists (Ok head), evs. split; [|done]. rewrite Hc. cbn [calls record_log record_call].
    by rewrite <-app_assoc.
  - exists (Raise e), []. by split.
Qed.

Lemma tag_repo_head_lookups (repo : Repository) (tags : list string)
    (tagger : InputGitAuthor) (dry_run : bool) (st : state W) :
  head_lookups (new_calls st (tag_repo repo tags tagger dry_run st).2) =
    [(full_name repo, "heads/" +:+ default_branch repo)].
Proof.
  destruct (tag_repo_calls repo tags tagger dry_run st) as (res & evs & Hc & Hw).
  rewrite (new_calls_app _ _ _ Hc).
  change (?ev :: evs) with ([ev] ++ evs).
  rewrite head_lookups_app, (head_lookups_writes _ Hw), app_nil_r.
  unfold head_lookups. cbn [omap list_omap]. by rewrite strip_prefix_app.
Qed.

End TagRepo.

Section TagRepoClaims.
Context {W : Type} {P : Provider W}.

Lemma created_tags_app evs1 evs2 :
  created_tags (evs1 ++ evs2) = created_tags evs1 ++ created_tags evs2.
Proof. apply omap_app. Qed.

Lemma created_tags_tag_events (repo : string) (head : GitObject) (tagger : InputGitAuthor)
    (tags : list string) (created : list (GitTag * GitRef)) :
  length created = length tags ->
  created_tags (concat (zip_with (tag_events repo head tagger) tags created)) =
    map (fun t => (repo, t)) tags.
Proof.
  revert created. induction tags as [|t tags IH]; intros [|c cs] Hlen; try done.
  cbn [zip_with concat map]. rewrite created_tags_app, IH by (simpl in Hlen; lia).
  unfold tag_events, created_tags at 1. cbn [omap list_omap].
  by rewrite strip_prefix_app.
Qed.

Lemma intended_from_dry_run (repo : string) (tags : list string) :
  intended_from (Some repo) (concat (map dry_run_records tags)) =
    map (fun t => (repo, t)) tags.
Proof.
  induction tags as [|t tags IH]; [done|].
  cbn [map concat dry_run_records app intended_from template fields].
  by rewrite IH.
Qed.

Lemma new_logged_app (st st' : state W) rs :
  logged st' = logged st ++ rs -> new_logged st st' = rs.
Proof. intros H. unfold new_logged. rewrite H. apply drop_app_length. Qed.

(** What a dry run of [tag_repo] does: it resolves the head and logs. *)
Lemma tag_repo_dry_run_eq (repo : Repository) (tags : list string)
    (tagger : InputGitAuthor) (st : state W) :
  logger st = true ->
  tag_repo repo tags tagger true st =
    match api_get_git_ref (world st) (full_name repo) ("heads/" +:+ default_branch repo) with
    | Ok head =>
        (Ok tt,
         {| world := world st; cached_teams := cached_teams st; logger := logger st;
            calls := calls st ++
              [EvGetGitRef (full_name repo) ("heads/" +:+ default_branch repo) (Ok head)];
            logged := logged st ++
              tagging_record repo head :: concat (map dry_run_records tags) |})
    | Raise e =>
        (Raise e,
         record_call
           (EvGetGitRef (full_name repo) ("heads/" +:+ default_branch repo) (Raise e)) st)
    end.
Proof.
  intros Hlog. rewrite tag_repo_unfold. unfold bind at 1, get_git_ref, read_call.
  destruct (api_get_git_ref (world st) (full_name repo) ("heads/" +:+ default_branch repo))
    as [head|e]; [|done].
  unfold bind. cbn [fst snd]. logs. rewrite tag_loop_dry_run by done.
  cbn [world cached_teams logger calls logged record_log record_call].
  by rewrite <-app_assoc.
Qed.

Lemma tag_repo_dry_run (repo : Repository) (tags : list string) (tagger : InputGitAuthor)
    (st : state W) :
  world (tag_repo repo tags tagger true st).2 = world st /\
  calls (tag_repo repo tags tagger true st).2 =
    calls st ++
    [EvGetGitRef (full_name repo) ("heads/" +:+ default_branch repo)
       (api_get_git_ref (world st) (full_name repo) ("heads/" +:+ default_branch repo))] /\
  (logger st = true ->
   match api_get_git_ref (world st) (full_name repo) ("heads/" +:+ default_branch repo) with
   | Ok head =>
       (tag_repo repo tags tagger true st).1 = Ok tt /\
       intended_creations (new_logged st (tag_repo repo tags tagger true st).2) =
         map (fun t => (full_name repo, t)) tags
   | Raise e => (tag_repo repo tags tagger true st).1 = Raise e
   end).
Proof.
  destruct (logger st) eqn:Hlog.
  - rewrite tag_repo_dry_run_eq by done.
    destruct (api_get_git_ref (world st) (full_name repo) ("heads/" +:+ default_branch repo))
      as [head|e]; [|done].
    cbn [fst snd world calls]. repeat split.
    erewrite new_logged_app by done.
    unfold intended_creations, tagging_record.
    cbn [intended_from template fields strip_prefix].
    apply intended_from_dry_run.
  - rewrite tag_repo_unset by done. by repeat split.
Qed.

(** The trace of a [tag_repo] that is not a dry run and completes. *)
Lemma tag_repo_run_created (repo : Repository) (tags : list string)
    (tagger : InputGitAuthor) (st st' : state W) :
  tag_repo repo tags tagger false st = (Ok tt, st') ->
  logger st = true /\
  exists (head : GitRef) (created : list (GitTag * GitRef)),
    api_get_git_ref (world st) (full_name repo) ("heads/" +:+ default_branch repo) = Ok head /\
    length created = length tags /\
    new_calls st st' =
      EvGetGitRef (full_name repo) ("heads/" +:+ default_branch repo) (Ok head)
      :: concat (zip_with (tag_events (full_name repo) (object head) tagger) tags created) /\
    head_lookups (new_calls st st') =
      [(full_name repo, "heads/" +:+ default_branch repo)].
Proof.
  intros Hrun.
  destruct (logger st) eqn:Hlog; cycle 1.
  { rewrite tag_repo_unset in Hrun by done.
    by destruct (api_get_git_ref _ _ _). }
  split; [done|].
  pose proof (tag_repo_head_lookups repo tags tagger false st) as Hhead.
  rewrite Hrun in Hhead. cbn [snd] in Hhead.
  revert Hrun. rewrite tag_repo_unfold. unfold bind at 1, get_git_ref, read_call.
  destruct (api_get_git_ref (world st) (full_name repo) ("heads/" +:+ default_branch repo))
    as [head|e]; [|done].
  unfold bind at 1. cbn [fst snd]. logs. intros Hloop.
  apply tag_loop_created in Hloop as (created & Hlen & Hc).
  exists head, created. do 2 (split; [done|]). split; [|done].
  apply new_calls_app. rewrite Hc. cbn [calls record_log record_call].
  by rewrite <-app_assoc.
Qed.


(** X24: every [tag_repo] resolves the head ref of the default branch of its
    repository exactly once; and one that is not a dry run and completes
    (which takes a process with a logger) has then, for each tag in the
    order given, created one tag object with message "Version <tag>" and the
    tagger identity on the sha and type of that one head, followed by the
    ref [refs/tags/<tag>] on the sha of the tag object just created. *)
Theorem tag_repo_creates (repo : Repository) (tags : list string)
    (tagger : InputGitAuthor) (dry_run : bool) (st : state W) :
  head_lookups (new_calls st (tag_repo repo tags tagger dry_run st).2) =
    [(full_name repo, "heads/" +:+ default_branch repo)] /\
  forall st',
    dry_run = false ->
    tag_repo repo tags tagger dry_run st = (Ok tt, st') ->
    logger st = true /\
    exists (head : GitRef) (created : list (GitTag * GitRef)),
      api_get_git_ref (world st) (full_name repo) ("heads/" +:+ default_branch repo)
        = Ok head /\
      length created = length tags /\
      new_calls st st' =
        EvGetGitRef (full_name repo) ("heads/" +:+ default_branch repo) (Ok head)
        :: concat (zip_with (tag_events (full_name repo) (object head) tagger) tags created).
Proof.
  split; [apply tag_repo_head_lookups|].
  intros st' -> Hrun.
  destruct (tag_repo_run_created _ _ _ _ _ Hrun)
    as (Hlog & head & created & ? & ? & ? & _).
  split; [done|]. by exists head, created.
Qed.


End TagRepoClaims.


Lemma tag_repo_creates_witness :
  let st := logging_init acme in
  let st' := (tag_repo gadget ["v1.0"; "v1.1"] acme_tagger false st).2 in
  tag_repo gadget ["v1.0"; "v1.1"] acme_tagger false st = (Ok tt, st') /\
  logger st = true /\
  exists (head : GitRef) (created : list (GitTag * GitRef)),
    api_get_git_ref acme "acme/gadget" "heads/main" = Ok head /\
    length created = 2 /\
    new_calls st st' =
      EvGetGitRef "acme/gadget" "heads/main" (Ok head)
      :: concat (zip_with (tag_events "acme/gadget" (object head) acme_tagger)
                   ["v1.0"; "v1.1"] created).
Proof.
  cbv zeta. split; [vm_compute; reflexivity|].
  apply (proj2 (tag_repo_creates gadget ["v1.0"; "v1.1"] acme_tagger false
                  (logging_init acme))); [reflexivity|].
  vm_compute; reflexivity.
Defined.



(** ** The tagging loop of [main] *)

Section TagLoop.
Context {W : Type} {P : Provider W}.

Lemma dict_get_keys {V} (k : string) (d : pydict V) :
  k ∈ dict_keys d -> is_Some (dict_get k d).
Proof.
  unfold dict_keys. induction d as [|[k0 v0] d IH]; cbn [dict_get fmap list_fmap fst].
  - by intros ?%not_elem_of_nil.
  - intros [->|Hin]%elem_of_cons; case_decide; try done; auto.
Qed.

(** The heads the tagging loop resolves are those of the entries of the
    dictionary, in its order, one per entry, up to where it stops. *)
Lemma tag_entries_head_lookups (need es : pydict need_entry) (tagger : InputGitAuthor)
    (dry_run : bool) (st : state W) :
  (forall k e, (k, e) ∈ es -> dict_get k need = Some e /\ full_name (need_repo e) = k) ->
  head_lookups
    (new_calls st
       (forM_ es.*1 (fun k =>
          e <- dict_item k need ;;
          tag_repo (need_repo e) (need_tags e) tagger dry_run) st).2)
  `prefix_of` map (fun ke => (ke.1, "heads/" +:+ default_branch (need_repo ke.2))) es.
Proof.
  revert st. induction es as [|[k e] es IH]; intros st Hes.
  - cbn [fmap list_fmap forM_ ret snd map]. unfold new_calls. by rewrite drop_all.
  - cbn [fmap list_fmap forM_ map fst snd].
    destruct (Hes k e) as [Hget Hname]; [by left|].
    unfold bind at 1. unfold bind at 1, dict_item. rewrite Hget. cbn [ret].
    pose proof (tag_repo_head_lookups (need_repo e) (need_tags e) tagger dry_run st) as Hh.
    pose proof (calls_extend_tag_repo (need_repo e) (need_tags e) tagger dry_run st) as Hx.
    rewrite Hname in Hh.
    destruct (tag_repo (need_repo e) (need_tags e) tagger dry_run st) as [[[]|e0] st1];
      cbn [snd] in *.
    + match goal with |- context [forM_ _ ?b st1] =>
        pose proof (keeps_forM_ calls_extend b es.*1) as Hk end.
      match type of Hk with ?A -> _ =>
        assert A as Hbody; [|specialize (Hk Hbody st1)] end.
      { intros k0. apply keeps_bind; [apply _| |].
        - unfold dict_item. destruct (dict_get k0 need); [apply keeps_ret|apply keeps_raise];
            apply _.
        - intros e1. apply calls_extend_tag_repo. }
      rewrite (new_calls_split _ _ _ Hx Hk), head_lookups_app, Hh.
      apply (prefix_app [_]). apply IH. intros; apply Hes. by right.
    + rewrite Hh. apply (prefix_app_r [_] [_]). done.
Qed.

End TagLoop.

(** C4 (as stated) fails: with acme/widget closed to writing, the failure to
    create v1.1 there ends the run, and no tag of acme/gadget is attempted. *)
Lemma failures_isolated_fails : ~ failures_isolated (W := hub).
Proof.
  intros H.
  destruct (H acme_need acme_tagger (logging_init acme_widget_read_only)
              "acme/gadget" {| need_repo := gadget; need_tags := ["v1.0"; "v1.1"] |}
              "v1.0" {| ref_ref := Some "refs/heads/main";
                        object := {| sha := "bbb222"; type := "commit" |} |}
              eq_refl eq_refl eq_refl eq_refl) as (ev & Hin & Hatt).
  { by left. }
  vm_compute in Hin.
  apply elem_of_cons in Hin as [->|Hin]; [discriminate Hatt|].
  apply elem_of_cons in Hin as [->|Hin]; [vm_compute in Hatt; discriminate Hatt|].
  by apply not_elem_of_nil in Hin.
Qed.

(** ** Repository selection *)

Section TargetRepos.
Context {W : Type} {P : Provider W}.

Lemma main_target_repos_unfold (names : list string) (teams : list Team) (st : state W) :
  logger st = true ->
  main_target_repos names teams st =
    match filter (fun t => team_name t ∈ names) teams with
    | [] =>
        (Raise (RuntimeError "No teams found"),
         record_log {| level := DEBUG; template := "found teams: {teams}";
                       fields := [("teams", VTeams [])] |}
           (record_log {| level := DEBUG; template := "looking for teams: {teams}";
                          fields := [("teams", VStrs names)] |} st))
    | t :: ts =>
        foldM chain_repos (t :: ts) []
          (record_log {| level := DEBUG; template := "found teams: {teams}";
                         fields := [("teams", VTeams (t :: ts))] |}
             (record_log {| level := DEBUG; template := "looking for teams: {teams}";
                            fields := [("teams", VStrs names)] |} st))
    end.
Proof.
  intros Hlog. unfold main_target_repos. unfold bind at 1. logs. cbv zeta.
  unfold bind at 1. logs.
  by destruct (filter (fun t => team_name t ∈ names) teams).
Qed.

(** Without a logger the first [debug()] ends the selection, before any
    request. *)
Lemma main_target_repos_unset (names : list string) (teams : list Team) (st : state W) :
  logger st = false ->
  main_target_repos names teams st =
    (Raise (AttributeError "'NoneType' object has no attribute 'debug'"), st).
Proof. intros Hlog. unfold main_target_repos. unfold bind at 1. by rewrite debug_unset. Qed.

Lemma chain_loop_cons (t : Team) (ts : list Team) (acc : list Repository) (st : state W) :
  foldM chain_repos (t :: ts) acc st =
    match api_team_get_repos (world st) t with
    | Ok rs => foldM chain_repos ts (acc ++ rs) (record_call (EvTeamGetRepos t (Ok rs)) st)
    | Raise e => (Raise e, record_call (EvTeamGetRepos t (Raise e)) st)
    end.
Proof.
  cbn [foldM]. unfold bind at 1. unfold chain_repos at 1, bind, team_get_repos, read_call.
  cbn [fst snd]. by destruct (api_team_get_repos (world st) t).
Qed.

(** The chained list: the answers of the provider for the teams, in order. *)
Lemma chain_loop_value (tag_teams : list Team) (acc repos : list Repository)
    (st : state W) :
  (foldM chain_repos tag_teams acc st).1 = Ok repos ->
  exists lists,
    Forall2 (fun t rs => api_team_get_repos (world st) t = Ok rs) tag_teams lists /\
    repos = acc ++ concat lists.
Proof.
  revert acc st. induction tag_teams as [|t ts IH]; intros acc st.
  - intros [= <-]. exists []. split; [constructor|]. by rewrite app_nil_r.
  - rewrite chain_loop_cons.
    destruct (api_team_get_repos (world st) t) as [rs|e] eqn:Hans; [|done].
    intros Hrest. destruct (IH _ _ Hrest) as (lists & Hall & ->).
    exists (rs :: lists). split; [by constructor|].
    cbn [concat]. by rewrite app_assoc.
Qed.

(** The loop reads the world and adds to the trace; the log plays no part. *)
Lemma chain_loop_log_irrelevant (tag_teams : list Team) (acc : list Repository)
    (st1 st2 : state W) :
  world st1 = world st2 -> calls st1 = calls st2 ->
  (foldM chain_repos tag_teams acc st1).1 = (foldM chain_repos tag_teams acc st2).1 /\
  calls (foldM chain_repos tag_teams acc st1).2 =
    calls (foldM chain_repos tag_teams acc st2).2.
Proof.
  revert acc st1 st2.
  induction tag_teams as [|t ts IH]; intros acc st1 st2 Hw Hc.
  - done.
  - rewrite !chain_loop_cons, Hw.
    destruct (api_team_get_repos (world st2) t) as [rs|e].
    + apply IH; cbn [world calls record_call]; congruence.
    + cbn [fst snd world calls record_call]. by rewrite Hc.
Qed.

Lemma main_target_repos_value (names : list string) (teams : list Team)
    (repos : list Repository) (st : state W) :
  (main_target_repos names teams st).1 = Ok repos ->
  exists lists,
    Forall2 (fun t rs => api_team_get_repos (world st) t = Ok rs)
      (filter (fun t => team_name t ∈ names) teams) lists /\
    repos = concat lists.
Proof.
  destruct (logger st) eqn:Hlog; [|by rewrite main_target_repos_unset].
  rewrite main_target_repos_unfold by done.
  destruct (filter (fun t => team_name t ∈ names) teams) as [|t ts] eqn:Hf; [done|].
  intros Hrun. by apply chain_loop_value in Hrun.
Qed.

(** C6 (as amended): the resolver returns the repository lists of the teams
    whose name is among the requested names, chained in the order in which
    the organisation lists its teams, without removing duplicates (so a
    repository of several matched teams occurs once for each of them); and
    what it returns, and the requests it makes, are the same for the
    requested names in any order. *)
Theorem target_repos_chained (names1 names2 : list string) (teams : list Team)
    (st : state W) :
  names1 ≡ₚ names2 ->
  (main_target_repos names1 teams st).1 = (main_target_repos names2 teams st).1 /\
  calls (main_target_repos names1 teams st).2 = calls (main_target_repos names2 teams st).2 /\
  forall repos, (main_target_repos names1 teams st).1 = Ok repos ->
    exists lists,
      Forall2 (fun t rs => api_team_get_repos (world st) t = Ok rs)
        (filter (fun t => team_name t ∈ names1) teams) lists /\
      repos = concat lists.
Proof.
  intros Hperm. split; [|split].
  3: { intros repos. apply main_target_repos_value. }
  all: destruct (logger st) eqn:Hlog; [|by rewrite !main_target_repos_unset].
  all: rewrite !main_target_repos_unfold by done.
  all: assert (filter (fun t => team_name t ∈ names1) teams
               = filter (fun t => team_name t ∈ names2) teams) as ->
         by (apply list_filter_iff; intros t; by rewrite Hperm).
  all: destruct (filter (fun t => team_name t ∈ names2) teams) as [|t ts]; [done|].
  all: by apply chain_loop_log_irrelevant.
Qed.

End TargetRepos.

Lemma target_repos_chained_witness :
  ["Core"; "Tools"] ≡ₚ ["Tools"; "Core"] /\
  (main_target_repos ["Core"; "Tools"] [core_team; tools_team] (logging_init acme)).1 =
  (main_target_repos ["Tools"; "Core"] [core_team; tools_team] (logging_init acme)).1.
Proof.
  split; [apply Permutation_swap|].
  apply (target_repos_chained ["Core"; "Tools"] ["Tools"; "Core"] [core_team; tools_team]
           (logging_init acme)).
  apply Permutation_swap.
Defined.

(** C6 (as stated) fails: acme/widget belongs to both Core and Tools, and is
    twice in the resolved list. *)
Lemma resolver_deduplicates_fails : ~ resolver_deduplicates (W := hub).
Proof.
  intros H.
  specialize (H ["Core"; "Tools"] [core_team; tools_team] (logging_init acme)
                (main_target_repos ["Core"; "Tools"] [core_team; tools_team]
                   (logging_init acme)).2
                [widget; gadget; widget]).
  assert (NoDup (map full_name [widget; gadget; widget])) as Hnd.
  { apply H; [discriminate|]. vm_compute; reflexivity. }
  apply NoDup_cons in Hnd as [Hnotin _]. apply Hnotin. right. left.
Qed.

(** ** Runs of [main] that end before the tagging *)

Section EarlyExits.
Context {W : Type} {P : Provider W}.

Lemma forM__info_ok {A} (l : list A) (tpl : A -> string)
    (fs : A -> list (string * pyval)) (st : state W) :
  logger st = true ->
  (forM_ l (fun a => info (tpl a) (fs a)) st).1 = Ok tt.
Proof.
  revert st. induction l as [|a l IH]; intros st Hlog; cbn [forM_]; [done|].
  unfold bind. logs. by apply IH.
Qed.

(** Lines 283-284: an empty dictionary ends the run. *)
Lemma main_untagged_nothing (tags : list string) (repos : list Repository) (st : state W) :
  (find_repos_missing_tags repos tags st).1 = Ok [] ->
  (main_untagged tags repos st).1 = Raise (SystemExit "no untagged repos -- nothing to do").
Proof.
  intros Hempty.
  pose proof (find_repos_missing_tags_logger _ _ _ _ Hempty) as Hlog.
  pose proof (logger_kept_find_repos_missing_tags repos tags st) as Hkept.
  unfold logger_kept in Hkept. rewrite Hlog in Hkept.
  revert Hempty. unfold main_untagged. unfold bind at 1.
  destruct (find_repos_missing_tags repos tags st) as [[need|e] st1]; cbn [fst snd] in *;
    [|done].
  intros [= ->]. cbv zeta. unfold bind at 1. logs. unfold bind at 1.
  match goal with |- context [forM_ ?l ?b ?s] =>
    pose proof (forM__info_ok l (fun _ => "  {repo}")
                  (fun r => [("repo", VStr (full_name r))]) s Hkept) as Hok;
    destruct (forM_ l b s) as [[[]|e] st2] end; [done|discriminate Hok].
Qed.

(** Lines 257-259: with no target repository, the width of the report
    cannot be computed. *)
Lemma main_report_found_no_repos (names : list string) (st : state W) :
  main_report_found names [] st =
    (Raise (ValueError "max() arg is an empty sequence"), st).
Proof. reflexivity. Qed.

(** Lines 226 and 82-89: in a process without a logger, a run that finds an
    email address ends at the first [debug()], in the state it started in. *)
Lemma main_unset (env : Env) (args : Args) (st : state W) (email : string) :
  logger st = false ->
  match arg_email args with Some e => Some e | None => git_user_email env end = Some email ->
  main env args st =
    (Raise (AttributeError "'NoneType' object has no attribute 'debug'"), st).
Proof.
  intros Hlog Hemail. unfold main, main_setup, lookup_email. cbv zeta.
  unfold bind at 1. unfold bind at 1. unfold bind at 1.
  destruct (arg_email args) as [e|]; [|destruct (git_user_email env) as [e|]; [|done]];
    unfold ret; cbv beta iota; unfold bind at 1; by rewrite debug_unset.
Qed.

(** X25: in a process with a logger, when the teams of the organisation were
    listed and none of them has a requested name, the run ends with the
    error "No teams found", having made no creating request and having left
    the provider as it was. *)
Theorem no_teams_found (env : Env) (args : Args) (st st1 : state W)
    (tagger : InputGitAuthor) (teams : list Team) :
  logger st = true ->
  main_setup env args st = (Ok (tagger, teams), st1) ->
  filter (fun t => team_name t ∈ arg_team args) teams = [] ->
  (main env args st).1 = Raise (RuntimeError "No teams found") /\
  world (main env args st).2 = world st /\
  filter is_write (new_calls st (main env args st).2) = [].
Proof.
  intros Hlog Hsetup Hnone.
  pose proof (reads_only_main_setup env args st) as Hro. rewrite Hsetup in Hro.
  pose proof (logger_kept_main_setup env args st) as Hl1. rewrite Hsetup in Hl1.
  unfold logger_kept in Hl1. cbn [snd] in Hro, Hl1. rewrite Hlog in Hl1.
  assert (exists st2, main env args st = (Raise (RuntimeError "No teams found"), st2) /\
                      reads_only st1 st2) as (st2 & -> & Hro2).
  { unfold main. cbv zeta. unfold bind at 1. rewrite Hsetup. cbn [fst snd].
    unfold bind at 1. rewrite main_target_repos_unfold, Hnone by done.
    eexists. split; [done|]. etrans; apply reads_only_log. }
  split; [done|]. apply reads_only_no_write. by etrans.
Qed.

(** X26: in a process with a logger, a run that reaches the analysis and
    gets an empty dictionary from it (every target repository carries every
    requested tag) ends with the exit message "no untagged repos -- nothing
    to do", having made no creating request and having left the provider as
    it was. *)
Theorem nothing_to_do (env : Env) (args : Args) (st st1 st2 st3 : state W)
    (tagger : InputGitAuthor) (teams : list Team) (target_repos : list Repository) :
  logger st = true ->
  main_setup env args st = (Ok (tagger, teams), st1) ->
  main_target_repos (arg_team args) teams st1 = (Ok target_repos, st2) ->
  main_report_found (arg_team args) target_repos st2 = (Ok tt, st3) ->
  (find_repos_missing_tags target_repos (arg_tag args) st3).1 = Ok [] ->
  (main env args st).1 = Raise (SystemExit "no untagged repos -- nothing to do") /\
  world (main env args st).2 = world st /\
  filter is_write (new_calls st (main env args st).2) = [].
Proof.
  intros _ Hsetup Htarget Hreport Hempty.
  pose proof (reads_only_main_setup env args st) as Hro1. rewrite Hsetup in Hro1.
  pose proof (reads_only_main_target_repos (arg_team args) teams st1) as Hro2.
  rewrite Htarget in Hro2.
  pose proof (reads_only_main_report_found (arg_team args) target_repos st2) as Hro3.
  rewrite Hreport in Hro3.
  pose proof (reads_only_main_untagged (arg_tag args) target_repos st3) as Hro4.
  pose proof (main_untagged_nothing _ _ _ Hempty) as Hexit.
  cbn [snd] in *.
  assert (main env args st =
           (Raise (SystemExit "no untagged repos -- nothing to do"),
            (main_untagged (arg_tag args) target_repos st3).2)) as ->.
  { unfold main. cbv zeta. unfold bind at 1. rewrite Hsetup. cbn [fst snd].
    unfold bind at 1. rewrite Htarget. unfold bind at 1. rewrite Hreport.
    unfold bind at 1.
    by destruct (main_untagged (arg_tag args) target_repos st3) as [[need|e] st4];
      cbn [fst snd] in *; simplify_eq. }
  split; [done|]. apply reads_only_no_write.
  etrans; [exact Hro1|]. etrans; [exact Hro2|]. etrans; [exact Hro3|exact Hro4].
Qed.

End EarlyExits.

(** C7 (defect of the code): started as the script starts it, in a process
    without a logger, the run of the scenario in which no team has a
    requested name ends at the [debug()] of line 89 with [AttributeError],
    in the state it started in: it asks nothing of the provider and never
    raises "No teams found".  The same run in a process with a logger ends
    with "No teams found" and no creating request. *)
Theorem no_teams_found_not_reached :
  main acme_env (acme_args_for ["Ghost Team"] false) (module_init acme) =
    (Raise (AttributeError "'NoneType' object has no attribute 'debug'"),
     module_init acme) /\
  (main acme_env (acme_args_for ["Ghost Team"] false) (logging_init acme)).1 =
    Raise (RuntimeError "No teams found") /\
  filter is_write
    (calls (main acme_env (acme_args_for ["Ghost Team"] false) (logging_init acme)).2) = [].
Proof.
  split; [|split; vm_compute; reflexivity].
  by apply (main_unset acme_env (acme_args_for ["Ghost Team"] false) (module_init acme)
              "tagger@example.org").
Qed.

(** C8 (defect of the code): started as the script starts it, in a process
    without a logger, the run of the scenario in which every target
    repository carries every requested tag ends at the [debug()] of line 89
    with [AttributeError], in the state it started in: it never reaches the
    exit "no untagged repos -- nothing to do".  The same run in a process
    with a logger ends with that exit and no creating request. *)
Theorem nothing_to_do_not_reached :
  main acme_env acme_args (module_init acme_tagged) =
    (Raise (AttributeError "'NoneType' object has no attribute 'debug'"),
     module_init acme_tagged) /\
  (main acme_env acme_args (logging_init acme_tagged)).1 =
    Raise (SystemExit "no untagged repos -- nothing to do") /\
  filter is_write (calls (main acme_env acme_args (logging_init acme_tagged)).2) = [].
Proof.
  split; [|split; vm_compute; reflexivity].
  by apply (main_unset acme_env acme_args (module_init acme_tagged) "tagger@example.org").
Qed.

Lemma no_teams_found_witness :
  let args := acme_args_for ["Ghost Team"] false in
  let st := logging_init acme in
  logger st = true /\
  main_setup acme_env args st =
    (Ok (acme_tagger, [core_team; tools_team]), (main_setup acme_env args st).2) /\
  filter (fun t => team_name t ∈ arg_team args) [core_team; tools_team] = [] /\
  (main acme_env args st).1 = Raise (RuntimeError "No teams found") /\
  world (main acme_env args st).2 = world st /\
  filter is_write (new_calls st (main acme_env args st).2) = [].
Proof.
  cbv zeta. split; [reflexivity|].
  split; [vm_compute; reflexivity|]. split; [vm_compute; reflexivity|].
  apply (no_teams_found acme_env (acme_args_for ["Ghost Team"] false) (logging_init acme)
           (main_setup acme_env (acme_args_for ["Ghost Team"] false) (logging_init acme)).2
           acme_tagger [core_team; tools_team]).
  - reflexivity.
  - vm_compute; reflexivity.
  - vm_compute; reflexivity.
Defined.

Lemma nothing_to_do_witness :
  let st := logging_init acme_tagged in
  let st1 := (main_setup acme_env acme_args st).2 in
  let st2 := (main_target_repos ["Core"] [core_team; tools_team] st1).2 in
  let st3 := (main_report_found ["Core"] [widget; gadget] st2).2 in
  logger st = true /\
  main_setup acme_env acme_args st = (Ok (acme_tagger, [core_team; tools_team]), st1) /\
  main_target_repos (arg_team acme_args) [core_team; tools_team] st1 =
    (Ok [widget; gadget], st2) /\
  main_report_found (arg_team acme_args) [widget; gadget] st2 = (Ok tt, st3) /\
  (find_repos_missing_tags [widget; gadget] (arg_tag acme_args) st3).1 = Ok [] /\
  (main acme_env acme_args st).1 =
    Raise (SystemExit "no untagged repos -- nothing to do") /\
  world (main acme_env acme_args st).2 = world st /\
  filter is_write (new_calls st (main acme_env acme_args st).2) = [].
Proof.
  cbv zeta. split; [reflexivity|].
  split; [vm_compute; reflexivity|]. split; [vm_compute; reflexivity|].
  split; [vm_compute; reflexivity|]. split; [vm_compute; reflexivity|].
  apply (nothing_to_do acme_env acme_args (logging_init acme_tagged)
           (main_setup acme_env acme_args (logging_init acme_tagged)).2
           (main_target_repos ["Core"] [core_team; tools_team]
              (main_setup acme_env acme_args (logging_init acme_tagged)).2).2
           (main_report_found ["Core"] [widget; gadget]
              (main_target_repos ["Core"] [core_team; tools_team]
                 (main_setup acme_env acme_args (logging_init acme_tagged)).2).2).2
           acme_tagger [core_team; tools_team] [widget; gadget]).
  - reflexivity.
  - vm_compute; reflexivity.
  - vm_compute; reflexivity.
  - vm_compute; reflexivity.
  - vm_compute; reflexivity.
Defined.

(** A run, in a process with a logger, whose teams have no repository at
    all does not reach the analysis: it ends with the [ValueError] of line
    259. *)
Example main_no_target_repos :
  (main acme_env acme_args (logging_init acme_no_repos)).1 =
    Raise (ValueError "max() arg is an empty sequence") /\
  filter is_write (calls (main acme_env acme_args (logging_init acme_no_repos)).2) = [].
Proof. split; vm_compute; reflexivity. Qed.

(** ** The team cache *)

Section TeamCache.
Context {W : Type} {P : Provider W}.

(** A lookup that finds the full name in the cache returns the cached list
    and leaves the state, and so the trace, as it is. *)
Lemma find_repo_teams_hit (repo : Repository) (teams : list Team) (st : state W) :
  cached_teams st !! full_name repo = Some teams ->
  find_repo_teams repo st = (Ok teams, st).
Proof. intros H. unfold find_repo_teams. by rewrite H. Qed.

(** A lookup that returned has left its result in the cache. *)
Lemma find_repo_teams_cached (repo : Repository) (teams : list Team) (st st1 : state W) :
  find_repo_teams repo st = (Ok teams, st1) ->
  cached_teams st1 !! full_name repo = Some teams.
Proof.
  unfold find_repo_teams.
  destruct (cached_teams st !! full_name repo) as [ts|] eqn:Hc.
  - by intros [= <- <-].
  - unfold bind, repo_get_teams, read_call; cbn [fst snd].
    destruct (api_repo_get_teams (world st) (full_name repo)) as [ts|e]; [|done].
    intros [= <- <-]. cbn [cached_teams set_cached_teams record_call].
    apply lookup_insert_eq.
Qed.

(** C9 (as amended): the team cache is the module global [cached_teams],
    keyed by the full name of the repository.  It is empty in a process that
    has just loaded the module; a lookup whose full name is in the cache
    returns the cached list with no provider call; after a lookup that
    returned, a lookup through any repository object of the same full name
    returns the same list with no provider call; and [main] never removes or
    replaces an entry, so that the entries of one run are there for the next
    run in the same process. *)
Theorem cached_teams_per_process :
  (forall w : W, cached_teams (module_init w) = ∅) /\
  (forall (repo : Repository) (teams : list Team) (st : state W),
     cached_teams st !! full_name repo = Some teams ->
     find_repo_teams repo st = (Ok teams, st)) /\
  (forall (repo repo' : Repository) (teams : list Team) (st st1 : state W),
     find_repo_teams repo st = (Ok teams, st1) ->
     full_name repo' = full_name repo ->
     find_repo_teams repo' st1 = (Ok teams, st1)) /\
  (forall (env : Env) (args : Args) (st : state W) (k : string) (teams : list Team),
     cached_teams st !! k = Some teams ->
     cached_teams (main env args st).2 !! k = Some teams).
Proof.
  split; [done|]. split; [apply find_repo_teams_hit|]. split.
  - intros repo repo' teams st st1 Hrun Hname.
    apply find_repo_teams_hit. rewrite Hname. by eapply find_repo_teams_cached.
  - intros env args st k teams Hk.
    pose proof (cache_grows_main env args st) as Hsub. unfold cache_grows in Hsub.
    by eapply lookup_weaken.
Qed.

End TeamCache.

Lemma cached_teams_per_process_witness :
  let st := logging_init acme in
  let st1 := (find_repo_teams widget st).2 in
  find_repo_teams widget st = (Ok [core_team; tools_team], st1) /\
  cached_teams st1 !! "acme/widget" = Some [core_team; tools_team] /\
  find_repo_teams widget_renamed st1 = (Ok [core_team; tools_team], st1) /\
  cached_teams (main acme_env acme_args st1).2 !! "acme/widget"
    = Some [core_team; tools_team].
Proof.
  cbv zeta.
  assert (find_repo_teams widget (logging_init acme)
          = (Ok [core_team; tools_team], (find_repo_teams widget (logging_init acme)).2))
    as Hrun by (vm_compute; reflexivity).
  assert (cached_teams (find_repo_teams widget (logging_init acme)).2 !! "acme/widget"
          = Some [core_team; tools_team]) as Hcached by (vm_compute; reflexivity).
  split; [exact Hrun|]. split; [exact Hcached|]. split.
  - exact (proj1 (proj2 (proj2 (cached_teams_per_process (W := hub))))
             widget widget_renamed _ _ _ Hrun eq_refl).
  - exact (proj2 (proj2 (proj2 (cached_teams_per_process (W := hub))))
             acme_env acme_args _ "acme/widget" _ Hcached).
Defined.

(** C9 (as stated) fails: a second run of [main] in the process of a first
    one finds the cache the first left and asks the provider for no team
    list, where a run with an empty cache asks for two. *)
Lemma cache_is_per_run_fails : ~ cache_is_per_run (W := hub).
Proof.
  intros H.
  specialize (H acme_env (acme_args_for ["Core"] true)
                (main acme_env (acme_args_for ["Core"] true) (logging_init acme)).2).
  vm_compute in H. discriminate H.
Qed.

(** ** The end-to-end scenario *)

(** Team Core of acme; acme/widget has v1.0, acme/gadget has no tag: in a
    process with a logger the run creates three tags, each on the head of
    the default branch of its repository, resolved once per repository. *)
Example acme_run :
  (main acme_env acme_args (logging_init acme)).1 = Ok tt /\
  created_tags (calls (main acme_env acme_args (logging_init acme)).2) =
    [("acme/widget", "v1.1"); ("acme/gadget", "v1.0"); ("acme/gadget", "v1.1")] /\
  head_lookups (calls (main acme_env acme_args (logging_init acme)).2) =
    [("acme/widget", "heads/master"); ("acme/gadget", "heads/main")].
Proof. repeat split; vm_compute; reflexivity. Qed.

(** The same run in a process that has just imported the modules, which is
    how the console script starts [main]: it ends at the first [debug()]. *)
Example acme_run_as_started :
  main acme_env acme_args (module_init acme) =
    (Raise (AttributeError "'NoneType' object has no attribute 'debug'"), module_init acme).
Proof. vm_compute. reflexivity. Qed.

(** A second run, in a new process with a logger on the world the first
    one left, finds nothing to do and writes nothing. *)
Example acme_second_run :
  let after := world (main acme_env acme_args (logging_init acme)).2 in
  (main acme_env acme_args (logging_init after)).1 =
    Raise (SystemExit "no untagged repos -- nothing to do") /\
  filter is_write (calls (main acme_env acme_args (logging_init after)).2) = [].
Proof. split; vm_compute; reflexivity. Qed.

(** The same run as a dry run: the same analysis, no creating request. *)
Example acme_dry_run :
  (main acme_env (acme_args_for ["Core"] true) (logging_init acme)).1 = Ok tt /\
  filter is_write
    (calls (main acme_env (acme_args_for ["Core"] true) (logging_init acme)).2) = [] /\
  intended_creations
    (logged (main acme_env (acme_args_for ["Core"] true) (logging_init acme)).2) =
    [("acme/widget", "v1.1"); ("acme/gadget", "v1.0"); ("acme/gadget", "v1.1")].
Proof. repeat split; vm_compute; reflexivity. Qed.

(** ** codetools.py: organisation names and manifests *)

Lemma strip_prefix_Some (p s r : string) :
  strip_prefix p s = Some r <-> s = p +:+ r.
Proof.
  revert s. induction p as [|a p IH]; intros s; cbn [strip_prefix].
  - split; [by intros [= ->]|by intros ->].
  - destruct s as [|b s].
    + split; [done|]. intros H. discriminate H.
    + change (String a p +:+ r) with (String a (p +:+ r)).
      destruct (Ascii.eqb_spec a b) as [->|Hne].
      * rewrite IH. split; [by intros ->|by intros [= ->]].
      * split; [done|]. intros [= -> _]. done.
Qed.

Lemma contains_spec (needle hay : string) :
  contains needle hay = true <-> exists pre post, hay = pre +:+ needle +:+ post.
Proof.
  split.
  - induction hay as [|c hay IH]; cbn [contains].
    + destruct (strip_prefix needle "") as [r|] eqn:Hp; [|done].
      intros _. apply strip_prefix_Some in Hp. by exists "", r.
    + destruct (strip_prefix needle (String c hay)) as [r|] eqn:Hp.
      * intros _. apply strip_prefix_Some in Hp. by exists "", r.
      * intros (pre & post & ->)%IH. by exists (String c pre), post.
  - intros (pre & post & ->). induction pre as [|c pre IH].
    + change ("" +:+ needle +:+ post) with (needle +:+ post).
      pose proof (strip_prefix_app needle post) as Hp.
      destruct (needle +:+ post); cbn [contains]; by rewrite Hp.
    + change (String c pre +:+ needle +:+ post) with (String c (pre +:+ needle +:+ post)).
      cbn [contains]. by destruct (strip_prefix needle _).
Qed.

(** X1: [validate_org] passes exactly the names in which "lsst" does not
    occur, anywhere and in this spelling; for the others it raises
    [AssertionError]. *)
Theorem validate_org_passes (org : string) :
  validate_org org = Passed <-> ~ exists pre post, org = pre +:+ "lsst" +:+ post.
Proof.
  unfold validate_org. rewrite <-contains_spec.
  destruct (contains "lsst" org); split; done.
Qed.

Lemma parse_manifest_line_cases (products : pydict manifest_entry) (line : string) :
  (manifest_line_skipped line = true /\ parse_manifest_line products line = Ok products) \/
  (manifest_line_skipped line = false /\
   exists e, manifest_entry_of line = Some e /\ 3 <= length (py_split line) /\
             head (py_split line) = Some (entry_name e) /\
             parse_manifest_line products line = Ok (dict_set (entry_name e) e products)) \/
  (manifest_line_skipped line = false /\ length (py_split line) < 3 /\
   manifest_entry_of line = None /\
   exists msg, parse_manifest_line products line = Raise (ValueError msg)).
Proof.
  unfold manifest_line_skipped, parse_manifest_line, manifest_entry_of.
  destruct (startswith "#" line); [by left|].
  destruct (startswith "BUILD" line); [by left|].
  destruct line as [|c line]; [by left|]. right. cbn [orb].
  destruct (py_split (String c line)) as [|f1 [|f2 [|f3 rest]]]; cbn [take length head].
  - right. repeat split; [lia|]. by eexists.
  - right. repeat split; [lia|]. by eexists.
  - right. repeat split; [lia|]. by eexists.
  - left. split; [done|]. eexists. repeat split; cbn; lia.
Qed.

Lemma parse_manifest_lines_snoc (lines : list string) (line : string)
    (products : pydict manifest_entry) :
  parse_manifest_lines (lines ++ [line]) products =
    match parse_manifest_lines lines products with
    | Ok products' => parse_manifest_line products' line
    | Raise e => Raise e
    end.
Proof.
  revert products. induction lines as [|l lines IH]; intros products; cbn.
  - by destruct (parse_manifest_line products line).
  - destruct (parse_manifest_line products l); [apply IH|done].
Qed.

Lemma parse_manifest_lines_outcome (lines : list string)
    (products : pydict manifest_entry) :
  match parse_manifest_lines lines products with
  | Ok _ =>
      Forall (fun line => manifest_line_skipped line = true \/ 3 <= length (py_split line))
        lines
  | Raise e =>
      (exists msg, e = ValueError msg) /\
      Exists (fun line => manifest_line_skipped line = false /\ length (py_split line) < 3)
        lines
  end.
Proof.
  revert products. induction lines as [|line lines IH]; intros products; cbn.
  - constructor.
  - destruct (parse_manifest_line_cases products line)
      as [[Hs ->]|[(Hs & e & _ & Hlen & _ & ->)|(Hs & Hlen & _ & msg & ->)]].
    + specialize (IH products). destruct (parse_manifest_lines lines products).
      * constructor; [by left|done].
      * destruct IH as [Hmsg Hex]. split; [done|by right].
    + specialize (IH (dict_set (entry_name e) e products)).
      destruct (parse_manifest_lines lines _).
      * constructor; [by right|done].
      * destruct IH as [Hmsg Hex]. split; [done|by right].
    + split; [by eexists|]. by left.
Qed.

Lemma parse_manifest_lines_dict_get (lines : list string)
    (products0 products : pydict manifest_entry) (product : string) :
  parse_manifest_lines lines products0 = Ok products ->
  dict_get product products =
    match last (filter (manifest_line_of product) lines) ≫= manifest_entry_of with
    | Some e => Some e
    | None => dict_get product products0
    end.
Proof.
  revert products.
  induction lines as [|line lines IH] using rev_ind; intros products.
  - by intros [= <-].
  - rewrite parse_manifest_lines_snoc.
    destruct (parse_manifest_lines lines products0) as [d|e0]; [|done].
    specialize (IH d eq_refl). rewrite filter_app, filter_cons, filter_nil.
    destruct (parse_manifest_line_cases d line)
      as [[Hs ->]|[(Hs & e & He & _ & Hhead & ->)|(_ & _ & _ & msg & ->)]]; [| |done].
    + intros [= <-]. rewrite decide_False, app_nil_r; [done|].
      intros [Hns _]. congruence.
    + intros [= <-]. rewrite dict_get_set.
      destruct (decide (product = entry_name e)) as [->|Hne].
      * rewrite decide_True by done. rewrite last_snoc. cbn. by rewrite He.
      * rewrite decide_False, app_nil_r; [done|].
        intros [_ Hh]. congruence.
Qed.

(** X2: [parse_manifest_file] returns a dictionary exactly when every line it
    does not skip has at least three fields; otherwise what it raises is the
    [ValueError] of the unpacking of such a line. *)
Theorem parse_manifest_file_outcome (data : string) :
  match parse_manifest_file data with
  | Ok _ =>
      Forall (fun line => manifest_line_skipped line = true \/ 3 <= length (py_split line))
        (splitlines data)
  | Raise e =>
      (exists msg, e = ValueError msg) /\
      Exists (fun line => manifest_line_skipped line = false /\ length (py_split line) < 3)
        (splitlines data)
  end.
Proof. unfold parse_manifest_file. apply parse_manifest_lines_outcome. Qed.

(** X3: in the dictionary [parse_manifest_file] returns, the entry of a
    product is that of the last line of the manifest that is a record of
    it: a later record replaces an earlier one, and fields after the third
    are dropped. *)
Theorem parse_manifest_file_last_record (data : string)
    (products : pydict manifest_entry) (product : string) :
  parse_manifest_file data = Ok products ->
  dict_get product products =
    last (filter (manifest_line_of product) (splitlines data)) ≫= manifest_entry_of.
Proof.
  unfold parse_manifest_file. intros Hparse.
  rewrite (parse_manifest_lines_dict_get _ _ _ product Hparse).
  by destruct (last _ ≫= manifest_entry_of).
Qed.

Lemma split_from_blank (s : string) :
  Forall (fun c => is_space c = true) (chars s) -> split_from "" s = [].
Proof.
  induction s as [|c s IH]; cbn [chars split_from]; [done|].
  intros [Hc Hs]%Forall_cons. rewrite Hc. auto.
Qed.

(** X4: a line that is not empty and holds white space only is not skipped:
    a manifest with such a line makes [parse_manifest_file] raise
    [ValueError]. *)
Theorem parse_manifest_file_blank_line (data line : string) :
  line ∈ splitlines data ->
  line <> "" ->
  Forall (fun c => is_space c = true) (chars line) ->
  exists msg, parse_manifest_file data = Raise (ValueError msg).
Proof.
  intros Hin Hne Hblank.
  assert (manifest_line_skipped line = false) as Hs.
  { destruct line as [|c line]; [done|].
    apply Forall_cons in Hblank as [Hc _]. revert Hc. clear.
    destruct c as [[] [] [] [] [] [] [] []]; vm_compute; congruence. }
  assert (length (py_split line) = 0) as Hlen.
  { unfold py_split. by rewrite split_from_blank. }
  pose proof (parse_manifest_lines_outcome (splitlines data) []) as Hout.
  fold (parse_manifest_file data) in Hout.
  destruct (parse_manifest_file data) as [products|e].
  - rewrite Forall_forall in Hout. destruct (Hout line Hin) as [?|?]; [congruence|lia].
  - destruct Hout as [[msg ->] _]. by exists msg.
Qed.

Lemma parse_manifest_file_last_record_witness :
  parse_manifest_file manifest_b1108 =
    Ok [("afw", {| entry_name := "afw"; entry_sha := "7a8b9c";
                   entry_eups_version := "2.2016.11" |});
        ("base", {| entry_name := "base"; entry_sha := "4d5e6f";
                    entry_eups_version := "12.0" |})] /\
  last (filter (manifest_line_of "afw") (splitlines manifest_b1108)) ≫= manifest_entry_of =
    Some {| entry_name := "afw"; entry_sha := "7a8b9c"; entry_eups_version := "2.2016.11" |}.
Proof.
  assert (parse_manifest_file manifest_b1108 =
    Ok [("afw", {| entry_name := "afw"; entry_sha := "7a8b9c";
                   entry_eups_version := "2.2016.11" |});
        ("base", {| entry_name := "base"; entry_sha := "4d5e6f";
                    entry_eups_version := "12.0" |})]) as Hparse
    by (vm_compute; reflexivity).
  split; [exact Hparse|].
  rewrite <-(parse_manifest_file_last_record manifest_b1108 _ "afw" Hparse).
  reflexivity.
Defined.

Lemma parse_manifest_file_blank_line_witness :
  "  " ∈ splitlines manifest_blank_line /\
  exists msg, parse_manifest_file manifest_blank_line = Raise (ValueError msg).
Proof.
  assert ("  " ∈ splitlines manifest_blank_line) as Hin.
  { vm_compute. right. left. }
  split; [exact Hin|].
  apply (parse_manifest_file_blank_line manifest_blank_line "  " Hin).
  - discriminate.
  - repeat constructor.
Defined.

Section Eups2Git.
Context {W : Type} (http_get_text : string -> result string).

Lemma eups2git_ref_run (product eups_version build_id manifest : string)
    (products : pydict manifest_entry) (st : state W) :
  logger st = true ->
  http_get_text (versiondb_default +:+ "/" +:+ build_id +:+ ".txt") = Ok manifest ->
  parse_manifest_file manifest = Ok products ->
  (eups2git_ref http_get_text product eups_version build_id st).1 =
    match dict_get product products with
    | None => Raise (KeyError product)
    | Some entry =>
        if decide (entry_eups_version entry = eups_version)
        then Ok (entry_sha entry)
        else Raise (RuntimeError
                      ("failed to find record in manifest " +:+ build_id +:+ " for:
  " +:+ product +:+ " " +:+ eups_version))
    end.
Proof.
  intros Hlog Hget Hparse.
  unfold eups2git_ref, fetch_manifest_file. unfold bind at 1. unfold bind at 1. logs.
  unfold bind, of_result, dict_item.
  cbn [fst snd]. rewrite Hget, Hparse.
  destruct (dict_get product products) as [entry|]; [|done].
  cbn [ret]. by destruct (decide (entry_eups_version entry = eups_version)).
Qed.

(** Without a logger the [debug()] of [fetch_manifest_file] (line 268)
    ends [eups2git_ref], before the manifest is fetched. *)
Lemma eups2git_ref_unset (product eups_version build_id : string) (st : state W) :
  logger st = false ->
  eups2git_ref http_get_text product eups_version build_id st =
    (Raise (AttributeError "'NoneType' object has no attribute 'debug'"), st).
Proof.
  intros Hlog. unfold eups2git_ref, fetch_manifest_file. cbv zeta.
  unfold bind at 1. unfold bind at 1. by rewrite debug_unset.
Qed.

(** X5: in a process with a logger, [eups2git_ref] answers from the last
    record of the product in the manifest of the build: it returns the sha
    of that record when its version is the one asked for, and raises
    [RuntimeError] when it is not, even if an earlier record of the product
    has the version asked for.  In a process without a logger it raises the
    [AttributeError] of the [debug()] of line 268. *)
Theorem eups2git_ref_last_record (product eups_version build_id manifest : string)
    (products : pydict manifest_entry) (entry : manifest_entry) (st : state W) :
  http_get_text (versiondb_default +:+ "/" +:+ build_id +:+ ".txt") = Ok manifest ->
  parse_manifest_file manifest = Ok products ->
  last (filter (manifest_line_of product) (splitlines manifest)) ≫= manifest_entry_of
    = Some entry ->
  (eups2git_ref http_get_text product eups_version build_id st).1 =
    if logger st
    then if decide (entry_eups_version entry = eups_version)
         then Ok (entry_sha entry)
         else Raise (RuntimeError
                       ("failed to find record in manifest " +:+ build_id +:+ " for:
  " +:+ product +:+ " " +:+ eups_version))
    else Raise (AttributeError "'NoneType' object has no attribute 'debug'").
Proof.
  intros Hget Hparse Hlast.
  destruct (logger st) eqn:Hlog; [|by rewrite eups2git_ref_unset].
  rewrite (eups2git_ref_run _ _ _ _ _ _ Hlog Hget Hparse).
  unfold parse_manifest_file in Hparse.
  by rewrite (parse_manifest_lines_dict_get _ _ _ product Hparse), Hlast.
Qed.

(** X6: in a process with a logger, for a product that no line of the
    manifest is a record of, [eups2git_ref] raises the [KeyError] of the
    dictionary lookup.  In a process without a logger it raises the
    [AttributeError] of the [debug()] of line 268. *)
Theorem eups2git_ref_unknown_product (product eups_version build_id manifest : string)
    (products : pydict manifest_entry) (st : state W) :
  http_get_text (versiondb_default +:+ "/" +:+ build_id +:+ ".txt") = Ok manifest ->
  parse_manifest_file manifest = Ok products ->
  filter (manifest_line_of product) (splitlines manifest) = [] ->
  (eups2git_ref http_get_text product eups_version build_id st).1 =
    if logger st then Raise (KeyError product)
    else Raise (AttributeError "'NoneType' object has no attribute 'debug'").
Proof.
  intros Hget Hparse Hnone.
  destruct (logger st) eqn:Hlog; [|by rewrite eups2git_ref_unset].
  rewrite (eups2git_ref_run _ _ _ _ _ _ Hlog Hget Hparse).
  unfold parse_manifest_file in Hparse.
  by rewrite (parse_manifest_lines_dict_get _ _ _ product Hparse), Hnone.
Qed.

End Eups2Git.

Lemma eups2git_ref_last_record_witness :
  versiondb_b1108 (versiondb_default +:+ "/" +:+ "b1108" +:+ ".txt") = Ok manifest_b1108 /\
  (eups2git_ref versiondb_b1108 "afw" "2.2016.10" "b1108" (logging_init acme)).1 =
    Raise (RuntimeError "failed to find record in manifest b1108 for:
  afw 2.2016.10") /\
  (eups2git_ref versiondb_b1108 "afw" "2.2016.11" "b1108" (logging_init acme)).1 =
    Ok "7a8b9c" /\
  (eups2git_ref versiondb_b1108 "afw" "2.2016.11" "b1108" (module_init acme)).1 =
    Raise (AttributeError "'NoneType' object has no attribute 'debug'").
Proof.
  assert (versiondb_b1108 (versiondb_default +:+ "/" +:+ "b1108" +:+ ".txt")
          = Ok manifest_b1108) as Hget by (vm_compute; reflexivity).
  assert (parse_manifest_file manifest_b1108 =
    Ok [("afw", {| entry_name := "afw"; entry_sha := "7a8b9c";
                   entry_eups_version := "2.2016.11" |});
        ("base", {| entry_name := "base"; entry_sha := "4d5e6f";
                    entry_eups_version := "12.0" |})]) as Hparse
    by (vm_compute; reflexivity).
  assert (last (filter (manifest_line_of "afw") (splitlines manifest_b1108))
            ≫= manifest_entry_of =
          Some {| entry_name := "afw"; entry_sha := "7a8b9c";
                  entry_eups_version := "2.2016.11" |}) as Hlast
    by (vm_compute; reflexivity).
  split; [exact Hget|]. split; [|split].
  - exact (eups2git_ref_last_record versiondb_b1108 "afw" "2.2016.10" "b1108"
             manifest_b1108 _ _ (logging_init acme) Hget Hparse Hlast).
  - exact (eups2git_ref_last_record versiondb_b1108 "afw" "2.2016.11" "b1108"
             manifest_b1108 _ _ (logging_init acme) Hget Hparse Hlast).
  - exact (eups2git_ref_last_record versiondb_b1108 "afw" "2.2016.11" "b1108"
             manifest_b1108 _ _ (module_init acme) Hget Hparse Hlast).
Defined.

Lemma eups2git_ref_unknown_product_witness :
  filter (manifest_line_of "daf_base") (splitlines manifest_b1108) = [] /\
  (eups2git_ref versiondb_b1108 "daf_base" "12.0" "b1108" (logging_init acme)).1 =
    Raise (KeyError "daf_base").
Proof.
  assert (filter (manifest_line_of "daf_base") (splitlines manifest_b1108) = [])
    as Hnone by (vm_compute; reflexivity).
  split; [exact Hnone|].
  apply (eups2git_ref_unknown_product versiondb_b1108 "daf_base" "12.0" "b1108"
           manifest_b1108
           [("afw", {| entry_name := "afw"; entry_sha := "7a8b9c";
                       entry_eups_version := "2.2016.11" |});
            ("base", {| entry_name := "base"; entry_sha := "4d5e6f";
                        entry_eups_version := "12.0" |})]
           (logging_init acme)).
  - vm_compute; reflexivity.
  - vm_compute; reflexivity.
  - exact Hnone.
Defined.

(** ** Identity and login of a run *)

Section RunSetup.
Context {W : Type} {P : Provider W}.

Lemma substring_prefix (s rest : string) :
  substring 0 (String.length s) (s +:+ rest) = s.
Proof.
  induction s as [|c s IH].
  - by destruct rest.
  - change (String c s +:+ rest) with (String c (s +:+ rest)).
    cbn [String.length substring]. by rewrite IH.
Qed.

(** X7: in a process with a logger, the timestamp of [current_timestamp]
    is the first nineteen characters of the ISO format of the clock, that is
    the time to the second, followed by Z: a fraction of a second is
    dropped.  In a process without a logger the [debug()] of line 380 raises
    [AttributeError] instead. *)
Theorem current_timestamp_to_the_second (env : Env) (seconds fraction : string)
    (st : state W) :
  String.length seconds = 19 ->
  utcnow_isoformat env = seconds +:+ fraction ->
  (current_timestamp env st).1 =
    (if logger st then Ok (seconds +:+ "Z")
     else Raise (AttributeError "'NoneType' object has no attribute 'debug'")) /\
  world (current_timestamp env st).2 = world st /\
  calls (current_timestamp env st).2 = calls st.
Proof.
  intros Hlen Hiso. unfold current_timestamp. cbv zeta. unfold bind.
  destruct (logger st) eqn:Hlog.
  - logs. cbn [fst snd ret world calls record_log].
    by rewrite Hiso, <-Hlen, substring_prefix.
  - by rewrite debug_unset.
Qed.

(** The set-up of a run whose identity is known, in a process with a
    logger: the login and the two requests for the organisation and its
    teams. *)
Lemma main_setup_run (env : Env) (args : Args) (st : state W) (tagger : InputGitAuthor) :
  logger st = true ->
  run_tagger env args = Some tagger ->
  exists st0,
    main_setup env args st =
      match run_token env args with
      | None =>
          (Raise (EnvironmentError ("No token in " +:+ expand_path env "~/.sq_github_token")),
           st0)
      | Some tok =>
          (org <- get_organization {| token := tok |} (arg_org args) ;;
           teams <- org_get_teams org ;;
           ret (tagger, teams)) st0
      end /\
    world st0 = world st /\ calls st0 = calls st /\ logger st0 = true.
Proof.
  unfold run_tagger, run_token, main_setup, lookup_email, lookup_tagger,
    current_timestamp, login_github, github_token.
  intros Hlog Htagger.
  destruct (arg_email args) as [email|], (git_user_email env) as [gemail|],
    (arg_tagger args) as [name|], (git_user_name env) as [gname|];
    try discriminate Htagger; injection Htagger as <-.
  all: destruct (arg_token args) as [tok|];
    [|destruct (first_line_of env (expand_path env "~/.sq_github_token")) as [tok|]].
  all: cbv zeta; unfold bind, ret, raise; cbv beta iota; run_logs.
  all: eexists; split; [reflexivity|]; by repeat split.
Qed.

(** Without a logger the set-up does not return. *)
Lemma main_setup_unset (env : Env) (args : Args) (st : state W) :
  logger st = false -> exists e, main_setup env args st = (Raise e, st).
Proof.
  intros Hlog. unfold main_setup, lookup_email. cbv zeta.
  unfold bind at 1. unfold bind at 1.
  destruct (arg_email args) as [e|]; [|destruct (git_user_email env) as [e|]];
    unfold ret, raise; cbv beta iota;
    first [unfold bind at 1; rewrite debug_unset by done; by eexists | by eexists].
Qed.

(** The identity of a run, as far as the timestamp, in a process with a
    logger. *)
Lemma main_setup_tagger_missing (env : Env) (args : Args) (st : state W) (email : string) :
  logger st = true ->
  match arg_email args with Some e => Some e | None => git_user_email env end = Some email ->
  arg_tagger args = None ->
  git_user_name env = None ->
  main_setup env args st =
    (Raise (SystemExit "Specify --tagger option"),
     record_log {| level := DEBUG; template := "email is " +:+ email; fields := [] |} st).
Proof.
  intros Hlog Hemail Ha He. unfold main_setup, lookup_email, lookup_tagger. cbv zeta.
  unfold bind at 1. unfold bind at 1. unfold bind at 1.
  rewrite Ha, He.
  destruct (arg_email args) as [e|]; [|rewrite Hemail]; simplify_eq;
    unfold ret; cbv beta iota; unfold bind at 1; logs; reflexivity.
Qed.

(** The identity of a run that gets as far as the provider. *)
Lemma main_setup_identity (env : Env) (args : Args) (st st1 : state W)
    (tagger : InputGitAuthor) (teams : list Team) :
  main_setup env args st = (Ok (tagger, teams), st1) ->
  run_tagger env args = Some tagger /\ logger st = true.
Proof.
  intros Hsetup. destruct (logger st) eqn:Hlog; cycle 1.
  { destruct (main_setup_unset env args st Hlog) as [e He]. congruence. }
  split; [|done].
  destruct (run_tagger env args) as [tagger'|] eqn:Htagger.
  - destruct (main_setup_run env args st tagger' Hlog Htagger) as (st0 & Hrun & _).
    rewrite Hsetup in Hrun. destruct (run_token env args) as [tok|]; [|done].
    revert Hrun. unfold bind, get_organization, org_get_teams, read_call. cbn [fst snd].
    destruct (api_get_organization _ _ _) as [org|e]; [|done].
    destruct (api_org_get_teams _ org) as [ts|e]; [|done].
    unfold ret. by intros [= -> _].
  - exfalso. unfold run_tagger in Htagger.
    destruct (match arg_email args with Some e => Some e | None => git_user_email env end)
      as [email|] eqn:Hemail.
    + destruct (arg_tagger args) as [name|] eqn:Ha; [done|].
      destruct (git_user_name env) as [name|] eqn:Hn; [done|].
      by rewrite (main_setup_tagger_missing env args st email) in Hsetup.
    + revert Hsetup. unfold main_setup, lookup_email, bind.
      destruct (arg_email args); [done|]. by destruct (git_user_email env).
Qed.

(** X8: without an email address, from the option or from the git
    configuration, [main] exits with "Specify --email option" before
    anything else: nothing was asked of the provider, nothing was logged,
    whatever else is missing. *)
Theorem main_without_email (env : Env) (args : Args) (st : state W) :
  arg_email args = None ->
  git_user_email env = None ->
  main env args st = (Raise (SystemExit "Specify --email option"), st).
Proof.
  intros Ha He. unfold main, main_setup, lookup_email, bind. by rewrite Ha, He.
Qed.

(** X9: with an email address but without a tagger name, from the option or
    from the git configuration, [main] in a process with a logger exits with
    "Specify --tagger option"; in a process without a logger it ends with
    the [AttributeError] of the [debug()] of line 89, before it looks for
    the name.  Either way nothing was asked of the provider. *)
Theorem main_without_tagger (env : Env) (args : Args) (st : state W) (email : string) :
  match arg_email args with Some e => Some e | None => git_user_email env end = Some email ->
  arg_tagger args = None ->
  git_user_name env = None ->
  (main env args st).1 =
    (if logger st then Raise (SystemExit "Specify --tagger option")
     else Raise (AttributeError "'NoneType' object has no attribute 'debug'")) /\
  new_calls st (main env args st).2 = [] /\
  world (main env args st).2 = world st.
Proof.
  intros Hemail Ha He. destruct (logger st) eqn:Hlog.
  - assert (main env args st =
            (Raise (SystemExit "Specify --tagger option"),
             record_log {| level := DEBUG; template := "email is " +:+ email;
                           fields := [] |} st)) as ->.
    { unfold main. cbv zeta. unfold bind at 1.
      by rewrite (main_setup_tagger_missing env args st email). }
    cbn [fst snd]. unfold new_calls. cbn [calls record_log]. by rewrite drop_all.
  - rewrite (main_unset env args st email) by done.
    cbn [fst snd]. unfold new_calls. by rewrite drop_all.
Qed.

End RunSetup.

Lemma current_timestamp_to_the_second_witness :
  String.length "2018-03-01T12:00:00" = 19 /\
  utcnow_isoformat acme_env = "2018-03-01T12:00:00" +:+ ".123456" /\
  (current_timestamp acme_env (logging_init acme)).1 = Ok "2018-03-01T12:00:00Z" /\
  (current_timestamp acme_env (module_init acme)).1 =
    Raise (AttributeError "'NoneType' object has no attribute 'debug'").
Proof.
  split; [reflexivity|]. split; [reflexivity|]. split.
  - exact (proj1 (current_timestamp_to_the_second acme_env "2018-03-01T12:00:00" ".123456"
                    (logging_init acme) eq_refl eq_refl)).
  - exact (proj1 (current_timestamp_to_the_second acme_env "2018-03-01T12:00:00" ".123456"
                    (module_init acme) eq_refl eq_refl)).
Defined.

Lemma main_without_email_witness :
  arg_email acme_args = None /\ git_user_email bare_env = None /\
  main bare_env acme_args (module_init acme) =
    (Raise (SystemExit "Specify --email option"), module_init acme).
Proof.
  split; [reflexivity|]. split; [reflexivity|].
  apply (main_without_email bare_env acme_args (module_init acme)); reflexivity.
Defined.

Lemma main_without_tagger_witness :
  match arg_email acme_args with
  | Some e => Some e
  | None => git_user_email email_only_env
  end = Some "tagger@example.org" /\
  arg_tagger acme_args = None /\ git_user_name email_only_env = None /\
  (main email_only_env acme_args (logging_init acme)).1 =
    Raise (SystemExit "Specify --tagger option") /\
  (main email_only_env acme_args (module_init acme)).1 =
    Raise (AttributeError "'NoneType' object has no attribute 'debug'") /\
  new_calls (module_init acme) (main email_only_env acme_args (module_init acme)).2 = [].
Proof.
  split; [reflexivity|]. split; [reflexivity|]. split; [reflexivity|].
  destruct (main_without_tagger email_only_env acme_args (logging_init acme)
              "tagger@example.org" eq_refl eq_refl eq_refl) as (Hset & _ & _).
  destruct (main_without_tagger email_only_env acme_args (module_init acme)
              "tagger@example.org" eq_refl eq_refl eq_refl) as (Hunset & Hcalls & _).
  split; [exact Hset|]. split; [exact Hunset|exact Hcalls].
Defined.

(** ** The login of a run *)

Section RunLogin.
Context {W : Type} {P : Provider W}.

Lemma calls_extend_refl (st : state W) c b l :
  calls_extend st
    {| world := world st; cached_teams := c; logger := b; calls := calls st; logged := l |}.
Proof. exists []. by rewrite app_nil_r. Qed.

Lemma calls_extend_log (st : state W) r : calls_extend st (record_log r st).
Proof. apply calls_extend_refl. Qed.

Lemma calls_extend_read (st : state W) ev :
  is_write ev = false -> calls_extend st (record_call ev st).
Proof. intros _. by exists [ev]. Qed.

Lemma calls_extend_cache (st : state W) k v :
  cached_teams st !! k = None ->
  calls_extend st (set_cached_teams (<[k:=v]> (cached_teams st)) st).
Proof. intros _. apply calls_extend_refl. Qed.

(** What follows the set-up of [main] only adds to the trace. *)
Lemma calls_extend_after_setup (env : Env) (args : Args) (st : state W) :
  calls_extend (main_setup env args st).2 (main env args st).2.
Proof.
  unfold main. cbv zeta. unfold bind at 1.
  destruct (main_setup env args st) as [[setup|e] st1]; cbn [snd]; [|reflexivity].
  revert st1. change (keeps calls_extend
    (target_repos <- main_target_repos (arg_team args) setup.2 ;;
     main_report_found (arg_team args) target_repos ;;
     untagged_repos <- main_untagged (arg_tag args) target_repos ;;
     main_report_missing untagged_repos ;;
     main_tag_untagged untagged_repos setup.1 (arg_dry_run args))).
  apply keeps_bind; [apply _| |intros target_repos].
  { apply keeps_main_target_repos; first apply _;
      auto using calls_extend_log, calls_extend_read. }
  apply keeps_bind; [apply _| |intros _].
  { apply keeps_main_report_found; first apply _;
      auto using calls_extend_log, calls_extend_read, calls_extend_cache. }
  apply keeps_bind; [apply _| |intros untagged_repos].
  { apply keeps_main_untagged; first apply _;
      auto using calls_extend_log, calls_extend_read. }
  apply keeps_bind; [apply _| |intros _].
  { apply keeps_main_report_missing; first apply _; auto using calls_extend_log. }
  apply calls_extend_main_tag_untagged.
Qed.

(** X10: in a process with a logger, a run whose identity is known logs in
    with the token of [--token] when it is given and with the first line of
    the file ~/.sq_github_token otherwise, whatever [--token-path] is; the
    request for the organisation with that token is the first it makes, and
    without the option and the file it ends with [EnvironmentError] before
    any request.  In a process without a logger the run ends at the
    [debug()] of line 89, in the state it started in, before any login. *)
Theorem main_login (env : Env) (args : Args) (st : state W) (tagger : InputGitAuthor) :
  run_tagger env args = Some tagger ->
  if logger st
  then
    match run_token env args with
    | None =>
        (main env args st).1 =
          Raise (EnvironmentError
                   ("No token in " +:+ expand_path env "~/.sq_github_token")) /\
        new_calls st (main env args st).2 = []
    | Some tok =>
        exists evs,
          new_calls st (main env args st).2 =
            EvGetOrganization {| token := tok |} (arg_org args)
              (api_get_organization (world st) {| token := tok |} (arg_org args)) :: evs
    end
  else
    main env args st =
      (Raise (AttributeError "'NoneType' object has no attribute 'debug'"), st).
Proof.
  intros Htagger. destruct (logger st) eqn:Hlog; cycle 1.
  { unfold run_tagger in Htagger.
    destruct (match arg_email args with Some e => Some e | None => git_user_email env end)
      as [email|] eqn:Hemail; [|done].
    by apply (main_unset env args st email). }
  destruct (main_setup_run env args st tagger Hlog Htagger) as (st0 & Hsetup & Hw & Hc & _).
  pose proof (calls_extend_after_setup env args st) as [evs2 Hext].
  destruct (run_token env args) as [tok|].
  - assert (exists evs1, calls (main_setup env args st).2 =
              calls st ++ EvGetOrganization {| token := tok |} (arg_org args)
                (api_get_organization (world st) {| token := tok |} (arg_org args)) :: evs1)
      as [evs1 Hc1].
    { rewrite Hsetup. unfold bind, get_organization, org_get_teams, read_call.
      cbn [fst snd]. rewrite Hw.
      destruct (api_get_organization (world st) _ _) as [org|e]; cbn [fst snd].
      - destruct (api_org_get_teams _ org); cbn [snd calls record_call ret].
        all: rewrite Hc, <-app_assoc; eexists; reflexivity.
      - cbn [calls record_call]. rewrite Hc. eexists; reflexivity. }
    exists (evs1 ++ evs2). apply new_calls_app.
    rewrite Hext, Hc1, <-app_assoc. reflexivity.
  - assert (main env args st =
            (Raise (EnvironmentError
                      ("No token in " +:+ expand_path env "~/.sq_github_token")), st0))
      as ->.
    { unfold main. cbv zeta. unfold bind at 1. by rewrite Hsetup. }
    split; [done|]. cbn [snd]. unfold new_calls. rewrite Hc. by rewrite drop_all.
Qed.

End RunLogin.

Lemma main_login_witness :
  run_tagger home_env acme_args_no_token = Some acme_tagger /\
  run_token home_env acme_args_no_token = Some "t0k3n" /\
  (exists evs,
     new_calls (logging_init acme)
       (main home_env acme_args_no_token (logging_init acme)).2 =
       EvGetOrganization {| token := "t0k3n" |} "acme"
         (api_get_organization acme {| token := "t0k3n" |} "acme") :: evs) /\
  main home_env acme_args_no_token (module_init acme) =
    (Raise (AttributeError "'NoneType' object has no attribute 'debug'"),
     module_init acme).
Proof.
  split; [reflexivity|]. split; [reflexivity|]. split.
  - exact (main_login home_env acme_args_no_token (logging_init acme) acme_tagger eq_refl).
  - exact (main_login home_env acme_args_no_token (module_init acme) acme_tagger eq_refl).
Defined.

(** ** The requests of the analysis *)

Section AnalysisTrace.
Context {W : Type} {P : Provider W}.

Lemma find_tags_loop_calls (repo : Repository) (tags found has : list string)
    (st st' : state W) :
  foldM (fun found_tags t =>
      ref <- find_tag_by_name repo t ;;
      match ref with
      | Some r =>
          if truthy (ref_ref r) then
            debug "  found: {tag}" [("tag", VStr t)] ;;
            ret (found_tags ++ [re_sub_refs_tags (default "" (ref_ref r))])
          else
            debug "  not found: {tag}" [("tag", VStr t)] ;;
            ret found_tags
      | None =>
          debug "  not found: {tag}" [("tag", VStr t)] ;;
          ret found_tags
      end) tags found st = (Ok has, st') ->
  logger st = true ->
  calls st' = calls st ++ map (lookup_event (world st) (full_name repo)) tags /\
  cached_teams st' = cached_teams st /\ world st' = world st.
Proof.
  set (body := fun (found_tags : list string) (t : string) => _).
  revert found st. induction tags as [|t tags IH]; intros found st; cbn [foldM].
  - intros [= _ <-] _. cbn. by rewrite app_nil_r.
  - intros Hok Hlog. revert Hok.
    unfold bind at 1. unfold body at 1. unfold bind at 1.
    rewrite find_tag_by_name_run.
    destruct (lookup_outcome _) as [[r|]|e]; [destruct (truthy (ref_ref r))| |];
      try done; unfold bind at 1; logs; cbn [ret]; intros Hok;
      (destruct (IH _ _ Hok) as (Hc & Hca & Hw); [done|]); rewrite Hc, Hca, Hw;
      cbn [calls cached_teams world record_log record_call map];
      by rewrite <-app_assoc.
Qed.

Lemma find_tags_in_repo_calls (repo : Repository) (tags has : list string)
    (st st' : state W) :
  find_tags_in_repo repo tags st = (Ok has, st') ->
  calls st' = calls st ++ map (lookup_event (world st) (full_name repo)) tags /\
  cached_teams st' = cached_teams st /\ world st' = world st.
Proof.
  intros Hok.
  destruct (logger st) eqn:Hlog; [|by rewrite find_tags_in_repo_unset in Hok].
  revert Hok. unfold find_tags_in_repo. unfold bind at 1. logs. intros Hok.
  by apply (find_tags_loop_calls repo tags [] has _ _ Hok).
Qed.

(** X11: when the provider names refs as asked, [find_tags_in_repo] returns
    the requested tags that were found, in the order of the request, and
    has made one lookup for each requested tag, in that order, and no other
    request. *)
Theorem find_tags_in_repo_found (repo : Repository) (tags has : list string)
    (st : state W) :
  refs_named_as_asked (world st) ->
  (find_tags_in_repo repo tags st).1 = Ok has ->
  has = filter (fun t => lookup_absent st repo t = false) tags /\
  new_calls st (find_tags_in_repo repo tags st).2 =
    map (lookup_event (world st) (full_name repo)) tags.
Proof.
  intros Hnamed Hok.
  assert (logger st = true) as Hlog.
  { destruct (logger st) eqn:Hlog; [done|]. by rewrite find_tags_in_repo_unset in Hok. }
  split.
  - destruct (find_tags_in_repo_run repo tags st Hlog) as (st' & Heq & _).
    rewrite Heq in Hok. cbn [fst] in Hok.
    destruct (tags_found_ok _ _ _ _ _ Hnamed Hok) as [-> Hall]. rewrite app_nil_l.
    apply filter_ext_in. intros t Ht. rewrite lookup_absent_eq, (Hall t Ht).
    by destruct (absent_in (world st) (full_name repo) t).
  - apply new_calls_app.
    destruct (find_tags_in_repo repo tags st) as [res st'] eqn:Hrun.
    cbn [fst snd] in *. subst res. by apply (find_tags_in_repo_calls repo tags has st).
Qed.

Lemma find_repos_loop_calls (repos : list Repository) (tags : list string)
    (need0 need : pydict need_entry) (st st' : state W) :
  foldM (fun need r =>
      has_tags <- find_tags_in_repo r tags ;;
      debug "has_tags {t}" [("t", VStrs has_tags)] ;;
      let missing_tags := filter (fun x => x ∉ has_tags) tags in
      debug "missing_tags {t}" [("t", VStrs missing_tags)] ;;
      match missing_tags with
      | _ :: _ =>
          ret (dict_set (full_name r)
                 {| need_repo := r; need_tags := missing_tags |} need)
      | [] => ret need
      end) repos need0 st = (Ok need, st') ->
  logger st = true ->
  calls st' =
    calls st ++
    concat (map (fun r => map (lookup_event (world st) (full_name r)) tags) repos) /\
  cached_teams st' = cached_teams st /\ world st' = world st.
Proof.
  set (body := fun (need : pydict need_entry) (r : Repository) => _).
  revert need0 st. induction repos as [|r repos IH]; intros need0 st; cbn [foldM].
  - intros [= _ <-] _. cbn. by rewrite app_nil_r.
  - intros Hok Hlog. revert Hok.
    unfold bind at 1. unfold body at 1. unfold bind at 1.
    pose proof (logger_kept_find_tags_in_repo r tags st) as Hl1.
    destruct (find_tags_in_repo r tags st) as [[has|e] st1] eqn:Hrun; [|done].
    unfold logger_kept in Hl1. cbn [snd] in Hl1. rewrite Hlog in Hl1.
    destruct (find_tags_in_repo_calls _ _ _ _ _ Hrun) as (Hc1 & Hca1 & Hw1).
    unfold bind at 1. logs. cbv zeta. unfold bind at 1. logs.
    destruct (filter (fun x => x ∉ has) tags) as [|t ts]; cbn [ret]; intros Hok;
      (destruct (IH _ _ Hok) as (Hc & Hca & Hw); [done|]); rewrite Hc, Hca, Hw;
      cbn [calls cached_teams world record_log record_call map concat];
      by rewrite Hc1, Hca1, Hw1, <-app_assoc.
Qed.

(** X12: a [find_repos_missing_tags] that returns has made one lookup for each
    repository of the input and each requested tag, in the order of the
    input (again for a repository that occurs again), and nothing else: the
    provider and the team cache are as they were. *)
Theorem find_repos_missing_tags_lookups (repos : list Repository) (tags : list string)
    (need : pydict need_entry) (st : state W) :
  (find_repos_missing_tags repos tags st).1 = Ok need ->
  new_calls st (find_repos_missing_tags repos tags st).2 =
    concat (map (fun r => map (lookup_event (world st) (full_name r)) tags) repos) /\
  cached_teams (find_repos_missing_tags repos tags st).2 = cached_teams st /\
  world (find_repos_missing_tags repos tags st).2 = world st.
Proof.
  intros Hok.
  pose proof (find_repos_missing_tags_logger _ _ _ _ Hok) as Hlog.
  destruct (find_repos_missing_tags repos tags st) as [res st'] eqn:Hrun.
  cbn [fst snd] in *. subst res.
  revert Hrun. unfold find_repos_missing_tags. unfold bind at 1. logs. intros Hrun.
  destruct (find_repos_loop_calls repos tags [] need _ _ Hrun) as (Hc & Hca & Hw); [done|].
  split; [|split].
  - apply new_calls_app. exact Hc.
  - exact Hca.
  - exact Hw.
Qed.

End AnalysisTrace.

Lemma find_tags_in_repo_found_witness :
  refs_named_as_asked (world (logging_init acme)) /\
  (find_tags_in_repo widget ["v1.0"; "v1.1"] (logging_init acme)).1 = Ok ["v1.0"] /\
  ["v1.0"] =
    filter (fun t => lookup_absent (logging_init acme) widget t = false) ["v1.0"; "v1.1"] /\
  new_calls (logging_init acme)
    (find_tags_in_repo widget ["v1.0"; "v1.1"] (logging_init acme)).2 =
    map (lookup_event acme "acme/widget") ["v1.0"; "v1.1"].
Proof.
  split; [apply hub_refs_named|]. split; [vm_compute; reflexivity|].
  apply (find_tags_in_repo_found widget ["v1.0"; "v1.1"] ["v1.0"] (logging_init acme)).
  - apply hub_refs_named.
  - vm_compute; reflexivity.
Defined.

Lemma find_repos_missing_tags_lookups_witness :
  (find_repos_missing_tags [widget; gadget; widget] ["v1.0"; "v1.1"] (logging_init acme)).1 =
    Ok acme_need /\
  new_calls (logging_init acme)
    (find_repos_missing_tags [widget; gadget; widget] ["v1.0"; "v1.1"]
       (logging_init acme)).2 =
    concat (map (fun r => map (lookup_event acme (full_name r)) ["v1.0"; "v1.1"])
              [widget; gadget; widget]).
Proof.
  split; [vm_compute; reflexivity|].
  apply (find_repos_missing_tags_lookups [widget; gadget; widget] ["v1.0"; "v1.1"]
           acme_need (logging_init acme)).
  vm_compute; reflexivity.
Defined.

(** ** Outcome and order of the tagging *)

Section TagRepoOutcome.
Context {W : Type} {P : Provider W}.

Lemma ends_as_app {A} (res : result A) (evs1 evs2 : list event) :
  Forall (fun ev => event_error ev = None) evs1 ->
  ends_as res evs2 -> ends_as res (evs1 ++ evs2).
Proof.
  intros H1. destruct res as [a|e]; cbn.
  - intros H2. by apply Forall_app.
  - intros (evs0 & ev & -> & H0 & He). exists (evs1 ++ evs0), ev.
    split; [by rewrite app_assoc|]. split; [by apply Forall_app|done].
Qed.

(** One tag: its requests, its outcome and what it created. *)
Lemma tag_one_trace (repo : Repository) (head : GitRef) (tagger : InputGitAuthor)
    (dry_run : bool) (t : string) (st : state W) :
  exists evs,
    calls (tag_one repo head tagger dry_run t st).2 = calls st ++ evs /\
    logger (tag_one repo head tagger dry_run t st).2 = logger st /\
    (logger st = true -> ends_as (tag_one repo head tagger dry_run t st).1 evs) /\
    created_tags evs =
      match (tag_one repo head tagger dry_run t st).1 with
      | Ok _ => if dry_run then [] else [(full_name repo, t)]
      | Raise _ => []
      end.
Proof.
  destruct (logger st) eqn:Hlog; cycle 1.
  { exists []. rewrite !tag_one_unset by done. cbn [fst snd]. rewrite app_nil_r.
    by repeat split. }
  destruct dry_run.
  - rewrite tag_one_dry_run by done. exists []. cbn [fst snd calls logger].
    rewrite app_nil_r. split; [done|]. split; [done|]. split; [|done].
    intros _. constructor.
  - destruct (tag_one repo head tagger false t st) as [res st'] eqn:Hrun.
    revert Hrun. unfold tag_one. unfold bind at 1. logs. unfold bind at 1.
    unfold create_git_tag, create_git_ref, write_call; cbn [fst snd].
    destruct (api_create_git_tag _ _ _ _ _ _ _) as [[o|e] w1]; cbn [fst snd].
    + unfold bind at 1. logs. unfold bind at 1.
      cbn [fst snd world set_world record_call record_log].
      destruct (api_create_git_ref _ _ _ _) as [[r|e] w2]; cbn [fst snd]; logs;
        intros [= <- <-]; simpl.
      * eexists. split; [by rewrite <-app_assoc|]. split; [done|].
        split; [intros _; by repeat constructor|].
        unfold created_tags. cbn [app omap list_omap]. by rewrite strip_prefix_app.
      * eexists. split; [by rewrite <-app_assoc|]. split; [done|]. split; [|done].
        intros _. eexists [_], _. split; [done|]. by repeat constructor.
    + intros [= <- <-]. simpl. eexists. split; [done|]. split; [done|]. split; [|done].
      intros _. eexists [], _. by repeat constructor.
Qed.

Lemma tag_loop_trace (repo : Repository) (head : GitRef) (tagger : InputGitAuthor)
    (dry_run : bool) (tags : list string) (st : state W) :
  exists evs,
    calls (forM_ tags (tag_one repo head tagger dry_run) st).2 = calls st ++ evs /\
    (logger st = true -> ends_as (forM_ tags (tag_one repo head tagger dry_run) st).1 evs) /\
    created_tags evs `prefix_of`
      (if dry_run then [] else map (fun t => (full_name repo, t)) tags).
Proof.
  revert st. induction tags as [|t tags IH]; intros st; cbn [forM_].
  - exists []. cbn. rewrite app_nil_r. split; [done|]. split; [by constructor|].
    apply prefix_nil.
  - unfold bind.
    destruct (tag_one_trace repo head tagger dry_run t st)
      as (evs1 & Hc1 & Hl1 & He1 & Hcr1).
    revert Hc1 Hl1 He1 Hcr1.
    destruct (tag_one repo head tagger dry_run t st) as [[[]|e] st1]; cbn [fst snd];
      intros Hc1 Hl1 He1 Hcr1.
    + destruct (IH st1) as (evs2 & Hc2 & He2 & Hcr2).
      exists (evs1 ++ evs2). split; [by rewrite Hc2, Hc1, app_assoc|].
      split.
      * intros Hlog. apply ends_as_app; [by apply He1|]. apply He2. congruence.
      * rewrite created_tags_app, Hcr1. destruct dry_run; cbn [map].
        -- exact Hcr2.
        -- by apply (prefix_app [_]).
    + exists evs1. split; [done|]. split; [done|]. rewrite Hcr1. apply prefix_nil.
Qed.

Lemma tag_repo_trace (repo : Repository) (tags : list string) (tagger : InputGitAuthor)
    (dry_run : bool) (st st' : state W) (res : result unit) :
  tag_repo repo tags tagger dry_run st = (res, st') ->
  (logger st = true -> ends_as res (new_calls st st')) /\
  created_tags (new_calls st st') `prefix_of` map (fun t => (full_name repo, t)) tags.
Proof.
  destruct (logger st) eqn:Hlog; cycle 1.
  { rewrite tag_repo_unset by done. intros [= <- <-]. split; [done|].
    erewrite new_calls_app by done. apply prefix_nil. }
  rewrite tag_repo_unfold. unfold bind at 1, get_git_ref, read_call.
  destruct (api_get_git_ref (world st) (full_name repo) ("heads/" +:+ default_branch repo))
    as [head|e] eqn:Hans.
  - unfold bind at 1. cbn [fst snd]. logs.
    match goal with |- context [forM_ tags ?b ?s] =>
      destruct (tag_loop_trace repo head tagger dry_run tags s) as (evs & Hc & He & Hcr) end.
    intros Hrun. rewrite Hrun in Hc, He. cbn [fst snd] in Hc, He.
    cbn [calls logger record_log record_call] in Hc, He. rewrite <-app_assoc in Hc.
    rewrite (new_calls_app _ _ _ Hc). split.
    + intros _. apply (ends_as_app _ [_]); [by repeat constructor|by apply He].
    + destruct dry_run; [|exact Hcr]. etrans; [exact Hcr|apply prefix_nil].
  - intros [= <- <-]. erewrite new_calls_app by done. split; [|apply prefix_nil].
    intros _.
    exists [], (EvGetGitRef (full_name repo) ("heads/" +:+ default_branch repo) (Raise e)).
    by repeat constructor.
Qed.

(** An outcome the trace shows stops at the failure. *)
Lemma ends_as_stops {A} (res : result A) (evs : list event) :
  ends_as res evs -> stops_at_failure res evs.
Proof.
  destruct res as [a|e0]; cbn [ends_as].
  - intros Hall i ev e Hi He.
    pose proof (proj1 (Forall_lookup _ _) Hall i ev Hi) as Hnone. cbv beta in Hnone.
    congruence.
  - intros (evs0 & ev0 & -> & Hall & He0) i ev e Hi He.
    destruct (decide (i < length evs0)) as [Hlt|Hge].
    + rewrite lookup_app_l in Hi by done.
      pose proof (proj1 (Forall_lookup _ _) Hall i ev Hi) as Hnone. cbv beta in Hnone.
      congruence.
    + rewrite lookup_app_r in Hi by lia.
      apply list_lookup_singleton_Some in Hi as [Hi <-].
      rewrite length_app. cbn [length]. split; [lia|congruence].
Qed.

Lemma stops_at_failure_app {A B} (a : A) (res : result B) (evs1 evs2 : list event) :
  stops_at_failure (Ok a) evs1 -> stops_at_failure res evs2 ->
  stops_at_failure res (evs1 ++ evs2).
Proof.
  intros H1 H2 i ev e Hi He.
  destruct (decide (i < length evs1)) as [Hlt|Hge].
  - rewrite lookup_app_l in Hi by done. by destruct (H1 i ev e Hi He).
  - rewrite lookup_app_r in Hi by lia.
    destruct (H2 _ ev e Hi He) as [Hlen ->]. rewrite length_app. split; [lia|done].
Qed.

(** With or without a logger, a failure of the provider ends [tag_repo]. *)
Lemma tag_repo_stops (repo : Repository) (tags : list string) (tagger : InputGitAuthor)
    (dry_run : bool) (st : state W) :
  stops_at_failure (tag_repo repo tags tagger dry_run st).1
    (new_calls st (tag_repo repo tags tagger dry_run st).2).
Proof.
  destruct (logger st) eqn:Hlog.
  - apply ends_as_stops.
    destruct (tag_repo repo tags tagger dry_run st) as [res st'] eqn:Hrun.
    destruct (tag_repo_trace _ _ _ _ _ _ _ Hrun) as [He _]. by apply He.
  - rewrite tag_repo_unset by done. cbn [fst snd].
    erewrite new_calls_app by done.
    intros i ev e Hi He. apply list_lookup_singleton_Some in Hi as [-> <-].
    split; [done|].
    by destruct (api_get_git_ref (world st) (full_name repo)
                   ("heads/" +:+ default_branch repo)); simplify_eq/=.
Qed.

(** X13: [tag_repo] passes on every error of the provider: a request the
    provider answers with an exception (resolving the head, creating a tag
    object or creating a ref) is its last request, and it raises that
    exception.  In a process with a logger that is the only way it fails:
    it returns exactly when none of its requests raised. *)
Theorem tag_repo_outcome (repo : Repository) (tags : list string)
    (tagger : InputGitAuthor) (dry_run : bool) (st : state W) :
  stops_at_failure (tag_repo repo tags tagger dry_run st).1
    (new_calls st (tag_repo repo tags tagger dry_run st).2) /\
  (logger st = true ->
   ends_as (tag_repo repo tags tagger dry_run st).1
     (new_calls st (tag_repo repo tags tagger dry_run st).2)).
Proof.
  split; [apply tag_repo_stops|].
  intros Hlog. destruct (tag_repo repo tags tagger dry_run st) as [res st'] eqn:Hrun.
  destruct (tag_repo_trace _ _ _ _ _ _ _ Hrun) as [He _]. by apply He.
Qed.

(** X14: whatever its outcome, the tags [tag_repo] has created (tag object and
    ref) are the first of the tags it was given, in their order, and are in
    its own repository. *)
Theorem tag_repo_order_of_creation (repo : Repository) (tags : list string)
    (tagger : InputGitAuthor) (dry_run : bool) (st : state W) :
  created_tags (new_calls st (tag_repo repo tags tagger dry_run st).2)
    `prefix_of` map (fun t => (full_name repo, t)) tags.
Proof.
  destruct (tag_repo repo tags tagger dry_run st) as [res st'] eqn:Hrun.
  by destruct (tag_repo_trace _ _ _ _ _ _ _ Hrun).
Qed.

(** The tagging loop over some keys of the dictionary. *)
Lemma tag_entries_trace (need : pydict need_entry) (keys : list string)
    (tagger : InputGitAuthor) (dry_run : bool) (st st' : state W) (res : result unit) :
  logger st = true ->
  (forall k, k ∈ keys -> is_Some (dict_get k need)) ->
  forM_ keys (fun k =>
    e <- dict_item k need ;;
    let r := need_repo e in
    let tags := need_tags e in
    tag_repo r tags tagger dry_run) st = (res, st') ->
  ends_as res (new_calls st st') /\ calls_extend st st'.
Proof.
  set (body := fun k : string => _).
  revert st. induction keys as [|k keys IH]; intros st Hlog Hkeys; cbn [forM_].
  - intros [= <- <-]. split; [|reflexivity]. unfold new_calls. rewrite drop_all.
    constructor.
  - unfold bind at 1. unfold body at 1. unfold bind at 1, dict_item.
    destruct (Hkeys k) as [e He]; [by left|]. rewrite He. unfold ret. cbv beta iota zeta.
    pose proof (calls_extend_tag_repo (need_repo e) (need_tags e) tagger dry_run st) as Hx.
    pose proof (logger_kept_tag_repo (need_repo e) (need_tags e) tagger dry_run st) as Hl.
    destruct (tag_repo (need_repo e) (need_tags e) tagger dry_run st) as [[[]|e0] st1]
      eqn:Hrun; cbn [fst snd] in *.
    + destruct (tag_repo_trace _ _ _ _ _ _ _ Hrun) as [He1 _]. specialize (He1 Hlog).
      unfold logger_kept in Hl. rewrite Hlog in Hl. intros Hrest.
      destruct (IH st1 Hl) as [He2 Hx2]; [intros; apply Hkeys; by right|exact Hrest|].
      split; [|by etrans].
      rewrite (new_calls_split st st1 _ Hx Hx2). by apply ends_as_app.
    + intros [= <- <-].
      destruct (tag_repo_trace _ _ _ _ _ _ _ Hrun) as [He1 _]. split; [by apply He1|done].
Qed.

Lemma tag_entries_stops (need : pydict need_entry) (keys : list string)
    (tagger : InputGitAuthor) (dry_run : bool) (st st' : state W) (res : result unit) :
  forM_ keys (fun k =>
    e <- dict_item k need ;;
    let r := need_repo e in
    let tags := need_tags e in
    tag_repo r tags tagger dry_run) st = (res, st') ->
  stops_at_failure res (new_calls st st') /\ calls_extend st st'.
Proof.
  set (body := fun k : string => _).
  revert st. induction keys as [|k keys IH]; intros st; cbn [forM_].
  - intros [= <- <-]. split; [|reflexivity]. unfold new_calls. rewrite drop_all.
    by intros i ev e ?.
  - unfold bind at 1. unfold body at 1. unfold bind at 1, dict_item.
    destruct (dict_get k need) as [e|]; cycle 1.
    { unfold raise. intros [= <- <-]. split; [|reflexivity].
      unfold new_calls. rewrite drop_all. by intros i ev e ?. }
    unfold ret. cbv beta iota zeta.
    pose proof (calls_extend_tag_repo (need_repo e) (need_tags e) tagger dry_run st) as Hx.
    pose proof (tag_repo_stops (need_repo e) (need_tags e) tagger dry_run st) as Hs.
    destruct (tag_repo (need_repo e) (need_tags e) tagger dry_run st) as [[[]|e0] st1];
      cbn [fst snd] in *.
    + intros Hrest. destruct (IH st1 Hrest) as [Hs2 Hx2].
      split; [|by etrans].
      rewrite (new_calls_split st st1 _ Hx Hx2). by eapply stops_at_failure_app.
    + by intros [= <- <-].
Qed.

(** C4 (as amended): a failure of the provider in the tagging loop of [main]
    is not isolated.  A request of the loop that the provider answers with
    an exception (resolving a head, creating a tag object or creating a ref)
    is the last request of the loop, and the loop raises that exception: the
    remaining tags of that repository and the remaining repositories are not
    attempted.  In a process with a logger that is the only way the loop
    fails: it returns exactly when none of its requests raised. *)
Theorem tagging_stops_at_first_failure (need : pydict need_entry)
    (tagger : InputGitAuthor) (dry_run : bool) (st : state W) :
  stops_at_failure (main_tag_untagged need tagger dry_run st).1
    (new_calls st (main_tag_untagged need tagger dry_run st).2) /\
  (logger st = true ->
   ends_as (main_tag_untagged need tagger dry_run st).1
     (new_calls st (main_tag_untagged need tagger dry_run st).2)).
Proof.
  destruct (main_tag_untagged need tagger dry_run st) as [res st'] eqn:Hrun.
  unfold main_tag_untagged in Hrun. cbn [fst snd]. split.
  - by destruct (tag_entries_stops _ _ _ _ _ _ _ Hrun).
  - intros Hlog.
    apply (tag_entries_trace _ _ _ _ _ _ _ Hlog (fun k => dict_get_keys k need) Hrun).
Qed.

End TagRepoOutcome.

Lemma tag_repo_outcome_witness :
  logger (logging_init acme_widget_read_only) = true /\
  (tag_repo widget ["v1.1"] acme_tagger false (logging_init acme_widget_read_only)).1 =
    Raise (GithubException 403 "Resource not accessible by integration") /\
  ends_as (tag_repo widget ["v1.1"] acme_tagger false (logging_init acme_widget_read_only)).1
    (new_calls (logging_init acme_widget_read_only)
       (tag_repo widget ["v1.1"] acme_tagger false (logging_init acme_widget_read_only)).2).
Proof.
  split; [reflexivity|]. split; [vm_compute; reflexivity|].
  apply (tag_repo_outcome widget ["v1.1"] acme_tagger false
           (logging_init acme_widget_read_only)).
  reflexivity.
Defined.

Lemma tagging_stops_at_first_failure_witness :
  let st := logging_init acme_widget_read_only in
  let failed :=
    EvCreateGitTag "acme/widget" "v1.1" "Version v1.1" "aaa111" "commit" acme_tagger
      (Raise (GithubException 403 "Resource not accessible by integration")) in
  new_calls st (main_tag_untagged acme_need acme_tagger false st).2 =
    [EvGetGitRef "acme/widget" "heads/master"
       (Ok {| ref_ref := Some "refs/heads/master";
              object := {| sha := "aaa111"; type := "commit" |} |});
     failed] /\
  (main_tag_untagged acme_need acme_tagger false st).1 =
    Raise (GithubException 403 "Resource not accessible by integration") /\
  ends_as (main_tag_untagged acme_need acme_tagger false st).1
    (new_calls st (main_tag_untagged acme_need acme_tagger false st).2).
Proof.
  cbv zeta.
  destruct (tagging_stops_at_first_failure acme_need acme_tagger false
              (logging_init acme_widget_read_only)) as [Hstop Hends].
  assert (new_calls (logging_init acme_widget_read_only)
            (main_tag_untagged acme_need acme_tagger false
               (logging_init acme_widget_read_only)).2 =
          [EvGetGitRef "acme/widget" "heads/master"
             (Ok {| ref_ref := Some "refs/heads/master";
                    object := {| sha := "aaa111"; type := "commit" |} |});
           EvCreateGitTag "acme/widget" "v1.1" "Version v1.1" "aaa111" "commit" acme_tagger
             (Raise (GithubException 403 "Resource not accessible by integration"))])
    as Htrace by (vm_compute; reflexivity).
  split; [exact Htrace|]. split.
  - apply (Hstop 1
             (EvCreateGitTag "acme/widget" "v1.1" "Version v1.1" "aaa111" "commit"
                acme_tagger
                (Raise (GithubException 403 "Resource not accessible by integration")))
             (GithubException 403 "Resource not accessible by integration"));
      [by rewrite Htrace|reflexivity].
  - apply Hends. reflexivity.
Defined.

(** ** Dry runs of [main] *)

Section DryRun.
Context {W : Type} {P : Provider W}.

Lemma reads_only_tag_repo_dry_run (repo : Repository) (tags : list string)
    (tagger : InputGitAuthor) :
  keeps reads_only (tag_repo (W := W) repo tags tagger true).
Proof.
  intros st. destruct (tag_repo_dry_run repo tags tagger st) as (Hw & Hc & _).
  split; [exact Hw|]. eexists. split; [exact Hc|]. by repeat constructor.
Qed.

Lemma reads_only_main_tag_untagged_dry_run (need : pydict need_entry)
    (tagger : InputGitAuthor) :
  keeps reads_only (main_tag_untagged (W := W) need tagger true).
Proof.
  unfold main_tag_untagged. apply keeps_forM_; [apply _|]. intros k.
  apply keeps_bind; [apply _| |].
  - unfold dict_item. destruct (dict_get k need); [apply keeps_ret|apply keeps_raise];
      apply _.
  - intros e. apply reads_only_tag_repo_dry_run.
Qed.

Lemma reads_only_main_report_missing (need : pydict need_entry) :
  keeps reads_only (main_report_missing (W := W) need).
Proof.
  apply keeps_main_report_missing; first apply _; auto using reads_only_log.
Qed.

(** X15: a dry run of [main] never writes: whatever the provider answers and
    however the run ends, its trace holds no creating request and the
    provider is as it was. *)
Theorem main_dry_run_writes_nothing (env : Env) (args : Args) (st : state W) :
  arg_dry_run args = true ->
  world (main env args st).2 = world st /\
  filter is_write (new_calls st (main env args st).2) = [].
Proof.
  intros Hdry. apply reads_only_no_write. revert st.
  change (keeps reads_only (main env args)). unfold main. cbv zeta. rewrite Hdry.
  apply keeps_bind; [apply _|apply reads_only_main_setup|intros setup].
  apply keeps_bind; [apply _|apply reads_only_main_target_repos|intros target_repos].
  apply keeps_bind; [apply _|apply reads_only_main_report_found|intros _].
  apply keeps_bind; [apply _|apply reads_only_main_untagged|intros untagged_repos].
  apply keeps_bind; [apply _|apply reads_only_main_report_missing|intros _].
  apply reads_only_main_tag_untagged_dry_run.
Qed.

End DryRun.

Lemma main_dry_run_writes_nothing_witness :
  arg_dry_run (acme_args_for ["Core"; "Tools"] true) = true /\
  world (main acme_env (acme_args_for ["Core"; "Tools"] true) (logging_init acme)).2 = acme /\
  filter is_write
    (new_calls (logging_init acme)
       (main acme_env (acme_args_for ["Core"; "Tools"] true) (logging_init acme)).2) = [].
Proof.
  split; [reflexivity|].
  apply (main_dry_run_writes_nothing acme_env (acme_args_for ["Core"; "Tools"] true)
           (logging_init acme)).
  reflexivity.
Defined.

(** ** The requests for team lists *)

Section TeamRequests.
Context {W : Type} {P : Provider W}.

Lemma team_requests_app evs1 evs2 :
  team_requests (evs1 ++ evs2) = team_requests evs1 ++ team_requests evs2.
Proof. apply omap_app. Qed.

(** The three ways of [find_repo_teams]. *)
Lemma find_repo_teams_cases (repo : Repository) (st st' : state W)
    (res : result (list Team)) :
  find_repo_teams repo st = (res, st') ->
  match cached_teams st !! full_name repo with
  | Some teams => res = Ok teams /\ st' = st
  | None =>
      world st' = world st /\
      calls st' =
        calls st ++
        [EvRepoGetTeams (full_name repo)
           (api_repo_get_teams (world st) (full_name repo))] /\
      res = api_repo_get_teams (world st) (full_name repo) /\
      cached_teams st' =
        match res with
        | Ok teams => <[full_name repo := teams]> (cached_teams st)
        | Raise _ => cached_teams st
        end
  end.
Proof.
  unfold find_repo_teams.
  destruct (cached_teams st !! full_name repo) as [teams|]; [by intros [= <- <-]|].
  unfold bind, repo_get_teams, read_call. cbn [fst snd].
  destruct (api_repo_get_teams (world st) (full_name repo)) as [teams|e];
    by intros [= <- <-].
Qed.

(** X16: for a full name that is not in the cache, [find_repo_teams] asks
    the provider once and makes no other request; the list it gets is
    returned and cached under the full name, and an exception is raised on
    and leaves the full name out of the cache, so that the next lookup asks
    again. *)
Theorem find_repo_teams_request (repo : Repository) (st : state W) :
  cached_teams st !! full_name repo = None ->
  new_calls st (find_repo_teams repo st).2 =
    [EvRepoGetTeams (full_name repo) (api_repo_get_teams (world st) (full_name repo))] /\
  (find_repo_teams repo st).1 = api_repo_get_teams (world st) (full_name repo) /\
  cached_teams (find_repo_teams repo st).2 !! full_name repo =
    match api_repo_get_teams (world st) (full_name repo) with
    | Ok teams => Some teams
    | Raise _ => None
    end.
Proof.
  intros Hmiss. destruct (find_repo_teams repo st) as [res st'] eqn:Hrun.
  apply find_repo_teams_cases in Hrun. rewrite Hmiss in Hrun.
  destruct Hrun as (_ & Hc & -> & Hca). cbn [fst snd].
  split; [by apply new_calls_app|]. split; [done|]. rewrite Hca.
  destruct (api_repo_get_teams (world st) (full_name repo)); [|done].
  apply lookup_insert_eq.
Qed.

Lemma report_loop_requests (names : list string) (w : nat) (repos : list Repository)
    (st st' : state W) (res : result unit) :
  forM_ repos (fun r =>
    teams <- find_repo_teams r ;;
    let m_teams :=
      map team_name (filter (fun t => team_name t ∈ names) teams) in
    info "  {repo: >{w}} {teams}"
      [("w", VInt w); ("repo", VStr (full_name r)); ("teams", VStrs m_teams)]) st
    = (res, st') ->
  exists evs,
    calls st' = calls st ++ evs /\
    NoDup (team_requests evs) /\
    (forall k, k ∈ team_requests evs ->
       cached_teams st !! k = None /\ k ∈ map full_name repos) /\
    cached_teams st ⊆ cached_teams st' /\
    (res = Ok tt -> forall r, r ∈ repos -> is_Some (cached_teams st' !! full_name r)).
Proof.
  set (body := fun r : Repository => _).
  revert st. induction repos as [|r repos IH]; intros st; cbn [forM_].
  - intros [= <- <-]. exists []. rewrite app_nil_r. split; [done|].
    split; [constructor|]. split; [by intros k ?%not_elem_of_nil|].
    split; [done|]. by intros _ r ?%not_elem_of_nil.
  - unfold bind at 1. unfold body at 1. unfold bind at 1.
    destruct (find_repo_teams r st) as [[teams|e] st1] eqn:Hfind.
    + cbv zeta. destruct (logger st1) eqn:Hlog1; cycle 1.
      { rewrite info_unset by done. intros [= <- <-].
        apply find_repo_teams_cases in Hfind.
        destruct (cached_teams st !! full_name r) as [ts|] eqn:Hc.
        - destruct Hfind as [_ ->]. exists []. rewrite app_nil_r. split; [done|].
          split; [constructor|]. split; [by intros k ?%not_elem_of_nil|]. done.
        - destruct Hfind as (_ & Hc1 & _ & Hca1).
          eexists. split; [exact Hc1|]. cbn.
          split; [apply NoDup_singleton|]. split.
          { intros k ->%list_elem_of_singleton. split; [done|]. by left. }
          split; [|done]. rewrite Hca1. by apply insert_subseteq. }
      rewrite info_ok by done.
      apply find_repo_teams_cases in Hfind. intros Hrest.
      apply IH in Hrest as (evs & Hevs & Hnd & Hasked & Hsub & Hall).
      cbn [calls cached_teams record_log] in *.
      destruct (cached_teams st !! full_name r) as [ts|] eqn:Hc.
      * destruct Hfind as [_ ->]. exists evs. split; [done|]. split; [done|].
        split.
        { intros k Hk. destruct (Hasked k Hk). split; [done|]. by right. }
        split; [done|].
        intros Hok r' [->|Hin]%elem_of_cons; [|by apply Hall].
        eexists. eapply lookup_weaken; [exact Hc|exact Hsub].
      * destruct Hfind as (Hw1 & Hc1 & _ & Hca1). rewrite Hca1 in *.
        exists (EvRepoGetTeams (full_name r)
                  (api_repo_get_teams (world st) (full_name r)) :: evs).
        split; [by rewrite Hevs, Hc1, <-app_assoc|].
        change (team_requests (?ev :: evs)) with (full_name r :: team_requests evs).
        assert (forall k, k ∈ team_requests evs ->
                  k <> full_name r /\ cached_teams st !! k = None) as Hk.
        { intros k Hk. destruct (Hasked k Hk) as [Hnone _].
          destruct (decide (k = full_name r)) as [->|Hne].
          - by rewrite lookup_insert_eq in Hnone.
          - by rewrite lookup_insert_ne in Hnone. }
        split.
        { apply NoDup_cons. split; [|done]. intros Hin. by destruct (Hk _ Hin). }
        split.
        { intros k [->|Hin]%elem_of_cons.
          - split; [done|]. by left.
          - destruct (Hk _ Hin). destruct (Hasked k Hin). split; [done|]. by right. }
        split; [etrans; [|exact Hsub]; by apply insert_subseteq|].
        intros Hok r' [->|Hin]%elem_of_cons; [|by apply Hall].
        eexists. eapply lookup_weaken; [|exact Hsub]. apply lookup_insert_eq.
    + intros [= <- <-]. apply find_repo_teams_cases in Hfind.
      destruct (cached_teams st !! full_name r) as [ts|] eqn:Hc; [by destruct Hfind|].
      destruct Hfind as (_ & Hc1 & _ & Hca1).
      eexists. split; [exact Hc1|]. cbn.
      split; [apply NoDup_singleton|]. split.
      { intros k ->%list_elem_of_singleton. split; [done|]. by left. }
      split; [by rewrite Hca1|done].
Qed.

(** X17: the report of the selected repositories asks the provider for the
    teams of a full name at most once, and only for the full name of a
    target repository that is not in the cache when the report starts; when
    the report completes, every target repository is in the cache. *)
Theorem main_report_found_requests (names : list string) (repos : list Repository)
    (st st' : state W) (res : result unit) :
  main_report_found names repos st = (res, st') ->
  NoDup (team_requests (new_calls st st')) /\
  (forall k, k ∈ team_requests (new_calls st st') ->
     cached_teams st !! k = None /\ k ∈ map full_name repos) /\
  (res = Ok tt -> forall r, r ∈ repos -> is_Some (cached_teams st' !! full_name r)).
Proof.
  unfold main_report_found. cbv zeta. unfold bind at 1, of_result.
  destruct (max_key_len (map full_name repos)) as [longest|e].
  - unfold bind at 1. destruct (logger st) eqn:Hlog; cycle 1.
    { rewrite info_unset by done. intros [= <- <-]. unfold new_calls.
      rewrite drop_all. cbn.
      split; [constructor|]. split; [by intros k ?%not_elem_of_nil|done]. }
    rewrite info_ok by done. intros Hloop.
    apply report_loop_requests in Hloop as (evs & Hevs & Hnd & Hasked & _ & Hall).
    cbn [calls record_log] in Hevs. rewrite (new_calls_app _ _ _ Hevs).
    split; [exact Hnd|]. split; [exact Hasked|exact Hall].
  - intros [= <- <-]. unfold new_calls. rewrite drop_all. cbn.
    split; [constructor|]. split; [by intros k ?%not_elem_of_nil|done].
Qed.

End TeamRequests.

Lemma find_repo_teams_request_witness :
  cached_teams (module_init acme_locked) !! full_name widget = None /\
  (find_repo_teams widget (module_init acme_locked)).1 =
    Raise (GithubException 401 "Bad credentials") /\
  cached_teams (find_repo_teams widget (module_init acme_locked)).2 !! "acme/widget" = None.
Proof.
  split; [reflexivity|].
  destruct (find_repo_teams_request widget (module_init acme_locked) eq_refl)
    as (_ & Hres & Hcache).
  split; [exact Hres|exact Hcache].
Defined.

Lemma main_report_found_requests_witness :
  let st' := (main_report_found ["Core"] [widget; gadget; widget_renamed]
                (logging_init acme)).2 in
  main_report_found ["Core"] [widget; gadget; widget_renamed] (logging_init acme) =
    (Ok tt, st') /\
  team_requests (new_calls (logging_init acme) st') = ["acme/widget"; "acme/gadget"] /\
  NoDup (team_requests (new_calls (logging_init acme) st')).
Proof.
  cbv zeta. split; [vm_compute; reflexivity|]. split; [vm_compute; reflexivity|].
  apply (main_report_found_requests ["Core"] [widget; gadget; widget_renamed]
           (logging_init acme) _ (Ok tt)).
  vm_compute; reflexivity.
Defined.

(** ** What a run creates *)

Section RunWrites.
Context {W : Type} {P : Provider W}.

#[local] Instance writes_within_preorder (Q : event -> Prop) :
  PreOrder (writes_within (W := W) Q).
Proof.
  split.
  - intros st. exists []. by rewrite app_nil_r.
  - intros st1 st2 st3 (evs1 & Hc1 & Hf1) (evs2 & Hc2 & Hf2).
    exists (evs1 ++ evs2). split.
    + by rewrite Hc2, Hc1, app_assoc.
    + by apply Forall_app.
Qed.

Lemma writes_within_mono (Q Q' : event -> Prop) (st st' : state W) :
  (forall ev, Q ev -> Q' ev) -> writes_within Q st st' -> writes_within Q' st st'.
Proof.
  intros HQ (evs & Hc & Hf). exists evs. split; [done|].
  eapply Forall_impl; [exact Hf|]. intros ev Hev Hw. by apply HQ, Hev.
Qed.

Lemma reads_only_writes_within (Q : event -> Prop) (st st' : state W) :
  reads_only st st' -> writes_within Q st st'.
Proof.
  intros [_ (evs & Hc & Hf)]. exists evs. split; [done|].
  eapply Forall_impl; [exact Hf|]. intros ev Hev Hw. congruence.
Qed.

Lemma writes_within_elem (Q : event -> Prop) (st st' : state W) ev :
  writes_within Q st st' -> ev ∈ new_calls st st' -> is_write ev = true -> Q ev.
Proof.
  intros (evs & Hc & Hf). rewrite (new_calls_app _ _ _ Hc). intros Hin.
  by apply (proj1 (Forall_forall _ _) Hf).
Qed.

Lemma keeps_forM__elem (R : relation (state W)) `{!PreOrder R} {A}
    (body : A -> M W unit) (l : list A) :
  (forall a, a ∈ l -> keeps R (body a)) -> keeps R (forM_ l body).
Proof.
  induction l as [|x l IH]; intros Hb; cbn [forM_].
  - by apply keeps_ret.
  - apply keeps_bind; [done|apply Hb; by left|intros _].
    apply IH. intros a Ha. apply Hb. by right.
Qed.

Lemma writes_within_tag_one (repo : Repository) (head : GitRef) (tagger : InputGitAuthor)
    (dry_run : bool) (t : string) :
  keeps (writes_within (creates (full_name repo) t tagger))
    (tag_one (W := W) repo head tagger dry_run t).
Proof.
  intros st. destruct (logger st) eqn:Hlog; cycle 1.
  { rewrite tag_one_unset by done. exists []. by rewrite app_nil_r. }
  destruct dry_run.
  - rewrite tag_one_dry_run by done. exists []. by rewrite app_nil_r.
  - unfold writes_within, tag_one, bind, create_git_tag, create_git_ref, write_call.
    run_logs. cbn [fst snd world set_world record_call record_log].
    destruct (api_create_git_tag _ _ _ _ _ _ _) as [[o|e] w1]; cbn [fst snd]; run_logs.
    + cbn [fst snd world set_world record_call record_log].
      destruct (api_create_git_ref _ _ _ _) as [[r|e] w2]; cbn [fst snd]; run_logs; simpl;
        eexists; (split; [by rewrite <-app_assoc|]); by repeat constructor.
    + simpl. eexists; split; [done|]. by repeat constructor.
Qed.

Lemma writes_within_tag_repo (repo : Repository) (tags : list string)
    (tagger : InputGitAuthor) (dry_run : bool) :
  keeps (writes_within
           (fun ev => exists t, t ∈ tags /\ creates (full_name repo) t tagger ev))
    (tag_repo (W := W) repo tags tagger dry_run).
Proof.
  intros st. rewrite tag_repo_unfold. revert st.
  apply keeps_bind; [apply _| |intros head].
  - intros st. exists [EvGetGitRef (full_name repo) ("heads/" +:+ default_branch repo)
                         (api_get_git_ref (world st) (full_name repo)
                            ("heads/" +:+ default_branch repo))].
    split; [done|]. by repeat constructor.
  - apply keeps_bind; [apply _| |intros _].
    + intros st. unfold debug, log.
      destruct (logger st); exists []; by rewrite app_nil_r.
    + apply keeps_forM__elem; [apply _|]. intros t Ht st.
      eapply writes_within_mono; [|apply writes_within_tag_one]. intros ev Hev. eauto.
Qed.

Lemma writes_within_main_tag_untagged (need : pydict need_entry)
    (tagger : InputGitAuthor) (dry_run : bool) :
  keeps (writes_within
           (fun ev => exists k e t,
              dict_get k need = Some e /\ t ∈ need_tags e /\
              creates (full_name (need_repo e)) t tagger ev))
    (main_tag_untagged (W := W) need tagger dry_run).
Proof.
  unfold main_tag_untagged. apply keeps_forM_; [apply _|]. intros k st.
  unfold bind at 1, dict_item. destruct (dict_get k need) as [e|] eqn:He.
  - unfold ret. cbv beta iota zeta.
    eapply writes_within_mono; [|apply writes_within_tag_repo].
    intros ev (t & Ht & Hev). by exists k, e, t.
  - unfold raise. cbv beta iota zeta. reflexivity.
Qed.

(** What [main_untagged] returns is the dictionary of the analysis. *)
Lemma main_untagged_value (tags : list string) (repos : list Repository)
    (need : pydict need_entry) (st st' : state W) :
  main_untagged tags repos st = (Ok need, st') ->
  analysis (world st) tags repos [] = Ok need.
Proof.
  unfold main_untagged. unfold bind at 1.
  destruct (logger st) eqn:Hlog; cycle 1.
  { by rewrite find_repos_missing_tags_unset. }
  destruct (find_repos_missing_tags_run repos tags st Hlog) as (st1 & -> & _ & Hl1).
  destruct (analysis (world st) tags repos []) as [d|e]; [|done].
  cbv zeta. unfold bind at 1. logs. unfold bind at 1.
  match goal with |- context [forM_ ?l ?b ?s] =>
    destruct (forM_ l b s) as [[[]|e] st2] end; [|done].
  destruct d; [done|]. by intros [= <- _].
Qed.

Lemma elem_of_concat {A} (x : A) (ls : list (list A)) :
  x ∈ concat ls -> exists l, l ∈ ls /\ x ∈ l.
Proof.
  induction ls as [|l ls IH]; cbn [concat]; [by intros ?%not_elem_of_nil|].
  intros [Hx|Hx]%elem_of_app.
  - exists l. split; [by left|done].
  - destruct (IH Hx) as (l' & Hl' & Hx'). exists l'. split; [by right|done].
Qed.

Lemma missing_tags_of_subset (w : W) (repo : string) (tags missing : list string) t :
  missing_tags_of w repo tags = Ok missing -> t ∈ missing -> t ∈ tags.
Proof.
  unfold missing_tags_of. destruct (tags_found w repo tags []); [|done].
  intros [= <-]. by intros [_ ?]%list_elem_of_filter.
Qed.

(** Every creating request of a run is for a tag the analysis found missing,
    in a repository a requested team lists, by the tagger of the run. *)
Lemma main_writes (env : Env) (args : Args) (st : state W) :
  writes_within
    (fun ev => exists repo t tagger missing,
       creates repo t tagger ev /\
       missing_tags_of (world st) repo (arg_tag args) = Ok missing /\ t ∈ missing /\
       selected (world st) (arg_team args) repo /\
       run_tagger env args = Some tagger)
    st (main env args st).2.
Proof.
  set (Q := fun ev : event => _).
  pose proof (reads_only_main_setup env args st) as Hro1.
  unfold main. cbv zeta. unfold bind at 1.
  destruct (main_setup env args st) as [[[tagger teams]|e] st1] eqn:Hsetup;
    cbn [fst snd] in *; [|by apply reads_only_writes_within].
  pose proof (reads_only_main_target_repos (arg_team args) teams st1) as Hro2.
  unfold bind at 1.
  destruct (main_target_repos (arg_team args) teams st1) as [[repos|e] st2] eqn:Htarget;
    cbn [fst snd] in *;
    [|apply reads_only_writes_within; by etrans].
  pose proof (reads_only_main_report_found (arg_team args) repos st2) as Hro3.
  unfold bind at 1.
  destruct (main_report_found (arg_team args) repos st2) as [[[]|e] st3] eqn:Hreport;
    cbn [fst snd] in *;
    [|apply reads_only_writes_within; etrans; [exact Hro1|]; by etrans].
  pose proof (reads_only_main_untagged (arg_tag args) repos st3) as Hro4.
  unfold bind at 1.
  destruct (main_untagged (arg_tag args) repos st3) as [[need|e] st4] eqn:Huntagged;
    cbn [fst snd] in *;
    [|apply reads_only_writes_within; etrans; [exact Hro1|];
      etrans; [exact Hro2|]; by etrans].
  pose proof (reads_only_main_report_missing need st4) as Hro5.
  assert (reads_only st st4) as Hro.
  { etrans; [exact Hro1|]. etrans; [exact Hro2|]. by etrans. }
  unfold bind at 1.
  destruct (main_report_missing need st4) as [[[]|e] st5] eqn:Hmissing;
    cbn [fst snd] in *;
    [|apply reads_only_writes_within; by etrans].
  etrans; [apply reads_only_writes_within; etrans; [exact Hro|exact Hro5]|].
  eapply writes_within_mono; [|apply writes_within_main_tag_untagged].
  intros ev (k & e & t & He & Ht & Hev).
  assert (world st3 = world st) as Hw3.
  { destruct Hro1 as [H1 _], Hro2 as [H2 _], Hro3 as [H3 _]. congruence. }
  apply main_untagged_value in Huntagged. rewrite Hw3 in Huntagged.
  rewrite (analysis_lookup _ _ _ _ k Huntagged) in He.
  destruct (last (filter (fun r => full_name r = k) repos)) as [r|] eqn:Hlast; [|done].
  destruct (missing_tags_of (world st) k (arg_tag args)) as [[|t0 ts]|e0] eqn:Hm;
    try done.
  injection He as <-. cbn [need_repo need_tags] in *.
  apply last_Some_elem_of, list_elem_of_filter in Hlast as [Hk Hin].
  destruct (main_target_repos_value (arg_team args) teams repos st1)
    as (lists & Hlists & ->); [by rewrite Htarget|].
  apply elem_of_concat in Hin as (rs & Hrs & Hr).
  apply list_elem_of_lookup in Hrs as [i Hi].
  destruct (Forall2_lookup_r _ _ _ _ _ Hlists Hi) as (tm & Htm & Hans).
  apply list_elem_of_lookup_2, list_elem_of_filter in Htm as [Hname _].
  exists k, t, tagger, (t0 :: ts). rewrite Hk in Hev.
  split; [done|]. split; [done|]. split; [done|]. split.
  - exists tm, rs, r. destruct Hro1 as [H1 _]. rewrite H1 in Hans. done.
  - by eapply main_setup_identity.
Qed.

(** X18: whatever the provider answers and however the run ends, every
    creating request [main] makes is for a requested tag in a repository
    that a team with a requested name lists: a tag object named as the tag,
    with the message "Version <tag>" and the tagger identity of the run, or
    the ref refs/tags/<tag>. *)
Theorem main_creates_only_requested (env : Env) (args : Args) (st : state W) (ev : event) :
  ev ∈ new_calls st (main env args st).2 ->
  is_write ev = true ->
  exists repo t tagger,
    creates repo t tagger ev /\
    t ∈ arg_tag args /\
    selected (world st) (arg_team args) repo /\
    run_tagger env args = Some tagger.
Proof.
  intros Hin Hw.
  destruct (writes_within_elem _ _ _ _ (main_writes env args st) Hin Hw)
    as (repo & t & tagger & missing & Hev & Hm & Ht & Hsel & Htg).
  exists repo, t, tagger. split; [done|]. split; [|done].
  by eapply missing_tags_of_subset.
Qed.

(** X19: when the provider names the refs it returns as they were asked for,
    every creating request [main] makes is for a tag whose lookup, in the
    provider as the run found it, came back absent: a run never tries to
    create a tag that the analysis found. *)
Theorem main_creates_only_absent (env : Env) (args : Args) (st : state W) (ev : event) :
  refs_named_as_asked (world st) ->
  ev ∈ new_calls st (main env args st).2 ->
  is_write ev = true ->
  exists repo t tagger,
    creates repo t tagger ev /\ absent_in (world st) repo t = true.
Proof.
  intros Hnamed Hin Hw.
  destruct (writes_within_elem _ _ _ _ (main_writes env args st) Hin Hw)
    as (repo & t & tagger & missing & Hev & Hm & Ht & _ & _).
  exists repo, t, tagger. split; [done|].
  rewrite (missing_tags_of_ok _ _ _ _ Hnamed Hm) in Ht.
  by apply list_elem_of_filter in Ht as [? _].
Qed.

End RunWrites.

Lemma main_creates_only_requested_witness :
  widget_v1_1_created ∈
    new_calls (logging_init acme) (main acme_env acme_args (logging_init acme)).2 /\
  is_write widget_v1_1_created = true /\
  exists repo t tagger,
    creates repo t tagger widget_v1_1_created /\
    t ∈ arg_tag acme_args /\
    selected acme (arg_team acme_args) repo /\
    run_tagger acme_env acme_args = Some tagger.
Proof.
  assert (widget_v1_1_created ∈
            new_calls (logging_init acme) (main acme_env acme_args (logging_init acme)).2)
    as Hin.
  { apply (list_elem_of_lookup_2 _ 10). vm_compute. reflexivity. }
  split; [exact Hin|]. split; [reflexivity|].
  exact (main_creates_only_requested acme_env acme_args (logging_init acme) _ Hin eq_refl).
Defined.

Lemma main_creates_only_absent_witness :
  refs_named_as_asked acme /\
  gadget_v1_0_ref ∈
    new_calls (logging_init acme) (main acme_env acme_args (logging_init acme)).2 /\
  is_write gadget_v1_0_ref = true /\
  exists repo t tagger,
    creates repo t tagger gadget_v1_0_ref /\ absent_in acme repo t = true.
Proof.
  assert (gadget_v1_0_ref ∈
            new_calls (logging_init acme) (main acme_env acme_args (logging_init acme)).2)
    as Hin.
  { apply (list_elem_of_lookup_2 _ 14). vm_compute. reflexivity. }
  split; [apply hub_refs_named|]. split; [exact Hin|]. split; [reflexivity|].
  exact (main_creates_only_absent acme_env acme_args (logging_init acme) _
           (hub_refs_named acme) Hin eq_refl).
Defined.

(** ** How a run fails *)

Section RunFailures.
Context {W : Type} {P : Provider W} (own : exception -> Prop).

Lemma fails_well_ret {A} (a : A) : fails_well (W := W) own (ret a).
Proof. intros st Hlog. exists []. split; [by rewrite app_nil_r|]. by split. Qed.

Lemma fails_well_log lv tpl fs : fails_well (W := W) own (log lv tpl fs).
Proof.
  intros st Hlog. rewrite log_ok by done. exists []. cbn [fst snd calls logger record_log].
  split; [by rewrite app_nil_r|]. by split.
Qed.

Lemma fails_well_raise {A} (e : exception) :
  own e -> fails_well (W := W) own (raise (A := A) e).
Proof.
  intros He st Hlog. exists []. split; [by rewrite app_nil_r|]. split; [done|].
  intros e' [= <-]. by left.
Qed.

Lemma fails_well_of_result {A} (r : result A) :
  (forall e, r = Raise e -> own e) -> fails_well (W := W) own (of_result r).
Proof.
  intros Hr st Hlog. exists []. split; [by rewrite app_nil_r|]. split; [done|].
  intros e He. left. by apply Hr.
Qed.

Lemma fails_well_read_call {A} (ask : W -> result A) (ev : result A -> event) :
  (forall e, event_error (ev (Raise e)) = Some e) ->
  fails_well own (read_call ask ev).
Proof.
  intros Hev st Hlog. exists [ev (ask (world st))]. split; [done|]. split; [done|].
  unfold read_call. cbn [fst]. intros e ->. right. exists [], (ev (Raise e)). by split.
Qed.

Lemma fails_well_write_call {A} (ask : W -> result A * W) (ev : result A -> event) :
  (forall e, event_error (ev (Raise e)) = Some e) ->
  fails_well own (write_call ask ev).
Proof.
  intros Hev st Hlog. exists [ev (ask (world st)).1]. split; [done|]. split; [done|].
  unfold write_call. cbn [fst]. intros e ->. right. exists [], (ev (Raise e)). by split.
Qed.

Lemma fails_well_bind {A B} (m : M W A) (k : A -> M W B) :
  fails_well own m -> (forall a, fails_well own (k a)) -> fails_well own (bind m k).
Proof.
  intros Hm Hk st Hlog. unfold bind. destruct (Hm st Hlog) as (evs1 & Hc1 & Hl1 & He1).
  destruct (m st) as [[a|e] st1]; cbn [fst snd] in *.
  - destruct (Hk a st1 Hl1) as (evs2 & Hc2 & Hl2 & He2). exists (evs1 ++ evs2).
    split; [by rewrite Hc2, Hc1, app_assoc|]. split; [done|].
    intros e He. destruct (He2 e He) as [Hown|(evs0 & ev & -> & Hev)]; [by left|].
    right. exists (evs1 ++ evs0), ev. by rewrite app_assoc.
  - exists evs1. split; [done|]. split; [done|]. intros e' [= <-]. by apply He1.
Qed.

Lemma fails_well_foldM {A B} (body : B -> A -> M W B) (l : list A) (acc : B) :
  (forall b a, fails_well own (body b a)) -> fails_well own (foldM body l acc).
Proof.
  intros Hb. revert acc. induction l as [|x l IH]; intros acc; cbn [foldM].
  - apply fails_well_ret.
  - apply fails_well_bind; [apply Hb|exact IH].
Qed.

Lemma fails_well_forM_ {A} (body : A -> M W unit) (l : list A) :
  (forall a, a ∈ l -> fails_well own (body a)) -> fails_well own (forM_ l body).
Proof.
  induction l as [|x l IH]; intros Hb; cbn [forM_].
  - apply fails_well_ret.
  - apply fails_well_bind; [apply Hb; by left|intros _].
    apply IH. intros a Ha. apply Hb. by right.
Qed.

Lemma fails_well_find_tag_by_name (repo : Repository) (t : string) :
  fails_well own (find_tag_by_name repo t).
Proof.
  intros st Hlog. rewrite find_tag_by_name_run. cbn [fst snd calls logger record_call].
  eexists. split; [reflexivity|]. split; [done|]. intros e He. right.
  destruct (api_get_git_ref (world st) (full_name repo) ("tags/" +:+ t)) as [ref|e0];
    cbn [lookup_outcome] in He; [done|].
  destruct (is_GithubException e0); [done|]. injection He as ->.
  eexists [], _. by split.
Qed.

Lemma fails_well_find_repo_teams (repo : Repository) :
  fails_well own (find_repo_teams repo).
Proof.
  intros st Hlog. unfold find_repo_teams.
  destruct (cached_teams st !! full_name repo) as [teams|].
  - exists []. split; [by rewrite app_nil_r|]. by split.
  - unfold bind, repo_get_teams, read_call. cbn [fst snd].
    destruct (api_repo_get_teams (world st) (full_name repo)) as [teams|e] eqn:Hans;
      cbn [fst snd calls logger record_call set_cached_teams ret].
    + eexists. split; [reflexivity|]. by split.
    + eexists. split; [reflexivity|]. split; [done|]. intros e' [= <-]. right.
      eexists [], _. by split.
Qed.

Lemma fails_well_dict_item {V} (k : string) (d : pydict V) :
  k ∈ dict_keys d -> fails_well (W := W) own (dict_item k d).
Proof.
  intros [v Hv]%dict_get_keys. unfold dict_item. rewrite Hv. apply fails_well_ret.
Qed.

Ltac fails_step :=
  first
    [ apply fails_well_ret | apply fails_well_log
    | apply fails_well_read_call; intros; reflexivity
    | apply fails_well_write_call; intros; reflexivity
    | apply fails_well_find_tag_by_name
    | apply fails_well_find_repo_teams
    | apply fails_well_bind | apply fails_well_foldM
    | match goal with
      | |- forall _, _ => intro
      | |- fails_well _ (match ?x with _ => _ end) => destruct x
      | |- fails_well _ (if ?x then _ else _) => destruct x
      end ].

Ltac fails_tac := cbv zeta; repeat fails_step.

Lemma fails_well_find_repos_missing_tags (repos : list Repository) (tags : list string) :
  fails_well own (find_repos_missing_tags repos tags).
Proof.
  unfold find_repos_missing_tags, find_tags_in_repo, debug. fails_tac.
Qed.

Lemma fails_well_tag_repo (repo : Repository) (tags : list string)
    (tagger : InputGitAuthor) (dry_run : bool) :
  fails_well own (tag_repo repo tags tagger dry_run).
Proof.
  unfold tag_repo, get_git_ref, create_git_tag, create_git_ref, debug. fails_tac.
  apply fails_well_forM_. fails_tac.
Qed.

Lemma fails_well_main_tag_untagged (need : pydict need_entry) (tagger : InputGitAuthor)
    (dry_run : bool) :
  fails_well own (main_tag_untagged need tagger dry_run).
Proof.
  unfold main_tag_untagged. apply fails_well_forM_. intros k Hk.
  apply fails_well_bind; [by apply fails_well_dict_item|intros e].
  apply fails_well_tag_repo.
Qed.

End RunFailures.

Section RunFailuresMain.
Context {W : Type} {P : Provider W}.

Ltac fails_step :=
  first
    [ apply fails_well_ret | apply fails_well_log
    | apply fails_well_read_call; intros; reflexivity
    | apply fails_well_find_repo_teams
    | apply fails_well_bind | apply fails_well_foldM
    | apply fails_well_raise; unfold own_exits; set_solver
    | match goal with
      | |- forall _, _ => intro
      | |- fails_well _ (match ?x with _ => _ end) => destruct x
      | |- fails_well _ (if ?x then _ else _) => destruct x
      end ].

Ltac fails_tac := cbv zeta; repeat fails_step.

Lemma fails_well_max_key_len (env : Env) (names : list string) :
  fails_well (W := W) (fun e => e ∈ own_exits env) (of_result (max_key_len names)).
Proof.
  apply fails_well_of_result. intros e. destruct names; [|done].
  intros [= <-]. unfold own_exits. set_solver.
Qed.

Lemma fails_well_main (env : Env) (args : Args) :
  fails_well (fun e => e ∈ own_exits env) (main env args).
Proof.
  unfold main. cbv zeta.
  apply fails_well_bind.
  { unfold main_setup, lookup_email, lookup_tagger, current_timestamp, login_github,
      github_token, get_organization, org_get_teams, debug. fails_tac. }
  intros setup. apply fails_well_bind.
  { unfold main_target_repos, team_get_repos, debug. fails_tac. }
  intros target_repos. apply fails_well_bind.
  { unfold main_report_found, info. cbv zeta.
    apply fails_well_bind; [apply fails_well_max_key_len|intros longest].
    apply fails_well_bind; [apply fails_well_log|intros _].
    apply fails_well_forM_. fails_tac. }
  intros _. apply fails_well_bind.
  { unfold main_untagged, info. cbv zeta.
    apply fails_well_bind; [apply fails_well_find_repos_missing_tags|intros need].
    apply fails_well_bind; [apply fails_well_log|intros _].
    apply fails_well_bind; [apply fails_well_forM_; fails_tac|intros _].
    fails_tac. }
  intros untagged_repos. apply fails_well_bind.
  { unfold main_report_missing, info. cbv zeta.
    apply fails_well_bind; [apply fails_well_log|intros _].
    apply fails_well_bind; [apply fails_well_max_key_len|intros longest].
    apply fails_well_forM_. intros k Hk.
    apply fails_well_bind; [by apply fails_well_dict_item|intros e].
    apply fails_well_log. }
  intros _. apply fails_well_main_tag_untagged.
Qed.

(** X20: an exception that ends a run of [main] in a process with a logger
    is one of the six the script raises itself (the two exits for a missing
    identity, the missing token file, "No teams found", [max()] of an empty
    list, "nothing to do"), or it is the answer of the provider to the last
    request of the run: the run stops at the first request whose exception
    it does not catch, and no dictionary lookup of the script fails.  In a
    process without a logger, the run ends with the exit for a missing
    email address or with the [AttributeError] of the first [debug()]. *)
Theorem main_raises (env : Env) (args : Args) (st : state W) (e : exception) :
  (main env args st).1 = Raise e ->
  if logger st
  then e ∈ own_exits env \/ raised_by_last e (new_calls st (main env args st).2)
  else e = SystemExit "Specify --email option" \/
       e = AttributeError "'NoneType' object has no attribute 'debug'".
Proof.
  intros He. destruct (logger st) eqn:Hlog.
  - destruct (fails_well_main env args st Hlog) as (evs & Hc & _ & Hraise).
    rewrite (new_calls_app _ _ _ Hc). by apply Hraise.
  - destruct (match arg_email args with Some e => Some e | None => git_user_email env end)
      as [email|] eqn:Hemail.
    + rewrite (main_unset env args st email Hlog Hemail) in He.
      injection He as <-. by right.
    + left. revert He. unfold main, main_setup, lookup_email, bind.
      destruct (arg_email args); [done|]. destruct (git_user_email env); [done|].
      cbn. by intros [= <-].
Qed.

End RunFailuresMain.

Lemma main_raises_witness :
  (main acme_env acme_args (logging_init acme_locked)).1 =
    Raise (GithubException 401 "Bad credentials") /\
  (GithubException 401 "Bad credentials" ∈ own_exits acme_env \/
   raised_by_last (GithubException 401 "Bad credentials")
     (new_calls (logging_init acme_locked)
        (main acme_env acme_args (logging_init acme_locked)).2)) /\
  (main acme_env acme_args (module_init acme_locked)).1 =
    Raise (AttributeError "'NoneType' object has no attribute 'debug'").
Proof.
  split; [reflexivity|]. split; [|reflexivity].
  apply (main_raises acme_env acme_args (logging_init acme_locked)).
  reflexivity.
Defined.

(** ** What a completed run created *)

Section RunCompleted.
Context {W : Type} {P : Provider W}.

Lemma created_tags_reads (evs : list event) :
  Forall (fun ev => is_write ev = false) evs -> created_tags evs = [].
Proof.
  induction 1 as [|ev evs Hev _ IH]; [done|].
  unfold created_tags. cbn [omap list_omap]. fold (created_tags evs). rewrite IH.
  by destruct ev.
Qed.

(** The answers behind a set-up that succeeded. *)
Lemma main_setup_answers (env : Env) (args : Args) (st st1 : state W)
    (tagger : InputGitAuthor) (teams : list Team) :
  main_setup env args st = (Ok (tagger, teams), st1) ->
  exists tok org,
    run_token env args = Some tok /\
    api_get_organization (world st) {| token := tok |} (arg_org args) = Ok org /\
    api_org_get_teams (world st) org = Ok teams.
Proof.
  intros Hsetup. destruct (main_setup_identity _ _ _ _ _ _ Hsetup) as [Htagger Hlog].
  destruct (main_setup_run env args st tagger Hlog Htagger) as (st0 & Hrun & Hw & _).
  rewrite Hsetup in Hrun. destruct (run_token env args) as [tok|]; [|done].
  exists tok. revert Hrun.
  unfold bind, get_organization, org_get_teams, read_call. cbn [fst snd]. rewrite Hw.
  destruct (api_get_organization (world st) _ _) as [org|e] eqn:Horg; [|done].
  cbn [world record_call]. rewrite Hw.
  destruct (api_org_get_teams (world st) org) as [ts|e] eqn:Hts; [|done].
  unfold ret. intros [= <- _]. by exists org.
Qed.

(** The tags a tagging loop that completed created: those of its entries. *)
Lemma tag_entries_created (need es : pydict need_entry) (tagger : InputGitAuthor)
    (st st' : state W) :
  (forall k e, (k, e) ∈ es -> dict_get k need = Some e /\ full_name (need_repo e) = k) ->
  forM_ es.*1 (fun k =>
    e <- dict_item k need ;;
    let r := need_repo e in
    let tags := need_tags e in
    tag_repo r tags tagger false) st = (Ok tt, st') ->
  calls_extend st st' /\
  created_tags (new_calls st st') =
    concat (map (fun ke => map (fun t => (ke.1, t)) (need_tags ke.2)) es).
Proof.
  set (body := fun k : string => _).
  revert st. induction es as [|[k e] es IH]; intros st Hes; cbn [forM_ fmap list_fmap fst].
  - intros [= <-]. split; [reflexivity|]. unfold new_calls. by rewrite drop_all.
  - unfold bind at 1. unfold body at 1. unfold bind at 1, dict_item.
    destruct (Hes k e) as [-> Hk]; [by left|]. unfold ret. cbv beta iota zeta.
    destruct (tag_repo (need_repo e) (need_tags e) tagger false st) as [[[]|e0] st1]
      eqn:Hrun; [|done].
    intros Hrest. apply IH in Hrest as [Hext Hrest]; [|intros; apply Hes; by right].
    destruct (tag_repo_run_created _ _ _ _ _ Hrun)
      as (_ & head & created & _ & Hlen & Hc & _).
    pose proof (calls_extend_tag_repo (need_repo e) (need_tags e) tagger false st) as Hext1.
    rewrite Hrun in Hext1. cbn [snd] in Hext1.
    split; [by etrans|].
    rewrite (new_calls_split st st1 st') by done.
    rewrite created_tags_app, Hrest, Hc. cbn [map concat fst snd]. f_equal.
    change (?ev :: ?l) with ([ev] ++ l).
    rewrite created_tags_app, created_tags_tag_events by done.
    by rewrite Hk.
Qed.

(** X21: a run of [main] that is not a dry run and completes ran in a
    process with a logger (no run completes without one) and has created,
    in this order, every tag the analysis found missing: with the token of
    the run, the organisation and its teams as the provider listed them, and
    the repositories of the teams with a requested name chained in that
    order, the refs created are those of the dictionary of the analysis,
    entry by entry and, within an entry, in the order of the request. *)
Theorem main_completed (env : Env) (args : Args) (st st' : state W) :
  arg_dry_run args = false ->
  main env args st = (Ok tt, st') ->
  logger st = true /\
  exists tok org teams lists need,
    run_token env args = Some tok /\
    api_get_organization (world st) {| token := tok |} (arg_org args) = Ok org /\
    api_org_get_teams (world st) org = Ok teams /\
    Forall2 (fun t rs => api_team_get_repos (world st) t = Ok rs)
      (filter (fun t => team_name t ∈ arg_team args) teams) lists /\
    analysis (world st) (arg_tag args) (concat lists) [] = Ok need /\
    created_tags (new_calls st st') =
      concat (map (fun ke => map (fun t => (ke.1, t)) (need_tags ke.2)) need).
Proof.
  intros Hdry. pose proof (reads_only_main_setup env args st) as Hro1.
  unfold main. cbv zeta. rewrite Hdry. unfold bind at 1.
  destruct (main_setup env args st) as [[[tagger teams]|e] st1] eqn:Hsetup;
    cbn [fst snd] in *; [|done].
  pose proof (reads_only_main_target_repos (arg_team args) teams st1) as Hro2.
  unfold bind at 1.
  destruct (main_target_repos (arg_team args) teams st1) as [[repos|e] st2] eqn:Htarget;
    cbn [fst snd] in *; [|done].
  pose proof (reads_only_main_report_found (arg_team args) repos st2) as Hro3.
  unfold bind at 1.
  destruct (main_report_found (arg_team args) repos st2) as [[[]|e] st3] eqn:Hreport;
    cbn [fst snd] in *; [|done].
  pose proof (reads_only_main_untagged (arg_tag args) repos st3) as Hro4.
  unfold bind at 1.
  destruct (main_untagged (arg_tag args) repos st3) as [[need|e] st4] eqn:Huntagged;
    cbn [fst snd] in *; [|done].
  pose proof (reads_only_main_report_missing need st4) as Hro5.
  unfold bind at 1.
  destruct (main_report_missing need st4) as [[[]|e] st5] eqn:Hmissing;
    cbn [fst snd] in *; [|done].
  intros Htag.
  assert (reads_only st st5) as Hro.
  { etrans; [exact Hro1|]. etrans; [exact Hro2|]. etrans; [exact Hro3|]. by etrans. }
  destruct (main_setup_answers _ _ _ _ _ _ Hsetup) as (tok & org & Htok & Horg & Hteams).
  split; [by destruct (main_setup_identity _ _ _ _ _ _ Hsetup)|].
  destruct (main_target_repos_value (arg_team args) teams repos st1)
    as (lists & Hlists & ->); [by rewrite Htarget|].
  assert (world st3 = world st) as Hw3.
  { destruct Hro1 as [H1 _], Hro2 as [H2 _], Hro3 as [H3 _]. congruence. }
  apply main_untagged_value in Huntagged. rewrite Hw3 in Huntagged.
  exists tok, org, teams, lists, need. do 3 (split; [done|]).
  split; [by destruct Hro1 as [<- _]|]. split; [done|].
  assert (NoDup (dict_keys need)) as Hnd.
  { eapply analysis_NoDup; [|exact Huntagged]. constructor. }
  destruct (tag_entries_created need need tagger st5 st') as [Hext Hcreated].
  { intros k e Hin. pose proof (dict_get_NoDup _ _ _ Hnd Hin) as Hget. split; [done|].
    rewrite (analysis_lookup _ _ _ _ k Huntagged) in Hget.
    destruct (last (filter (fun r => full_name r = k) (concat lists))) as [r|] eqn:Hlast;
      [|done].
    destruct (missing_tags_of (world st) k (arg_tag args)) as [[|t0 ts]|e0]; try done.
    injection Hget as <-. cbn [need_repo].
    by apply last_Some_elem_of, list_elem_of_filter in Hlast as [? _]. }
  { exact Htag. }
  destruct Hro as [_ (evs & Hc & Hreads)].
  rewrite (new_calls_split st st5 st'); [|by exists evs|done].
  rewrite created_tags_app, (new_calls_app _ _ _ Hc), (created_tags_reads _ Hreads).
  exact Hcreated.
Qed.

End RunCompleted.

Lemma main_completed_witness :
  let st' := (main acme_env acme_args (logging_init acme)).2 in
  arg_dry_run acme_args = false /\
  main acme_env acme_args (logging_init acme) = (Ok tt, st') /\
  logger (logging_init acme) = true /\
  exists tok org teams lists need,
    run_token acme_env acme_args = Some tok /\
    api_get_organization acme {| token := tok |} (arg_org acme_args) = Ok org /\
    api_org_get_teams acme org = Ok teams /\
    Forall2 (fun t rs => api_team_get_repos acme t = Ok rs)
      (filter (fun t => team_name t ∈ arg_team acme_args) teams) lists /\
    analysis acme (arg_tag acme_args) (concat lists) [] = Ok need /\
    created_tags (new_calls (logging_init acme) st') =
      concat (map (fun ke => map (fun t => (ke.1, t)) (need_tags ke.2)) need).
Proof.
  cbv zeta. split; [reflexivity|]. split; [vm_compute; reflexivity|].
  apply (main_completed acme_env acme_args (logging_init acme)); [reflexivity|].
  vm_compute; reflexivity.
Defined.

(** ** The phases of a run *)

Section RunPhases.
Context {W : Type} {P : Provider W}.

(** X22: in a process with a logger, when the set-up succeeds and the teams
    with a requested name list no repository at all, the run ends with the
    [ValueError] of [max()] on line 259, in the state the resolver left:
    before the report, before any lookup of a tag or of the teams of a
    repository, and before any creating request. *)
Theorem main_without_target_repos (env : Env) (args : Args) (st st1 st2 : state W)
    (tagger : InputGitAuthor) (teams : list Team) :
  logger st = true ->
  main_setup env args st = (Ok (tagger, teams), st1) ->
  main_target_repos (arg_team args) teams st1 = (Ok [], st2) ->
  main env args st = (Raise (ValueError "max() arg is an empty sequence"), st2) /\
  world st2 = world st /\
  filter is_write (new_calls st st2) = [].
Proof.
  intros _ Hsetup Htarget.
  pose proof (reads_only_main_setup env args st) as Hro1. rewrite Hsetup in Hro1.
  pose proof (reads_only_main_target_repos (arg_team args) teams st1) as Hro2.
  rewrite Htarget in Hro2. cbn [snd] in *.
  split.
  - unfold main. cbv zeta. unfold bind at 1. rewrite Hsetup. cbn [fst snd].
    unfold bind at 1. rewrite Htarget. unfold bind at 1.
    by rewrite main_report_found_no_repos.
  - apply reads_only_no_write. by etrans.
Qed.

#[local] Instance tagging_only_preorder : PreOrder (tagging_only (W := W)).
Proof.
  split.
  - intros st. exists []. by rewrite app_nil_r.
  - intros st1 st2 st3 (evs1 & Hc1 & Hf1) (evs2 & Hc2 & Hf2).
    exists (evs1 ++ evs2). split.
    + by rewrite Hc2, Hc1, app_assoc.
    + by apply Forall_app.
Qed.

Lemma tagging_only_tag_repo (repo : Repository) (tags : list string)
    (tagger : InputGitAuthor) (dry_run : bool) :
  keeps tagging_only (tag_repo (W := W) repo tags tagger dry_run).
Proof.
  intros st. destruct (tag_repo_calls repo tags tagger dry_run st) as (res & evs & Hc & Hw).
  eexists. split; [exact Hc|]. constructor; [by eexists|].
  eapply Forall_impl; [exact Hw|]. by intros [].
Qed.

Lemma tagging_only_main_tag_untagged (need : pydict need_entry)
    (tagger : InputGitAuthor) (dry_run : bool) :
  keeps tagging_only (main_tag_untagged (W := W) need tagger dry_run).
Proof.
  unfold main_tag_untagged. apply keeps_forM_; [apply _|]. intros k.
  apply keeps_bind; [apply _| |intros e; apply tagging_only_tag_repo].
  unfold dict_item. destruct (dict_get k need); [apply keeps_ret|apply keeps_raise];
    apply _.
Qed.

#[local] Instance analysis_only_preorder : PreOrder (analysis_only (W := W)).
Proof.
  split.
  - intros st. exists []. by rewrite app_nil_r.
  - intros st1 st2 st3 (evs1 & Hc1 & Hf1) (evs2 & Hc2 & Hf2).
    exists (evs1 ++ evs2). split.
    + by rewrite Hc2, Hc1, app_assoc.
    + by apply Forall_app.
Qed.

Lemma analysis_only_log lv tpl fs : keeps (analysis_only (W := W)) (log lv tpl fs).
Proof.
  intros st. unfold log. destruct (logger st); exists []; by rewrite app_nil_r.
Qed.

Lemma analysis_only_read_call {A} (ask : W -> result A) (ev : result A -> event) :
  (forall r, analysis_request (ev r)) -> keeps analysis_only (read_call ask ev).
Proof.
  intros Hev st. exists [ev (ask (world st))]. split; [done|].
  constructor; [apply Hev|constructor].
Qed.

Lemma analysis_only_find_repo_teams (repo : Repository) :
  keeps analysis_only (find_repo_teams (W := W) repo).
Proof.
  intros st. unfold find_repo_teams.
  destruct (cached_teams st !! full_name repo) as [teams|].
  - exists []. by rewrite app_nil_r.
  - unfold bind, repo_get_teams, read_call. cbn [fst snd].
    destruct (api_repo_get_teams (world st) (full_name repo)) as [teams|e];
      cbn [fst snd calls record_call set_cached_teams ret];
      eexists; (split; [reflexivity|]); by repeat constructor.
Qed.

Ltac head_of t :=
  lazymatch t with
  | ?f _ => head_of f
  | _ => t
  end.

Ltac phase_step :=
  first
    [ apply keeps_ret | apply keeps_raise | apply keeps_of_result
    | apply analysis_only_log
    | apply analysis_only_find_repo_teams
    | apply analysis_only_read_call; intros; first [exact I|by eexists]
    | apply keeps_bind | apply keeps_try_except
    | apply keeps_foldM | apply keeps_forM_
    | match goal with
      | |- PreOrder _ => apply _
      | |- forall _, _ => intro
      | |- keeps _ (match ?x with _ => _ end) => destruct x
      | |- keeps _ (if ?x then _ else _) => destruct x
      | |- keeps _ ?m => let h := head_of m in progress unfold h
      end ].

Ltac phase_tac := cbv zeta; repeat phase_step.

Lemma analysis_only_main_setup env args :
  keeps analysis_only (main_setup (W := W) env args).
Proof. unfold main_setup. phase_tac. Qed.

Lemma analysis_only_main_target_repos names teams :
  keeps analysis_only (main_target_repos (W := W) names teams).
Proof. unfold main_target_repos. phase_tac. Qed.

Lemma analysis_only_main_report_found names repos :
  keeps analysis_only (main_report_found (W := W) names repos).
Proof. unfold main_report_found. phase_tac. Qed.

Lemma analysis_only_main_untagged tags repos :
  keeps analysis_only (main_untagged (W := W) tags repos).
Proof.
  unfold main_untagged, find_repos_missing_tags, find_tags_in_repo, find_tag_by_name,
    get_git_ref.
  phase_tac.
Qed.

Lemma analysis_only_main_report_missing need :
  keeps analysis_only (main_report_missing (W := W) need).
Proof. unfold main_report_missing. phase_tac. Qed.

(** No request is both of the analysis and of the tagging. *)
Lemma analysis_request_not_tagging (ev : event) :
  analysis_request ev -> tagging_request ev -> False.
Proof. destruct ev; try done. by intros [t ->] [branch ?]. Qed.

(** A run of [main] is an analysis, and then, when the analysis left a
    dictionary, the tagging loop on that dictionary. *)
Lemma main_phases (env : Env) (args : Args) (st : state W) :
  exists st5, analysis_only st st5 /\
    ((main env args st).2 = st5 \/
     exists (need : pydict need_entry) (tagger : InputGitAuthor)
            (repos : list Repository) (st3 : state W),
       analysis (world st3) (arg_tag args) repos [] = Ok need /\
       main env args st = main_tag_untagged need tagger (arg_dry_run args) st5).
Proof.
  pose proof (analysis_only_main_setup env args st) as Hro1.
  remember (main env args st) as run eqn:Hrun. revert Hrun.
  unfold main. cbv zeta. unfold bind at 1.
  destruct (main_setup env args st) as [[[tagger teams]|e] st1];
    cbn [fst snd] in *; [|intros ->; exists st1; split; [done|by left]].
  pose proof (analysis_only_main_target_repos (arg_team args) teams st1) as Hro2.
  unfold bind at 1.
  destruct (main_target_repos (arg_team args) teams st1) as [[repos|e] st2];
    cbn [fst snd] in *; [|intros ->; exists st2; split; [by etrans|by left]].
  pose proof (analysis_only_main_report_found (arg_team args) repos st2) as Hro3.
  unfold bind at 1.
  destruct (main_report_found (arg_team args) repos st2) as [[[]|e] st3];
    cbn [fst snd] in *;
    [|intros ->; exists st3; split; [etrans; [exact Hro1|]; by etrans|by left]].
  pose proof (analysis_only_main_untagged (arg_tag args) repos st3) as Hro4.
  assert (analysis_only st st3) as Hro by (etrans; [exact Hro1|]; by etrans).
  unfold bind at 1.
  destruct (main_untagged (arg_tag args) repos st3) as [[need|e] st4] eqn:Huntagged;
    cbn [fst snd] in *; [|intros ->; exists st4; split; [by etrans|by left]].
  pose proof (analysis_only_main_report_missing need st4) as Hro5.
  unfold bind at 1.
  destruct (main_report_missing need st4) as [[[]|e] st5];
    cbn [fst snd] in *;
    [|intros ->; exists st5; split; [etrans; [exact Hro|]; by etrans|by left]].
  intros ->. exists st5. split; [etrans; [exact Hro|]; by etrans|].
  right. exists need, tagger, repos, st3. split; [|done].
  by apply main_untagged_value in Huntagged.
Qed.

(** X23: the trace of a run of [main] is an analysis followed by a tagging:
    first listings of the organisation, of teams and of repositories and
    lookups of tags, then only lookups of heads and creating requests; no
    request is of both kinds.  Once a run has resolved a head or created a
    tag it lists no team and looks up no tag again. *)
Theorem main_analysis_then_tagging (env : Env) (args : Args) (st : state W) :
  (exists evs1 evs2,
     new_calls st (main env args st).2 = evs1 ++ evs2 /\
     Forall analysis_request evs1 /\
     Forall tagging_request evs2) /\
  (forall ev, analysis_request ev -> tagging_request ev -> False) /\
  (forall i j ev1 ev2,
     new_calls st (main env args st).2 !! i = Some ev1 ->
     new_calls st (main env args st).2 !! j = Some ev2 ->
     i <= j -> tagging_request ev1 -> tagging_request ev2).
Proof.
  assert (exists st5, analysis_only st st5 /\ tagging_only st5 (main env args st).2)
    as (st5 & (evs1 & Hc1 & Hr) & (evs2 & Hc2 & Ht)).
  { destruct (main_phases env args st) as (st5 & Hro & [->|Htag]).
    - exists st5. split; [done|reflexivity].
    - destruct Htag as (need & tagger & repos & st3 & _ & ->).
      exists st5. split; [done|]. apply tagging_only_main_tag_untagged. }
  assert (new_calls st (main env args st).2 = evs1 ++ evs2) as Hsplit.
  { apply new_calls_app. by rewrite Hc2, Hc1, app_assoc. }
  split; [by exists evs1, evs2|]. split; [apply analysis_request_not_tagging|].
  rewrite Hsplit. intros i j ev1 ev2 Hi Hj Hij Htag.
  destruct (decide (i < length evs1)) as [Hlt|Hge].
  - rewrite lookup_app_l in Hi by done.
    destruct (analysis_request_not_tagging ev1); [|done].
    by apply (proj1 (Forall_lookup _ _) Hr i).
  - rewrite lookup_app_r in Hj by lia.
    by apply (proj1 (Forall_lookup _ _) Ht (j - length evs1)).
Qed.

(** No head is resolved during the analysis. *)
Lemma head_lookups_analysis (evs : list event) :
  Forall analysis_request evs -> head_lookups evs = [].
Proof.
  induction 1 as [|ev evs Hev _ IH]; [done|].
  change (ev :: evs) with ([ev] ++ evs). rewrite head_lookups_app, IH, app_nil_r.
  destruct ev; try done. by destruct Hev as [t ->].
Qed.

End RunPhases.

Lemma main_without_target_repos_witness :
  let st := logging_init acme_no_repos in
  let st1 := (main_setup acme_env acme_args st).2 in
  let st2 := (main_target_repos (arg_team acme_args) [core_team] st1).2 in
  main acme_env acme_args st =
    (Raise (ValueError "max() arg is an empty sequence"), st2) /\
  world st2 = acme_no_repos /\
  filter is_write (new_calls st st2) = [].
Proof.
  cbv zeta.
  apply (main_without_target_repos acme_env acme_args (logging_init acme_no_repos)
           (main_setup acme_env acme_args (logging_init acme_no_repos)).2
           (main_target_repos (arg_team acme_args) [core_team]
              (main_setup acme_env acme_args (logging_init acme_no_repos)).2).2
           acme_tagger [core_team]).
  - reflexivity.
  - vm_compute; reflexivity.
  - vm_compute; reflexivity.
Defined.

(** ** One application per full name *)

Section OneApplication.
Context {W : Type} {P : Provider W}.

Lemma prefix_NoDup_fst {A B} (l1 l2 : list (A * B)) :
  l1 `prefix_of` l2 -> NoDup l2.*1 -> NoDup l1.*1.
Proof.
  intros [k ->]. rewrite fmap_app. by intros [? _]%NoDup_app.
Qed.

(** The heads a tagging loop that completed resolved: that of every entry,
    once, in the order of the dictionary. *)
Lemma tag_entries_head_lookups_ok (need es : pydict need_entry) (tagger : InputGitAuthor)
    (dry_run : bool) (st st' : state W) :
  (forall k e, (k, e) ∈ es -> dict_get k need = Some e /\ full_name (need_repo e) = k) ->
  forM_ es.*1 (fun k =>
    e <- dict_item k need ;;
    tag_repo (need_repo e) (need_tags e) tagger dry_run) st = (Ok tt, st') ->
  calls_extend st st' /\
  head_lookups (new_calls st st') =
    map (fun ke => (ke.1, "heads/" +:+ default_branch (need_repo ke.2))) es.
Proof.
  set (body := fun k : string => _).
  revert st. induction es as [|[k e] es IH]; intros st Hes; cbn [forM_ fmap list_fmap fst].
  - intros [= <-]. split; [reflexivity|]. unfold new_calls. by rewrite drop_all.
  - unfold bind at 1. unfold body at 1. unfold bind at 1, dict_item.
    destruct (Hes k e) as [-> Hk]; [by left|]. unfold ret. cbv beta iota.
    pose proof (tag_repo_head_lookups (need_repo e) (need_tags e) tagger dry_run st) as Hh.
    pose proof (calls_extend_tag_repo (need_repo e) (need_tags e) tagger dry_run st) as Hx.
    destruct (tag_repo (need_repo e) (need_tags e) tagger dry_run st) as [[[]|e0] st1];
      [|done].
    cbn [snd] in *. intros Hrest.
    apply IH in Hrest as [Hext Hrest]; [|intros; apply Hes; by right].
    split; [by etrans|].
    rewrite (new_calls_split st st1 st') by done.
    rewrite head_lookups_app, Hrest, Hh, Hk. done.
Qed.

(** The dictionary of an analysis: one entry per full name, which holds the
    last repository of the input with that name. *)
Lemma analysis_entries (w : W) (tags : list string) (repos : list Repository)
    (need : pydict need_entry) :
  analysis w tags repos [] = Ok need ->
  NoDup (dict_keys need) /\
  (forall k e, dict_get k need = Some e ->
     last (filter (fun r => full_name r = k) repos) = Some (need_repo e)) /\
  (forall k e, (k, e) ∈ need ->
     dict_get k need = Some e /\ full_name (need_repo e) = k).
Proof.
  intros Ha.
  assert (NoDup (dict_keys need)) as Hnd.
  { eapply analysis_NoDup; [|exact Ha]. constructor. }
  assert (forall k e, dict_get k need = Some e ->
            last (filter (fun r => full_name r = k) repos) = Some (need_repo e)) as Hlast.
  { intros k e He. rewrite (analysis_lookup _ _ _ _ k Ha) in He.
    destruct (last (filter (fun r => full_name r = k) repos)) as [r|]; [|done].
    destruct (missing_tags_of w k tags) as [[|t ts]|e0]; try done.
    by injection He as <-. }
  split; [done|]. split; [done|].
  intros k e Hin.
  pose proof (dict_get_NoDup _ _ _ Hnd Hin) as Hget. split; [done|].
  apply Hlast, last_Some_elem_of, list_elem_of_filter in Hget. by destruct Hget.
Qed.

(** The tagging loop on the dictionary of an analysis. *)
Lemma tag_entries_applied (w : W) (tags : list string) (repos : list Repository)
    (need : pydict need_entry) (tagger : InputGitAuthor) (dry_run : bool)
    (st : state W) :
  analysis w tags repos [] = Ok need ->
  let applied :=
    head_lookups (new_calls st (main_tag_untagged need tagger dry_run st).2) in
  let entries :=
    map (fun ke => (ke.1, "heads/" +:+ default_branch (need_repo ke.2))) need in
  NoDup applied.*1 /\
  applied `prefix_of` entries /\
  ((main_tag_untagged need tagger dry_run st).1 = Ok tt -> applied = entries).
Proof.
  intros Ha. destruct (analysis_entries _ _ _ _ Ha) as (Hnd & _ & Hcons). cbv zeta.
  assert (head_lookups (new_calls st (main_tag_untagged need tagger dry_run st).2)
          `prefix_of`
          map (fun ke => (ke.1, "heads/" +:+ default_branch (need_repo ke.2))) need) as Hpre.
  { by apply tag_entries_head_lookups. }
  split; [|split; [done|]].
  - eapply prefix_NoDup_fst; [exact Hpre|].
    unfold dict_keys in Hnd. clear -Hnd.
    assert ((map (fun ke : string * need_entry =>
                    (ke.1, "heads/" +:+ default_branch (need_repo ke.2))) need).*1
            = need.*1) as ->; [|done].
    induction need as [|[k e] need IH]; [done|]. cbn. f_equal. apply IH.
    by apply NoDup_cons in Hnd as [_ ?].
  - intros Hok.
    destruct (main_tag_untagged need tagger dry_run st) as [res st3] eqn:Hloop.
    cbn [fst snd] in *. subst res.
    by destruct (tag_entries_head_lookups_ok need need tagger dry_run st st3 Hcons Hloop).
Qed.

(** C10: every run of [main], however it ends, resolves at most one head per
    full name, and [tag_repo] resolves exactly one head per call: no run
    applies [tag_repo] twice to a full name.  The dictionary of
    [find_repos_missing_tags] has one entry per full name, which holds the
    last repository of the input with that full name; the tagging loop of
    [main] run on it resolves heads only for entries of the dictionary, in
    its order and at most once per full name, on the default branch of the
    repository the entry holds; and a loop that completes has applied
    [tag_repo] to every entry, exactly once. *)
Theorem one_tag_repo_per_full_name :
  (forall (repo : Repository) (tags : list string) (tagger : InputGitAuthor)
          (dry_run : bool) (st : state W),
     head_lookups (new_calls st (tag_repo repo tags tagger dry_run st).2) =
       [(full_name repo, "heads/" +:+ default_branch repo)]) /\
  (forall (env : Env) (args : Args) (st : state W),
     NoDup (head_lookups (new_calls st (main env args st).2)).*1) /\
  (forall (repos : list Repository) (tags : list string) (st st1 : state W)
          (need : pydict need_entry),
     find_repos_missing_tags repos tags st = (Ok need, st1) ->
     NoDup (dict_keys need) /\
     (forall k e, dict_get k need = Some e ->
        last (filter (fun r => full_name r = k) repos) = Some (need_repo e)) /\
     forall (tagger : InputGitAuthor) (dry_run : bool) (st2 : state W),
       let applied :=
         head_lookups (new_calls st2 (main_tag_untagged need tagger dry_run st2).2) in
       let entries :=
         map (fun ke => (ke.1, "heads/" +:+ default_branch (need_repo ke.2))) need in
       NoDup applied.*1 /\
       applied `prefix_of` entries /\
       ((main_tag_untagged need tagger dry_run st2).1 = Ok tt -> applied = entries)).
Proof.
  split; [apply tag_repo_head_lookups|]. split.
  - intros env args st.
    destruct (main_phases env args st) as (st5 & (evs1 & Hc1 & Hr) & [->|Htag]).
    + rewrite (new_calls_app _ _ _ Hc1), (head_lookups_analysis _ Hr). constructor.
    + destruct Htag as (need & tagger & repos & st3 & Ha & ->).
      pose proof (calls_extend_main_tag_untagged need tagger (arg_dry_run args) st5) as Hx.
      rewrite (new_calls_split st st5 _ (ex_intro _ evs1 Hc1) Hx).
      rewrite (new_calls_app _ _ _ Hc1), head_lookups_app, (head_lookups_analysis _ Hr).
      cbn [app].
      by destruct (tag_entries_applied _ _ _ _ tagger (arg_dry_run args) st5 Ha).
  - intros repos tags st st1 need Hrun.
    assert (logger st = true) as Hlog.
    { apply (find_repos_missing_tags_logger repos tags st need). by rewrite Hrun. }
    destruct (find_repos_missing_tags_run repos tags st Hlog) as (st' & Heq & _).
    rewrite Hrun in Heq. injection Heq as Ha _. symmetry in Ha.
    destruct (analysis_entries _ _ _ _ Ha) as (Hnd & Hlast & _).
    split; [done|]. split; [done|].
    intros tagger dry_run st2. by eapply tag_entries_applied.
Qed.

End OneApplication.

Lemma one_tag_repo_per_full_name_witness :
  let repos := [widget_renamed; gadget; widget] in
  let st := logging_init acme in
  let need :=
    [("acme/widget", {| need_repo := widget; need_tags := ["v1.1"] |});
     ("acme/gadget", {| need_repo := gadget; need_tags := ["v1.0"; "v1.1"] |})] in
  let st1 := (find_repos_missing_tags repos ["v1.0"; "v1.1"] st).2 in
  find_repos_missing_tags repos ["v1.0"; "v1.1"] st = (Ok need, st1) /\
  last (filter (fun r => full_name r = "acme/widget") repos) = Some widget /\
  (main_tag_untagged need acme_tagger false st1).1 = Ok tt /\
  head_lookups (new_calls st1 (main_tag_untagged need acme_tagger false st1).2) =
    [("acme/widget", "heads/master"); ("acme/gadget", "heads/main")].
Proof.
  cbv zeta.
  assert (find_repos_missing_tags [widget_renamed; gadget; widget] ["v1.0"; "v1.1"]
            (logging_init acme) =
          (Ok [("acme/widget", {| need_repo := widget; need_tags := ["v1.1"] |});
               ("acme/gadget", {| need_repo := gadget; need_tags := ["v1.0"; "v1.1"] |})],
           (find_repos_missing_tags [widget_renamed; gadget; widget] ["v1.0"; "v1.1"]
              (logging_init acme)).2)) as Hrun by (vm_compute; reflexivity).
  destruct (proj2 (proj2 (one_tag_repo_per_full_name (W := hub))) _ _ _ _ _ Hrun)
    as (_ & Hlast & Happlied).
  split; [exact Hrun|]. split; [exact (Hlast "acme/widget" _ eq_refl)|].
  assert ((main_tag_untagged
             [("acme/widget", {| need_repo := widget; need_tags := ["v1.1"] |});
              ("acme/gadget", {| need_repo := gadget; need_tags := ["v1.0"; "v1.1"] |})]
             acme_tagger false
             (find_repos_missing_tags [widget_renamed; gadget; widget] ["v1.0"; "v1.1"]
                (logging_init acme)).2).1 = Ok tt) as Hok by (vm_compute; reflexivity).
  split; [exact Hok|].
  destruct (Happlied acme_tagger false
              (find_repos_missing_tags [widget_renamed; gadget; widget] ["v1.0"; "v1.1"]
                 (logging_init acme)).2) as (_ & _ & Hall).
  exact (Hall Hok).
Defined.
